(** * Digital-twin RAG migration: a shallow embedding and its properties

    The development follows [migrate_data_to_rag.py] (the migration
    pipeline), [api_server.py] (the mock confidence score) and the
    vector-id handling of [test_rag_functionality.py].

    Conventions.
    - A Python [str] is the list of its code points ([str := list N]);
      ASCII literals are written with [py "..."].
    - A Python exception is a value of [exn]; a call that may raise
      returns a [result].
    - The relational database, the vector index, the statistics record,
      the list of chunk objects shared by the last two stages and the
      sleeps of the retry loop form the [World] threaded by the monad [M].
    - What an external service decides (what a path holds, whether a
      call to the database or to the vector store fails) is part of the
      [World]; the interpreter's Unicode table of decimal digits is a
      section variable. Every theorem holds for all of their values. *)

From Stdlib Require Import PrimFloat.
From Stdlib Require Import Ascii String DecimalString DecimalN.
From stdpp Require Import functions gmap strings list.

Set Warnings "-inexact-float,-register-all".

(** ** Python strings *)

Definition str := list N.

Definition py (s : string) : str := map N_of_ascii (list_ascii_of_string s).

Definition str_eqb (a b : str) : bool := bool_decide (a = b).

(** [s.startswith(p)] *)
Fixpoint startswith (p s : str) : bool :=
  match p, s with
  | [], _ => true
  | _ :: _, [] => false
  | a :: p', b :: s' => N.eqb a b && startswith p' s'
  end.

(** [p in s] for strings: [p] occurs in [s] as a contiguous run. *)
Fixpoint contains (p s : str) : bool :=
  startswith p s ||
  match s with
  | [] => false
  | _ :: s' => contains p s'
  end.

(** [str.lower] on the ASCII letters. Code points outside ASCII are kept.
    Only two of them have a lower-case form with an ASCII letter (U+0130
    gives [i] followed by U+0307, U+212A gives [k]); the words this
    program searches for have no [k], and an [i] only before another
    letter, so whether one of them occurs is decided on the ASCII letters
    alone. The builder lower-cases the keywords of a chunk with the same
    function: they are the code's for ASCII text. *)
Definition lower_cp (c : N) : N :=
  if (65 <=? c)%N && (c <=? 90)%N then (c + 32)%N else c.

Definition lower (s : str) : str := map lower_cp s.

(** [s.replace(old, new)] for a pattern [old] of one code point. *)
Definition replace (old : N) (new : str) (s : str) : str :=
  flat_map (fun c => if N.eqb c old then new else [c]) s.

(** [str.isspace] of one code point (CPython's [_PyUnicode_IsWhitespace]). *)
Definition isspace (c : N) : bool :=
  ((9 <=? c) && (c <=? 13) || (28 <=? c) && (c <=? 32) ||
   (c =? 133) || (c =? 160) || (c =? 5760) ||
   (8192 <=? c) && (c <=? 8202) || (c =? 8232) || (c =? 8233) ||
   (c =? 8239) || (c =? 8287) || (c =? 12288))%N.

Fixpoint lstrip (s : str) : str :=
  match s with
  | c :: s' => if isspace c then lstrip s' else s
  | [] => []
  end.

(** [s.strip()] *)
Definition strip (s : str) : str := rev (lstrip (rev (lstrip s))).

(** [s.split(sep)] for a non-empty separator: the separator is searched
    from the left and occurrences do not overlap. [skip] counts the code
    points of a separator just matched that are still to be passed;
    [cur] is the part being read, reversed. *)
Fixpoint split_go (sep : str) (skip : nat) (cur : str) (s : str) : list str :=
  match s with
  | [] => [rev cur]
  | c :: s' =>
      match skip with
      | S k => split_go sep k cur s'
      | O =>
          if startswith sep s
          then rev cur :: split_go sep (length sep - 1) [] s'
          else split_go sep 0 (c :: cur) s'
      end
  end.

Definition split (sep s : str) : list str := split_go sep 0 [] s.

(** [sep.join(parts)] *)
Fixpoint join (sep : str) (parts : list str) : str :=
  match parts with
  | [] => []
  | [p] => p
  | p :: rest => p ++ sep ++ join sep rest
  end.

(** ** Exceptions *)

Inductive exn : Type :=
  | FileNotFoundError
  | JSONDecodeError
  | OSError            (* any other failure of [open] or [read] *)
  | UnicodeDecodeError
  | TypeError
  | AttributeError
  | KeyError
  | ValueError
  | DatabaseError      (* raised by psycopg2 *)
  | UpstashError       (* raised by the vector client *)
  | SystemExit (code : nat).   (* sys.exit; not an [Exception] *)

Inductive result (A : Type) : Type :=
  | Ok (a : A)
  | Raise (e : exn).
Arguments Ok {A} a.
Arguments Raise {A} e.

#[global] Instance exn_eq_dec : EqDecision exn.
Proof. solve_decision. Defined.

(** ** Dates: [datetime.strptime] for the formats of [parse_date] *)

(** A [datetime] built by [strptime] from a year and a month: the day is 1
    and the time of day is midnight. *)
Record datetime : Type := mk_datetime { year : N; month : N; day : N }.

#[global] Instance datetime_eq_dec : EqDecision datetime.
Proof. solve_decision. Defined.

(** The pieces of a format string, as [_strptime] compiles them into a
    regular expression. *)
Inductive fmt_item : Type :=
  | FYear            (* %Y : \d\d\d\d *)
  | FMonth           (* %m : 1[0-2]|0[1-9]|[1-9] *)
  | FMonthName       (* %B : the full month names *)
  | FMonthAbbr       (* %b : the abbreviated month names *)
  | FSpace           (* white space in the format : \s+ *)
  | FLit (c : N)     (* any other character, matched as it is *)
  | FBad.            (* a directive this program does not use *)

Fixpoint compile_format (fmt : str) : list fmt_item :=
  match fmt with
  | [] => []
  | c :: rest =>
      if (c =? 37)%N then                     (* '%' and its directive *)
        match rest with
        | [] => [FBad]
        | d :: rest' =>
            (if (d =? 89)%N then FYear
             else if (d =? 109)%N then FMonth
             else if (d =? 66)%N then FMonthName
             else if (d =? 98)%N then FMonthAbbr
             else FBad) :: compile_format rest'
        end
      else if isspace c then
        match compile_format rest with       (* a run of white space is one \s+ *)
        | FSpace :: _ as items => items
        | items => FSpace :: items
        end
      else FLit c :: compile_format rest
  end.

(** The month names of the C locale, in the order of the alternation that
    [_strptime] builds (longest first). *)
Definition full_month_names : list (str * N) :=
  [(py "september", 9); (py "february", 2); (py "november", 11);
   (py "december", 12); (py "january", 1); (py "october", 10);
   (py "august", 8); (py "march", 3); (py "april", 4); (py "june", 6);
   (py "july", 7); (py "may", 5)]%N.

Definition abbr_month_names : list (str * N) :=
  [(py "jan", 1); (py "feb", 2); (py "mar", 3); (py "apr", 4);
   (py "may", 5); (py "jun", 6); (py "jul", 7); (py "aug", 8);
   (py "sep", 9); (py "oct", 10); (py "nov", 11); (py "dec", 12)]%N.

(** The ways [1[0-2]|0[1-9]|[1-9]] matches at the head of [s], in the
    order the regular expression tries them: the value and the rest. *)
Definition month_alternatives (s : str) : list (N * str) :=
  (match s with
   | a :: b :: rest =>
       if ((a =? 49) && (48 <=? b) && (b <=? 50))%N
       then [((10 + (b - 48))%N, rest)] else []
   | _ => []
   end) ++
  (match s with
   | a :: b :: rest =>
       if ((a =? 48) && (49 <=? b) && (b <=? 57))%N
       then [((b - 48)%N, rest)] else []
   | _ => []
   end) ++
  (match s with
   | a :: rest =>
       if ((49 <=? a) && (a <=? 57))%N then [((a - 48)%N, rest)] else []
   | _ => []
   end).

(** The ways an alternation of names matches at the head of [s], letter
    case ignored. *)
Definition name_alternatives (names : list (str * N)) (s : str) : list (N * str) :=
  flat_map
    (fun '(name, k) =>
       if startswith name (lower s) then [(k, drop (length name) s)] else [])
    names.

Fixpoint first_some {A B : Type} (f : A -> option B) (l : list A) : option B :=
  match l with
  | [] => None
  | x :: l' => match f x with Some y => Some y | None => first_some f l' end
  end.

Section Dates.

(** The decimal value of a decimal digit outside ASCII, from the Unicode
    database of the interpreter ([\d] and [int] accept such digits). *)
Variable unicode_decimal : N -> option N.

Definition digit_value (c : N) : option N :=
  if (c <? 128)%N
  then (if ((48 <=? c) && (c <=? 57))%N then Some (c - 48)%N else None)
  else unicode_decimal c.

(** [\d\d\d\d] at the head of [s], read by [int]. *)
Definition take_year (s : str) : option (N * str) :=
  match s with
  | a :: b :: c :: d :: rest =>
      match digit_value a, digit_value b, digit_value c, digit_value d with
      | Some a, Some b, Some c, Some d =>
          Some ((1000 * a + 100 * b + 10 * c + d)%N, rest)
      | _, _, _, _ => None
      end
  | _ => None
  end.

(** The backtracking match of the compiled format at the head of [s]: the
    first way that matches every item gives the year, the month and what
    is left of the string. *)
Fixpoint re_match (items : list fmt_item) (s : str) (y m : option N)
  : option (option N * option N * str) :=
  match items with
  | [] => Some (y, m, s)
  | FYear :: items' =>
      match take_year s with
      | Some (v, s') => re_match items' s' (Some v) m
      | None => None
      end
  | FMonth :: items' =>
      first_some (fun '(v, s') => re_match items' s' y (Some v))
                 (month_alternatives s)
  | FMonthName :: items' =>
      first_some (fun '(v, s') => re_match items' s' y (Some v))
                 (name_alternatives full_month_names s)
  | FMonthAbbr :: items' =>
      first_some (fun '(v, s') => re_match items' s' y (Some v))
                 (name_alternatives abbr_month_names s)
  | FSpace :: items' =>
      match s with
      | c :: s' => if isspace c then re_match items' (lstrip s') y m else None
      | [] => None
      end
  | FLit c :: items' =>
      match s with
      | c' :: s' =>
          if (lower_cp c' =? lower_cp c)%N then re_match items' s' y m else None
      | [] => None
      end
  | FBad :: _ => None
  end.

(** [datetime.strptime(date_string, fmt)]: [ValueError] when the format
    does not match, when text is left over after the match, or when the
    year is 0 (below [datetime.MINYEAR]). *)
Definition strptime (date_string fmt : str) : result datetime :=
  match re_match (compile_format fmt) date_string None None with
  | Some (y, m, []) =>
      let y := default 1900%N y in
      if (y =? 0)%N then Raise ValueError
      else Ok (mk_datetime y (default 1%N m) 1)
  | _ => Raise ValueError
  end.

(** ** [parse_date] and [parse_duration] *)

Definition formats : list str :=
  [py "%Y-%m"; py "%Y/%m"; py "%m/%Y"; py "%Y"; py "%B %Y"; py "%b %Y"].

(** The loop over [formats]: [ValueError] moves to the next format, any
    other exception would leave the loop. *)
Fixpoint parse_date_loop (date_str : str) (fmts : list str)
  : result (option datetime) :=
  match fmts with
  | [] => Ok None
  | fmt :: fmts' =>
      match strptime date_str fmt with
      | Ok d => Ok (Some d)
      | Raise ValueError => parse_date_loop date_str fmts'
      | Raise e => Raise e
      end
  end.

Definition parse_date (date_str : str) : result (option datetime) :=
  match date_str with
  | [] => Ok None
  | _ => parse_date_loop date_str formats
  end.

Definition en_dash : N := 8211.
Definition em_dash : N := 8212.

Definition normalize_dashes (s : str) : str :=
  replace em_dash (py "-") (replace en_dash (py "-") s).

Definition is_current (duration_str : str) : bool :=
  contains (py "present") (lower duration_str) ||
  contains (py "current") (lower duration_str).

Definition parse_duration (duration_str : str)
  : result (option datetime * option datetime * bool) :=
  let body : result (option datetime * option datetime * bool) :=
    match duration_str with
    | [] => Ok (None, None, false)
    | _ =>
        match split (py " - ") (normalize_dashes duration_str) with
        | p0 :: p1 :: _ =>
            match parse_date (strip p0) with
            | Raise e => Raise e
            | Ok start_date =>
                match (if is_current duration_str then Ok None
                       else parse_date (strip p1)) with
                | Raise e => Raise e
                | Ok end_date =>
                    Ok (start_date, end_date, is_current duration_str)
                end
            end
        | _ => Ok (None, None, false)
        end
    end in
  match body with                   (* except Exception *)
  | Ok r => Ok r
  | Raise _ => Ok (None, None, false)
  end.



End Dates.

(** ** The profile document

    A JSON object the pipeline reads is a record with one optional field
    per key ([None] when the key is absent); a value has the type the
    pipeline expects of it. Keys the pipeline never reads are left out,
    except under [personalInfo]: that dictionary is tested for emptiness,
    so its other members are kept, in [pi_other]. *)

(** A JSON value as [json.load] returns it. *)
Inductive json : Type :=
  | JNull
  | JBool (b : bool)
  | JNumber (literal : str)
  | JString (s : str)
  | JArray (items : list json)
  | JObject (members : list (str * json)).

Record Contact : Type := {
  c_email : option str;
  c_linkedin : option str;
  c_github : option str;
  c_portfolio : option str }.

Record PersonalInfo : Type := {
  pi_name : option str;
  pi_title : option str;
  pi_location : option str;
  pi_summary : option str;
  pi_elevator_pitch : option str;
  pi_contact : option Contact;
  pi_other : list (str * json) }.   (* the members under other keys *)

Record Experience : Type := {
  exp_company : option str;
  exp_position : option str;
  exp_duration : option str;
  exp_description : option str;
  exp_achievements : option (list str);
  exp_technologies : option (list str);
  exp_skills_developed : option (list str);
  exp_impact : option str;
  exp_keywords : option (list str) }.

Record TechnicalSkill : Type := {
  ts_name : option str;
  ts_proficiency : option str;
  ts_experience : option str;
  ts_context : option str;
  ts_projects : option (list str) }.

Record CategoryGroup : Type := {
  cg_category : option str;
  cg_skills : option (list TechnicalSkill) }.

Record SoftSkill : Type := {
  ss_skill : option str;
  ss_name : option str;
  ss_evidence : option str;
  ss_examples : option (list str) }.

Record Skills : Type := {
  sk_technical : option (list CategoryGroup);
  sk_soft_skills : option (list SoftSkill) }.

Record Project : Type := {
  pr_name : option str;
  pr_type : option str;
  pr_status : option str;
  pr_description : option str;
  pr_role : option str;
  pr_technologies : option (list str);
  pr_achievements : option (list str);
  pr_challenges : option (list str);
  pr_url : option str;
  pr_github : option str;
  pr_documentation : option str;
  pr_timeline : option str;
  pr_team_size : option str }.

Record Education : Type := {
  edu_institution : option str;
  edu_degree : option str;
  edu_field_of_study : option str;
  edu_graduation_date : option str;
  edu_gpa : option str;
  edu_relevant_coursework : option (list str);
  edu_thesis_projects : option (list str);
  edu_honors_awards : option (list str);
  edu_activities : option (list str);
  edu_skills : option (list str) }.

Record Document : Type := {
  personalInfo : option PersonalInfo;
  experience : option (list Experience);
  skills : option Skills;
  projects : option (list Project);
  education : option (list Education) }.

(** [d.get(key, default)] on an optional field. *)
Definition get {A : Type} (field : option A) (dflt : A) : A := default dflt field.

(** ** Content chunks *)

(** A value held in a chunk's metadata dictionary. *)
Inductive mvalue : Type :=
  | VNone
  | VInt (z : Z)
  | VStr (s : str).

#[global] Instance mvalue_eq_dec : EqDecision mvalue.
Proof. solve_decision. Defined.

(** [dict.get(key)] gives [None] (here [VNone]) for an absent optional string. *)
Definition vstr (o : option str) : mvalue :=
  match o with Some s => VStr s | None => VNone end.

Record ContentChunk : Type := mk_chunk {
  content : str;
  metadata : gmap string mvalue;
  chunk_type : str;
  importance : str;
  keywords : list str;
  date_context : option str }.

Record MigrationStats : Type := mk_stats {
  professionals_inserted : nat;
  experiences_inserted : nat;
  skills_inserted : nat;
  projects_inserted : nat;
  education_inserted : nat;
  json_content_inserted : nat;
  content_chunks_created : nat;
  vectors_embedded : nat;
  errors_encountered : nat }.

(** ** Rendering of integers *)

(** [str(n)] for a natural number: its decimal digits. *)
Definition str_of_N (n : N) : str :=
  py (NilEmpty.string_of_uint (N.to_uint n)).

(** [str(z)] for an integer. *)
Definition str_of_Z (z : Z) : str :=
  match z with
  | Zneg p => py "-" ++ str_of_N (Npos p)
  | _ => str_of_N (Z.to_N z)
  end.

Definition str_of_nat (n : nat) : str := str_of_N (N.of_nat n).

(** ** The Chunk Builder: [create_content_chunks] *)

Definition nl : str := [10%N].                      (* chr(10) *)

(** A triple-quoted f-string whose lines are indented by [indent] spaces
    in the source, followed by [.strip()]: the literal opens with a line
    break, every line ends with one, and the closing quotes are indented
    too. *)
Definition template (indent : nat) (lines : list str) : str :=
  strip (nl ++ flat_map (fun l => repeat 32%N indent ++ l ++ nl) lines
            ++ repeat 32%N indent).

Definition bullet (s : str) : str := py "- " ++ s.

(** The truth value of a string or of a list: not empty. *)
Definition truthy {A : Type} (o : option (list A)) : bool :=
  match o with Some (_ :: _) => true | _ => false end.

(** The truth value of the [personalInfo] dictionary: it has a key, one
    the pipeline reads or another one. *)
Definition personal_info_truthy (p : PersonalInfo) : bool :=
  bool_decide (is_Some (pi_name p)) || bool_decide (is_Some (pi_title p)) ||
  bool_decide (is_Some (pi_location p)) || bool_decide (is_Some (pi_summary p)) ||
  bool_decide (is_Some (pi_elevator_pitch p)) || bool_decide (is_Some (pi_contact p)) ||
  match pi_other p with [] => false | _ :: _ => true end.

Definition personal_info_chunk (p : PersonalInfo) (professional_id : Z)
  : ContentChunk :=
  {| content := template 16
       [py "Professional Profile: " ++ get (pi_name p) [];
        py "Title: " ++ get (pi_title p) [];
        py "Location: " ++ get (pi_location p) [];
        [];
        py "Summary: " ++ get (pi_summary p) [];
        [];
        py "Elevator Pitch: " ++ get (pi_elevator_pitch p) []];
     metadata :=
       <["title" := vstr (pi_title p)]>
       (<["name" := vstr (pi_name p)]>
       (<["content_type" := VStr (py "personal_info")]>
       (<["professional_id" := VInt professional_id]> ∅)));
     chunk_type := py "personal_info";
     importance := py "high";
     keywords := [py "profile"; py "summary"; py "elevator pitch";
                  py "professional"];
     date_context := None |}.

Definition experience_chunk (professional_id : Z) (i : nat) (exp : Experience)
  : ContentChunk :=
  {| content := template 16
       [py "Experience at " ++ get (exp_company exp) [];
        py "Position: " ++ get (exp_position exp) [];
        py "Duration: " ++ get (exp_duration exp) [];
        [];
        py "Description: " ++ get (exp_description exp) [];
        [];
        py "Key Achievements:";
        join nl (map bullet (get (exp_achievements exp) []));
        [];
        py "Technologies: " ++ join (py ", ") (get (exp_technologies exp) []);
        [];
        py "Skills Developed: "
          ++ join (py ", ") (get (exp_skills_developed exp) []);
        [];
        py "Impact: " ++ get (exp_impact exp) []];
     metadata :=
       <["index" := VInt (Z.of_nat i)]>
       (<["duration" := vstr (exp_duration exp)]>
       (<["position" := vstr (exp_position exp)]>
       (<["company" := vstr (exp_company exp)]>
       (<["content_type" := VStr (py "experience")]>
       (<["professional_id" := VInt professional_id]> ∅)))));
     chunk_type := py "experience";
     (* Recent experiences more important *)
     importance := if bool_decide (i < 3) then py "high" else py "medium";
     keywords := get (exp_keywords exp) []
                 ++ [py "experience"; py "work";
                     lower (get (exp_company exp) [])];
     date_context := exp_duration exp |}.

Definition technical_skill_line (skill : TechnicalSkill) : str :=
  py "- " ++ get (ts_name skill) [] ++ py " ("
    ++ get (ts_proficiency skill) [] ++ py ") - "
    ++ get (ts_experience skill) (py "N/A") ++ py " experience".

Definition technical_context_line (skill : TechnicalSkill) : str :=
  py "- " ++ get (ts_name skill) [] ++ py ": " ++ get (ts_context skill) [].

Definition technical_skills_chunk (professional_id : Z)
    (category_group : CategoryGroup) : ContentChunk :=
  let category := get (cg_category category_group) (py "Technical") in
  let skills_in_category := get (cg_skills category_group) [] in
  {| content := template 20
       [category ++ py " Skills:";
        [];
        join nl (map technical_skill_line skills_in_category);
        [];
        py "Context and Examples:";
        join nl (map technical_context_line
                   (List.filter (fun skill => truthy (ts_context skill))
                      skills_in_category))];
     metadata :=
       <["skill_count" := VInt (Z.of_nat (length skills_in_category))]>
       (<["category" := VStr category]>
       (<["content_type" := VStr (py "skills")]>
       (<["professional_id" := VInt professional_id]> ∅)));
     chunk_type := py "skills";
     importance := py "high";
     keywords := [py "skills"; lower category; py "expertise"]
                 ++ map (fun skill => lower (get (ts_name skill) []))
                      skills_in_category;
     date_context := None |}.

Definition soft_skill_line (skill : SoftSkill) : str :=
  py "- " ++ get (ss_skill skill) [].

Definition soft_skill_example_line (skill : SoftSkill) : str :=
  py "- " ++ get (ss_skill skill) [] ++ py ": "
    ++ join (py ", ") (get (ss_examples skill) []).

Definition soft_skills_chunk (professional_id : Z)
    (soft_skills : list SoftSkill) : ContentChunk :=
  {| content := template 16
       [py "Soft Skills:";
        [];
        join nl (map soft_skill_line soft_skills);
        [];
        py "Examples and Context:";
        join nl (map soft_skill_example_line
                   (List.filter (fun skill => truthy (ss_examples skill))
                      soft_skills))];
     metadata :=
       <["skill_count" := VInt (Z.of_nat (length soft_skills))]>
       (<["category" := VStr (py "Soft Skills")]>
       (<["content_type" := VStr (py "skills")]>
       (<["professional_id" := VInt professional_id]> ∅)));
     chunk_type := py "skills";
     importance := py "medium";
     keywords := [py "skills"; py "soft skills"; py "interpersonal"]
                 ++ map (fun skill => lower (get (ss_skill skill) []))
                      soft_skills;
     date_context := None |}.

Definition project_chunk (professional_id : Z) (i : nat) (project : Project)
  : ContentChunk :=
  {| content := template 16
       [py "Project: " ++ get (pr_name project) [];
        py "Type: " ++ get (pr_type project) [];
        py "Status: " ++ get (pr_status project) [];
        [];
        py "Description: " ++ get (pr_description project) [];
        [];
        py "Technologies: "
          ++ join (py ", ") (get (pr_technologies project) []);
        [];
        py "Role: " ++ get (pr_role project) [];
        [];
        py "Achievements:";
        join nl (map bullet (get (pr_achievements project) []));
        [];
        py "Team Size: " ++ get (pr_team_size project) (py "N/A")];
     metadata :=
       <["index" := VInt (Z.of_nat i)]>
       (<["status" := vstr (pr_status project)]>
       (<["project_type" := vstr (pr_type project)]>
       (<["project_name" := vstr (pr_name project)]>
       (<["content_type" := VStr (py "project")]>
       (<["professional_id" := VInt professional_id]> ∅)))));
     chunk_type := py "project";
     importance := if bool_decide (pr_status project = Some (py "completed"))
                   then py "high" else py "medium";
     keywords := [py "project"; py "portfolio"]
                 ++ get (pr_technologies project) []
                 ++ [lower (get (pr_name project) [])];
     date_context := pr_timeline project |}.

Definition education_chunk (professional_id : Z) (i : nat) (edu : Education)
  : ContentChunk :=
  {| content := template 16
       [py "Education: " ++ get (edu_degree edu) [] ++ py " in "
          ++ get (edu_field_of_study edu) [];
        py "Institution: " ++ get (edu_institution edu) [];
        py "Graduation: " ++ get (edu_graduation_date edu) [];
        py "GPA: " ++ get (edu_gpa edu) (py "N/A");
        [];
        py "Relevant Coursework: "
          ++ join (py ", ") (get (edu_relevant_coursework edu) []);
        [];
        py "Thesis/Projects:";
        join nl (map bullet (get (edu_thesis_projects edu) []));
        [];
        py "Honors & Awards: "
          ++ join (py ", ") (get (edu_honors_awards edu) []);
        [];
        py "Activities: " ++ join (py ", ") (get (edu_activities edu) [])];
     metadata :=
       <["index" := VInt (Z.of_nat i)]>
       (<["field" := vstr (edu_field_of_study edu)]>
       (<["degree" := vstr (edu_degree edu)]>
       (<["institution" := vstr (edu_institution edu)]>
       (<["content_type" := VStr (py "education")]>
       (<["professional_id" := VInt professional_id]> ∅)))));
     chunk_type := py "education";
     importance := py "medium";
     keywords := [py "education"; py "degree"; py "university";
                  lower (get (edu_institution edu) []);
                  lower (get (edu_field_of_study edu) [])];
     date_context := edu_graduation_date edu |}.

(** The chunks of each part of the document, in the order the builder
    appends them. *)
Definition personal_info_chunks (json_data : Document) (professional_id : Z)
  : list ContentChunk :=
  match personalInfo json_data with
  | Some p =>
      if personal_info_truthy p then [personal_info_chunk p professional_id]
      else []
  | None => []
  end.

Definition experience_chunks (json_data : Document) (professional_id : Z)
  : list ContentChunk :=
  imap (experience_chunk professional_id) (get (experience json_data) []).

Definition technical_skills_chunks (json_data : Document) (professional_id : Z)
  : list ContentChunk :=
  match sk_technical (get (skills json_data) {| sk_technical := None; sk_soft_skills := None |}) with
  | Some groups => map (technical_skills_chunk professional_id) groups
  | None => []
  end.

Definition soft_skills_chunks (json_data : Document) (professional_id : Z)
  : list ContentChunk :=
  match sk_soft_skills (get (skills json_data) {| sk_technical := None; sk_soft_skills := None |}) with
  | Some soft_skills => [soft_skills_chunk professional_id soft_skills]
  | None => []
  end.

Definition project_chunks (json_data : Document) (professional_id : Z)
  : list ContentChunk :=
  imap (project_chunk professional_id) (get (projects json_data) []).

Definition education_chunks (json_data : Document) (professional_id : Z)
  : list ContentChunk :=
  imap (education_chunk professional_id) (get (education json_data) []).

(** On a document of the types above no expression of the builder raises,
    so its [except] clause is never entered and the result is the list. *)
Definition create_content_chunks (json_data : Document) (professional_id : Z)
  : list ContentChunk :=
  personal_info_chunks json_data professional_id
  ++ experience_chunks json_data professional_id
  ++ technical_skills_chunks json_data professional_id
  ++ soft_skills_chunks json_data professional_id
  ++ project_chunks json_data professional_id
  ++ education_chunks json_data professional_id.

(** ** The world of the migration

    The relational database is a set of tables behind one connection
    ([committed] is what a commit has made durable, [pending] what the
    open transaction sees); sequences hand out row ids and are not rolled
    back. Time stamps written by [NOW()] are left out of the rows. *)

Record ProfessionalRow : Type := {
  p_id : Z;
  p_name : option str;
  p_title : option str;
  p_location : option str;
  p_email : option str;
  p_linkedin : option str;
  p_github : option str;
  p_portfolio : option str;
  p_summary : option str;
  p_elevator_pitch : option str }.

Record ExperienceRow : Type := {
  e_professional_id : Z;
  e_company : option str;
  e_position : option str;
  e_start_date : option datetime;
  e_end_date : option datetime;
  e_is_current : bool;
  e_description : option str;
  e_achievements : list str;
  e_technologies : list str;
  e_skills_developed : list str;
  e_impact : option str;
  e_keywords : list str }.

Record SkillRow : Type := {
  s_professional_id : Z;
  s_category : str;
  s_name : option str;
  s_proficiency : str;
  s_experience_years : str;
  s_context : str;
  s_projects : list str;
  s_is_technical : bool;
  s_examples : list str }.

Record ProjectRow : Type := {
  j_professional_id : Z;
  j_name : option str;
  j_description : option str;
  j_role : option str;
  j_technologies : list str;
  j_outcomes : list str;
  j_challenges : list str;
  j_demo_url : option str;
  j_repository_url : option str;
  j_documentation_url : option str;
  j_status : str;
  j_start_date : option datetime;
  j_end_date : option datetime }.

Record EducationRow : Type := {
  d_professional_id : Z;
  d_type : str;
  d_institution : option str;
  d_degree_name : option str;
  d_field : option str;
  d_graduation_date : option datetime;
  d_gpa : option str;
  d_achievements : list str;
  d_relevant_coursework : list str;
  d_projects : list str;
  d_skills : list str;
  d_status : str }.

Record JsonContentRow : Type := {
  jc_id : Z;
  jc_professional_id : Z;
  jc_version : str;
  jc_content : Document;          (* json.dumps(json_data) *)
  jc_content_hash : str;
  jc_validation_status : str }.

Record ChunkRow : Type := {
  ch_id : Z;
  ch_professional_id : Z;
  ch_chunk_id : str;
  ch_type : str;
  ch_title : str;
  ch_content : str;
  ch_category : mvalue;
  ch_tags : list str;
  ch_importance : str;
  ch_date_range : option str;
  ch_relevance_score : float;
  ch_vector_id : str;
  ch_embedding_model : str }.

Record Tables : Type := mk_tables {
  professionals : list ProfessionalRow;
  experiences : list ExperienceRow;
  skills_table : list SkillRow;
  projects_table : list ProjectRow;
  education_table : list EducationRow;
  json_content : list JsonContentRow;
  content_chunks : list ChunkRow }.

(** The next value of each [id] sequence the pipeline reads back. *)
Record Sequences : Type := mk_sequences {
  next_professional_id : Z;
  next_json_content_id : Z;
  next_chunk_row_id : Z }.

(** A value of the metadata sent with a vector: a value of the chunk's
    own metadata, the keyword list, or the time stamp
    [datetime.now().isoformat()], whose text is not modelled. *)
Inductive vvalue : Type :=
  | Scalar (v : mvalue)
  | Keywords (l : list str)
  | Timestamp.

(** A vector handed to the vector store. *)
Record Vector : Type := mk_vector {
  v_id : mvalue;
  v_data : str;                   (* the text the store embeds *)
  v_metadata : gmap string vvalue }.

(** What opening and reading a path as JSON meets. *)
Inductive file_state : Type :=
  | NoSuchFile
  | Unreadable (e : exn)          (* open or read fails with [e] *)
  | Malformed                     (* the text is not JSON *)
  | WellFormed (data : json).

(** The lines the Document Loader logs. *)
Inductive log_line : Type :=
  | InfoLoading (file_path : str)
  | WarningMissingSections (missing : list str)
  | InfoLoaded
  | InfoCount (label : str) (n : nat)
  | ErrorFileNotFound (file_path : str)
  | ErrorInvalidJSON
  | ErrorLoading.

Record World : Type := mk_world {
  committed : Tables;
  pending : Tables;
  sequences : Sequences;
  db_calls : nat;                 (* calls made to the database so far *)
  db_fails : nat -> bool;         (* does the n-th call raise? *)
  vector_index : list Vector;
  vector_calls : nat;             (* calls made to the vector store so far *)
  vector_fails : nat -> bool;     (* does the n-th call raise? *)
  slept : list nat;               (* the arguments of [time.sleep], in order *)
  stats : MigrationStats;
  heap : nat -> ContentChunk;     (* the chunk objects, by reference *)
  heap_next : nat;                (* the next free reference *)
  files : str -> file_state;
  log : list log_line }.

Definition set_committed (t : Tables) (w : World) : World :=
  mk_world t (pending w) (sequences w) (db_calls w) (db_fails w)
    (vector_index w) (vector_calls w) (vector_fails w) (slept w) (stats w)
    (heap w) (heap_next w) (files w) (log w).

Definition set_pending (t : Tables) (w : World) : World :=
  mk_world (committed w) t (sequences w) (db_calls w) (db_fails w)
    (vector_index w) (vector_calls w) (vector_fails w) (slept w) (stats w)
    (heap w) (heap_next w) (files w) (log w).

Definition set_sequences (q : Sequences) (w : World) : World :=
  mk_world (committed w) (pending w) q (db_calls w) (db_fails w)
    (vector_index w) (vector_calls w) (vector_fails w) (slept w) (stats w)
    (heap w) (heap_next w) (files w) (log w).

Definition set_db_calls (n : nat) (w : World) : World :=
  mk_world (committed w) (pending w) (sequences w) n (db_fails w)
    (vector_index w) (vector_calls w) (vector_fails w) (slept w) (stats w)
    (heap w) (heap_next w) (files w) (log w).

Definition set_vector_index (ix : list Vector) (w : World) : World :=
  mk_world (committed w) (pending w) (sequences w) (db_calls w) (db_fails w)
    ix (vector_calls w) (vector_fails w) (slept w) (stats w)
    (heap w) (heap_next w) (files w) (log w).

Definition set_vector_calls (n : nat) (w : World) : World :=
  mk_world (committed w) (pending w) (sequences w) (db_calls w) (db_fails w)
    (vector_index w) n (vector_fails w) (slept w) (stats w)
    (heap w) (heap_next w) (files w) (log w).

Definition set_slept (l : list nat) (w : World) : World :=
  mk_world (committed w) (pending w) (sequences w) (db_calls w) (db_fails w)
    (vector_index w) (vector_calls w) (vector_fails w) l (stats w)
    (heap w) (heap_next w) (files w) (log w).

Definition set_stats (s : MigrationStats) (w : World) : World :=
  mk_world (committed w) (pending w) (sequences w) (db_calls w) (db_fails w)
    (vector_index w) (vector_calls w) (vector_fails w) (slept w) s
    (heap w) (heap_next w) (files w) (log w).

Definition set_heap (h : nat -> ContentChunk) (w : World) : World :=
  mk_world (committed w) (pending w) (sequences w) (db_calls w) (db_fails w)
    (vector_index w) (vector_calls w) (vector_fails w) (slept w) (stats w)
    h (heap_next w) (files w) (log w).

Definition set_heap_next (n : nat) (w : World) : World :=
  mk_world (committed w) (pending w) (sequences w) (db_calls w) (db_fails w)
    (vector_index w) (vector_calls w) (vector_fails w) (slept w) (stats w)
    (heap w) n (files w) (log w).

Definition set_log (l : list log_line) (w : World) : World :=
  mk_world (committed w) (pending w) (sequences w) (db_calls w) (db_fails w)
    (vector_index w) (vector_calls w) (vector_fails w) (slept w) (stats w)
    (heap w) (heap_next w) (files w) l.

(** ** The monad of the pipeline: state and exceptions *)

Definition M (A : Type) : Type := World -> result A * World.

Definition ret {A : Type} (a : A) : M A := fun w => (Ok a, w).

Definition raise {A : Type} (e : exn) : M A := fun w => (Raise e, w).

Definition bind {A B : Type} (m : M A) (k : A -> M B) : M B :=
  fun w =>
    match m w with
    | (Ok a, w') => k a w'
    | (Raise e, w') => (Raise e, w')
    end.

(** stdpp's monad notations: [x ← m; k] and [m;; k]. *)
#[global] Instance M_ret : MRet M := @ret.
#[global] Instance M_bind : MBind M := fun A B k m => bind m k.

(** [try: m  except Exception as e: h e] *)
Definition try_except {A : Type} (m : M A) (h : exn -> M A) : M A :=
  fun w =>
    match m w with
    | (Ok a, w') => (Ok a, w')
    | (Raise e, w') => h e w'
    end.

Definition modify (f : World -> World) : M unit := fun w => (Ok tt, f w).

Definition lift {A : Type} (r : result A) : M A := fun w => (r, w).

(** [for x in l: body x] *)
Fixpoint for_each {A : Type} (body : A -> M unit) (l : list A) : M unit :=
  match l with
  | [] => ret tt
  | x :: l' => body x;; for_each body l'
  end.

(** ** Counters of [MigrationStats] *)

Definition empty_stats : MigrationStats := mk_stats 0 0 0 0 0 0 0 0 0.

Definition add_professionals_inserted (n : nat) (s : MigrationStats) : MigrationStats :=
  mk_stats (professionals_inserted s + n)
    (experiences_inserted s)
    (skills_inserted s)
    (projects_inserted s) (education_inserted s) (json_content_inserted s) (content_chunks_created s) (vectors_embedded s) (errors_encountered s).

Definition add_experiences_inserted (n : nat) (s : MigrationStats) : MigrationStats :=
  mk_stats (professionals_inserted s)
    (experiences_inserted s + n)
    (skills_inserted s)
    (projects_inserted s) (education_inserted s) (json_content_inserted s) (content_chunks_created s) (vectors_embedded s) (errors_encountered s).

Definition add_skills_inserted (n : nat) (s : MigrationStats) : MigrationStats :=
  mk_stats (professionals_inserted s)
    (experiences_inserted s)
    (skills_inserted s + n)
    (projects_inserted s) (education_inserted s) (json_content_inserted s) (content_chunks_created s) (vectors_embedded s) (errors_encountered s).

Definition add_projects_inserted (n : nat) (s : MigrationStats) : MigrationStats :=
  mk_stats (professionals_inserted s)
    (experiences_inserted s)
    (skills_inserted s)
    (projects_inserted s + n) (education_inserted s) (json_content_inserted s) (content_chunks_created s) (vectors_embedded s) (errors_encountered s).

Definition add_education_inserted (n : nat) (s : MigrationStats) : MigrationStats :=
  mk_stats (professionals_inserted s)
    (experiences_inserted s)
    (skills_inserted s)
    (projects_inserted s) (education_inserted s + n) (json_content_inserted s) (content_chunks_created s) (vectors_embedded s) (errors_encountered s).

Definition add_json_content_inserted (n : nat) (s : MigrationStats) : MigrationStats :=
  mk_stats (professionals_inserted s)
    (experiences_inserted s)
    (skills_inserted s)
    (projects_inserted s) (education_inserted s) (json_content_inserted s + n) (content_chunks_created s) (vectors_embedded s) (errors_encountered s).

Definition add_content_chunks_created (n : nat) (s : MigrationStats) : MigrationStats :=
  mk_stats (professionals_inserted s)
    (experiences_inserted s)
    (skills_inserted s)
    (projects_inserted s) (education_inserted s) (json_content_inserted s) (content_chunks_created s + n) (vectors_embedded s) (errors_encountered s).

Definition add_vectors_embedded (n : nat) (s : MigrationStats) : MigrationStats :=
  mk_stats (professionals_inserted s)
    (experiences_inserted s)
    (skills_inserted s)
    (projects_inserted s) (education_inserted s) (json_content_inserted s) (content_chunks_created s) (vectors_embedded s + n) (errors_encountered s).

Definition add_errors_encountered (n : nat) (s : MigrationStats) : MigrationStats :=
  mk_stats (professionals_inserted s)
    (experiences_inserted s)
    (skills_inserted s)
    (projects_inserted s) (education_inserted s) (json_content_inserted s) (content_chunks_created s) (vectors_embedded s) (errors_encountered s + n).

(** [self.stats.<counter> += n] *)
Definition count (add : nat -> MigrationStats -> MigrationStats) (n : nat)
  : M unit :=
  modify (fun w => set_stats (add n (stats w)) w).

(** ** The database connection *)

(** One call to the database ([cursor.execute], [commit], [connect]): it
    raises when the world says the call fails, and otherwise acts on the
    tables of the open transaction. *)
Definition db_call {A : Type}
    (f : Tables -> Sequences -> Tables * Sequences * A) : M A :=
  fun w =>
    let w1 := set_db_calls (S (db_calls w)) w in
    if db_fails w (db_calls w) then (Raise DatabaseError, w1)
    else
      let '(t, q, a) := f (pending w) (sequences w) in
      (Ok a, set_sequences q (set_pending t w1)).

(** [self.postgres_conn.commit()] *)
Definition commit : M unit :=
  fun w =>
    let w1 := set_db_calls (S (db_calls w)) w in
    if db_fails w (db_calls w) then (Raise DatabaseError, w1)
    else (Ok tt, set_committed (pending w1) w1).

(** [self.postgres_conn.rollback()] *)
Definition rollback : M unit :=
  modify (fun w => set_pending (committed w) w).

(** The handler every insert method ends with:
    [except Exception: rollback(); errors_encountered += 1; raise]. *)
Definition or_rollback {A : Type} (body : M A) : M A :=
  try_except body
    (fun e => rollback;; count add_errors_encountered 1;; raise e).

(** A statement that changes tables and returns nothing. *)
Definition execute (f : Tables -> Tables) : M unit :=
  db_call (fun t q => (f t, q, tt)).

(** A query. *)
Definition query {A : Type} (f : Tables -> A) : M A :=
  db_call (fun t q => (t, q, f t)).

Definition with_professionals (l : list ProfessionalRow) (t : Tables) : Tables :=
  mk_tables l (experiences t) (skills_table t) (projects_table t)
    (education_table t) (json_content t) (content_chunks t).

Definition with_experiences (l : list ExperienceRow) (t : Tables) : Tables :=
  mk_tables (professionals t) l (skills_table t) (projects_table t)
    (education_table t) (json_content t) (content_chunks t).

Definition with_skills (l : list SkillRow) (t : Tables) : Tables :=
  mk_tables (professionals t) (experiences t) l (projects_table t)
    (education_table t) (json_content t) (content_chunks t).

Definition with_projects (l : list ProjectRow) (t : Tables) : Tables :=
  mk_tables (professionals t) (experiences t) (skills_table t) l
    (education_table t) (json_content t) (content_chunks t).

Definition with_education (l : list EducationRow) (t : Tables) : Tables :=
  mk_tables (professionals t) (experiences t) (skills_table t)
    (projects_table t) l (json_content t) (content_chunks t).

Definition with_json_content (l : list JsonContentRow) (t : Tables) : Tables :=
  mk_tables (professionals t) (experiences t) (skills_table t)
    (projects_table t) (education_table t) l (content_chunks t).

Definition with_content_chunks (l : list ChunkRow) (t : Tables) : Tables :=
  mk_tables (professionals t) (experiences t) (skills_table t)
    (projects_table t) (education_table t) (json_content t) l.

Section Pipeline.

Variable unicode_decimal : N -> option N.

(** The SHA-256 digest, in hexadecimal, of
    [json.dumps(json_data, sort_keys=True)]. *)
Variable content_hash_of : Document -> str.

(** ** The Relational Mapper *)

(** [SELECT id FROM professionals WHERE email = %s] and [fetchone]: with
    no email the parameter is NULL, and [email = NULL] holds of no row. *)
Definition select_professional (email : option str) (t : Tables) : option Z :=
  match email with
  | None => None
  | Some e =>
      p_id <$> head (filter (fun r => p_email r = Some e) (professionals t))
  end.

Definition update_professional (professional_id : Z)
    (personal_info : PersonalInfo) (contact : Contact) (r : ProfessionalRow)
  : ProfessionalRow :=
  if decide (p_id r = professional_id) then
    {| p_id := p_id r;
       p_name := pi_name personal_info;
       p_title := pi_title personal_info;
       p_location := pi_location personal_info;
       p_email := p_email r;
       p_linkedin := c_linkedin contact;
       p_github := c_github contact;
       p_portfolio := c_portfolio contact;
       p_summary := pi_summary personal_info;
       p_elevator_pitch := pi_elevator_pitch personal_info |}
  else r.

Definition new_professional (professional_id : Z)
    (personal_info : PersonalInfo) (contact : Contact) : ProfessionalRow :=
  {| p_id := professional_id;
     p_name := pi_name personal_info;
     p_title := pi_title personal_info;
     p_location := pi_location personal_info;
     p_email := c_email contact;
     p_linkedin := c_linkedin contact;
     p_github := c_github contact;
     p_portfolio := c_portfolio contact;
     p_summary := pi_summary personal_info;
     p_elevator_pitch := pi_elevator_pitch personal_info |}.

Definition no_contact : Contact :=
  {| c_email := None; c_linkedin := None; c_github := None;
     c_portfolio := None |}.

Definition insert_professional_data (personal_info : PersonalInfo) : M Z :=
  or_rollback (
    let contact := get (pi_contact personal_info) no_contact in
    let email := c_email contact in
    (* First check if professional already exists *)
    existing ← query (select_professional email);
    professional_id ←
      match existing with
      | Some professional_id =>
          execute (fun t =>
            with_professionals
              (map (update_professional professional_id personal_info contact)
                 (professionals t)) t);;
          ret professional_id
      | None =>
          professional_id ←
            db_call (fun t q =>
              let id := next_professional_id q in
              (with_professionals
                 (professionals t ++ [new_professional id personal_info contact])
                 t,
               mk_sequences (id + 1) (next_json_content_id q)
                 (next_chunk_row_id q),
               id));
          count add_professionals_inserted 1;;
          ret professional_id
      end;
    commit;;
    ret professional_id).

Definition experience_row (professional_id : Z) (exp : Experience)
    (dates : option datetime * option datetime * bool) : ExperienceRow :=
  let '(start_date, end_date, is_current) := dates in
  {| e_professional_id := professional_id;
     e_company := exp_company exp;
     e_position := exp_position exp;
     e_start_date := start_date;
     e_end_date := end_date;
     e_is_current := is_current;
     e_description := exp_description exp;
     e_achievements := get (exp_achievements exp) [];
     e_technologies := get (exp_technologies exp) [];
     e_skills_developed := get (exp_skills_developed exp) [];
     e_impact := exp_impact exp;
     e_keywords := get (exp_keywords exp) [] |}.

Definition insert_experiences (experiences_list : list Experience)
    (professional_id : Z) : M unit :=
  or_rollback (
    (* Clear existing experiences for this professional *)
    execute (fun t =>
      with_experiences
        (filter (fun r => e_professional_id r ≠ professional_id)
           (experiences t)) t);;
    for_each (fun exp =>
      dates ← lift (parse_duration unicode_decimal (get (exp_duration exp) []));
      execute (fun t =>
        with_experiences
          (experiences t ++ [experience_row professional_id exp dates]) t);;
      count add_experiences_inserted 1) experiences_list;;
    commit).

Definition technical_skill_row (professional_id : Z) (category : str)
    (skill : TechnicalSkill) : SkillRow :=
  {| s_professional_id := professional_id;
     s_category := category;
     s_name := ts_name skill;
     s_proficiency := get (ts_proficiency skill) (py "Intermediate");
     s_experience_years := get (ts_experience skill) [];
     s_context := get (ts_context skill) [];
     s_projects := get (ts_projects skill) [];
     s_is_technical := true;
     s_examples := [] |}.

Definition soft_skill_row (professional_id : Z) (skill : SoftSkill) : SkillRow :=
  {| s_professional_id := professional_id;
     s_category := py "Soft Skills";
     s_name := Some (get (ss_skill skill) (get (ss_name skill) []));
     s_proficiency := py "Advanced";
     s_experience_years := [];
     s_context := get (ss_evidence skill) [];
     s_projects := [];
     s_is_technical := false;
     s_examples := get (ss_examples skill) [] |}.

(** The list [all_skills] of [insert_skills], as the rows to insert. *)
Definition all_skills (skills_data : Skills) (professional_id : Z)
  : list SkillRow :=
  match sk_technical skills_data with
  | Some groups =>
      flat_map (fun category_group =>
        map (technical_skill_row professional_id
               (get (cg_category category_group) (py "Technical")))
            (get (cg_skills category_group) [])) groups
  | None => []
  end ++
  match sk_soft_skills skills_data with
  | Some soft => map (soft_skill_row professional_id) soft
  | None => []
  end.

Definition insert_skills (skills_data : Skills) (professional_id : Z) : M unit :=
  or_rollback (
    execute (fun t =>
      with_skills
        (filter (fun r => s_professional_id r ≠ professional_id)
           (skills_table t)) t);;
    for_each (fun row =>
      execute (fun t => with_skills (skills_table t ++ [row]) t);;
      count add_skills_inserted 1) (all_skills skills_data professional_id);;
    commit).

Definition project_row (professional_id : Z) (project : Project)
    (start_date end_date : option datetime) : ProjectRow :=
  {| j_professional_id := professional_id;
     j_name := pr_name project;
     j_description := pr_description project;
     j_role := pr_role project;
     j_technologies := get (pr_technologies project) [];
     j_outcomes := get (pr_achievements project) [];
     j_challenges := get (pr_challenges project) [];
     j_demo_url := pr_url project;
     j_repository_url := pr_github project;
     j_documentation_url := pr_documentation project;
     j_status := get (pr_status project) (py "completed");
     j_start_date := start_date;
     j_end_date := end_date |}.

Definition insert_projects (projects_list : list Project)
    (professional_id : Z) : M unit :=
  or_rollback (
    execute (fun t =>
      with_projects
        (filter (fun r => j_professional_id r ≠ professional_id)
           (projects_table t)) t);;
    for_each (fun project =>
      dates ←
        match pr_timeline project with
        | Some timeline => lift (parse_duration unicode_decimal timeline)
        | None => ret (None, None, false)
        end;
      execute (fun t =>
        with_projects
          (projects_table t
             ++ [project_row professional_id project dates.1.1 dates.1.2]) t);;
      count add_projects_inserted 1) projects_list;;
    commit).

Definition education_row (professional_id : Z) (edu : Education)
    (graduation_date : option datetime) : EducationRow :=
  {| d_professional_id := professional_id;
     d_type := py "degree";
     d_institution := edu_institution edu;
     d_degree_name := edu_degree edu;
     d_field := edu_field_of_study edu;
     d_graduation_date := graduation_date;
     d_gpa := edu_gpa edu;
     d_achievements := get (edu_honors_awards edu) [];
     d_relevant_coursework := get (edu_relevant_coursework edu) [];
     d_projects := get (edu_thesis_projects edu) [];
     d_skills := get (edu_skills edu) [];
     d_status := py "completed" |}.

Definition insert_education (education_list : list Education)
    (professional_id : Z) : M unit :=
  or_rollback (
    execute (fun t =>
      with_education
        (filter (fun r => d_professional_id r ≠ professional_id)
           (education_table t)) t);;
    for_each (fun edu =>
      graduation_date ←
        match edu_graduation_date edu with
        | Some date_str => lift (parse_date unicode_decimal date_str)
        | None => ret None
        end;
      execute (fun t =>
        with_education
          (education_table t
             ++ [education_row professional_id edu graduation_date]) t);;
      count add_education_inserted 1) education_list;;
    commit).

Definition select_json_content (professional_id : Z) (t : Tables) : option Z :=
  jc_id <$> head (filter (fun r => jc_professional_id r = professional_id
                                    ∧ jc_version r = py "v1")
                         (json_content t)).

Definition update_json_content (content_id : Z) (json_data : Document)
    (r : JsonContentRow) : JsonContentRow :=
  if decide (jc_id r = content_id) then
    {| jc_id := jc_id r;
       jc_professional_id := jc_professional_id r;
       jc_version := jc_version r;
       jc_content := json_data;
       jc_content_hash := content_hash_of json_data;
       jc_validation_status := py "valid" |}
  else r.

Definition insert_json_content (json_data : Document) (professional_id : Z)
  : M Z :=
  or_rollback (
    existing ← query (select_json_content professional_id);
    content_id ←
      match existing with
      | Some content_id =>
          execute (fun t =>
            with_json_content
              (map (update_json_content content_id json_data) (json_content t))
              t);;
          ret content_id
      | None =>
          content_id ←
            db_call (fun t q =>
              let id := next_json_content_id q in
              (with_json_content
                 (json_content t
                    ++ [{| jc_id := id;
                           jc_professional_id := professional_id;
                           jc_version := py "v1";
                           jc_content := json_data;
                           jc_content_hash := content_hash_of json_data;
                           jc_validation_status := py "valid" |}]) t,
               mk_sequences (next_professional_id q) (id + 1)
                 (next_chunk_row_id q),
               id));
          count add_json_content_inserted 1;;
          ret content_id
      end;
    commit;;
    ret content_id).

(** ** The Chunk Persister: [insert_content_chunks] *)

(** The textual chunk id, [f"chunk-{professional_id}-{chunk.chunk_type}-{i}"]. *)
Definition chunk_id_of (professional_id : Z) (type : str) (i : nat) : str :=
  py "chunk-" ++ str_of_Z professional_id ++ py "-" ++ type ++ py "-"
    ++ str_of_nat i.

(** The id under which the chunk goes to the vector store,
    [f"upstash-{chunk_id}"]. *)
Definition vector_id_of (chunk_id : str) : str := py "upstash-" ++ chunk_id.

(** How an f-string renders a metadata value. *)
Definition format_mvalue (v : mvalue) : str :=
  match v with
  | VNone => py "None"
  | VInt z => str_of_Z z
  | VStr s => s
  end.

Definition is_ascii_upper (c : N) : bool := ((65 <=? c) && (c <=? 90))%N.
Definition is_ascii_lower (c : N) : bool := ((97 <=? c) && (c <=? 122))%N.

(** [str.title] on the ASCII letters: a letter that follows a letter is
    lower-cased, any other letter is upper-cased. *)
Fixpoint title_go (after_letter : bool) (s : str) : str :=
  match s with
  | [] => []
  | c :: s' =>
      if is_ascii_upper c then
        (if after_letter then (c + 32)%N else c) :: title_go true s'
      else if is_ascii_lower c then
        (if after_letter then c else (c - 32)%N) :: title_go true s'
      else c :: title_go false s'
  end.

Definition title (s : str) : str := title_go false s.

(** [chunk.metadata.get(key, dflt)], rendered in an f-string. *)
Definition metadata_text (chunk : ContentChunk) (key : string) (dflt : str) : str :=
  format_mvalue (default (VStr dflt) (metadata chunk !! key)).

Definition chunk_title (chunk : ContentChunk) : str :=
  if decide (chunk_type chunk = py "experience") then
    py "Experience at " ++ metadata_text chunk "company" (py "Unknown")
  else if decide (chunk_type chunk = py "project") then
    py "Project: " ++ metadata_text chunk "project_name" (py "Unknown")
  else if decide (chunk_type chunk = py "skills") then
    metadata_text chunk "category" (py "General") ++ py " Skills"
  else if decide (chunk_type chunk = py "education") then
    py "Education at " ++ metadata_text chunk "institution" (py "Unknown")
  else if decide (chunk_type chunk = py "personal_info") then
    py "Professional Profile"
  else title (chunk_type chunk).

Definition chunk_row (row_id professional_id : Z) (chunk_id : str)
    (chunk : ContentChunk) : ChunkRow :=
  {| ch_id := row_id;
     ch_professional_id := professional_id;
     ch_chunk_id := chunk_id;
     ch_type := chunk_type chunk;
     ch_title := chunk_title chunk;
     ch_content := content chunk;
     ch_category :=
       default (VStr (chunk_type chunk)) (metadata chunk !! "content_type");
     ch_tags := keywords chunk;
     ch_importance := importance chunk;
     ch_date_range := date_context chunk;
     ch_relevance_score := 1%float;
     ch_vector_id := vector_id_of chunk_id;   (* Will be used in vector store *)
     ch_embedding_model := py "mixbread-large" |}.

(** [INSERT INTO content_chunks ... RETURNING id] *)
Definition insert_chunk_row (professional_id : Z) (chunk_id : str)
    (chunk : ContentChunk) : M Z :=
  db_call (fun t q =>
    let id := next_chunk_row_id q in
    (with_content_chunks
       (content_chunks t ++ [chunk_row id professional_id chunk_id chunk]) t,
     mk_sequences (next_professional_id q) (next_json_content_id q) (id + 1),
     id)).

(** Reading the object behind a reference. *)
Definition deref (ref : nat) : M ContentChunk := fun w => (Ok (heap w ref), w).

(** [chunk.metadata[key] = v] on the object behind [ref]. *)
Definition set_metadata (ref : nat) (key : string) (v : mvalue) : M unit :=
  modify (fun w =>
    let chunk := heap w ref in
    set_heap
      (<[ref := mk_chunk (content chunk) (<[key := v]> (metadata chunk))
                  (chunk_type chunk) (importance chunk) (keywords chunk)
                  (date_context chunk)]> (heap w)) w).

(** The body of [for i, chunk in enumerate(chunks)], from index [i] on. *)
Fixpoint insert_chunks_from (i : nat) (chunks : list nat) (professional_id : Z)
  : M unit :=
  match chunks with
  | [] => ret tt
  | ref :: chunks' =>
      chunk ← deref ref;
      let chunk_id := chunk_id_of professional_id (chunk_type chunk) i in
      db_chunk_id ← insert_chunk_row professional_id chunk_id chunk;
      (* Store DB chunk_id back in metadata for vector embedding *)
      set_metadata ref "chunk_id" (VInt db_chunk_id);;
      set_metadata ref "vector_id" (VStr (vector_id_of chunk_id));;
      count add_content_chunks_created 1;;
      insert_chunks_from (S i) chunks' professional_id
  end.

Definition insert_content_chunks (chunks : list nat) (professional_id : Z)
  : M unit :=
  or_rollback (insert_chunks_from 0 chunks professional_id;; commit).

(** The other side of the id mapping, in [test_rag_functionality.py]:
    [vector_id[8:]] when [vector_id.startswith('upstash-')]. *)
Definition chunk_id_of_vector_id (vector_id : str) : option str :=
  if startswith (py "upstash-") vector_id then Some (drop 8 vector_id)
  else None.

(** ** The Vector Upserter *)

(** One call to the vector store. *)
Definition vector_call {A : Type} (f : list Vector -> list Vector * A) : M A :=
  fun w =>
    let w1 := set_vector_calls (S (vector_calls w)) w in
    if vector_fails w (vector_calls w) then (Raise UpstashError, w1)
    else
      let '(ix, a) := f (vector_index w) in
      (Ok a, set_vector_index ix w1).

(** The store keeps one vector per id: an upsert replaces the vector of
    the same id or adds the vector. *)
Definition upsert_one (ix : list Vector) (v : Vector) : list Vector :=
  if bool_decide (Exists (fun u => v_id u = v_id v) ix)
  then map (fun u => if decide (v_id u = v_id v) then v else u) ix
  else ix ++ [v].

Definition index_upsert (vectors : list Vector) : M unit :=
  vector_call (fun ix => (foldl upsert_one ix vectors, tt)).

Definition index_info : M nat := vector_call (fun ix => (ix, length ix)).

Definition index_reset : M unit := vector_call (fun _ => ([], tt)).

(** [time.sleep(seconds)] *)
Definition sleep (seconds : nat) : M unit :=
  modify (fun w => set_slept (slept w ++ [seconds]) w).

Definition max_retries : nat := 3.
Definition retry_delay : nat := 1.

(** The loop [for attempt in range(max_retries)] of [_upsert_vector_batch],
    over the attempts still to make. *)
Fixpoint upsert_attempts (attempts : list nat) (vectors : list Vector) : M unit :=
  match attempts with
  | [] => ret tt
  | attempt :: attempts' =>
      try_except
        (index_upsert vectors;;
         count add_vectors_embedded (length vectors))
        (fun e =>
           if bool_decide (attempt < max_retries - 1) then
             sleep (retry_delay * (attempt + 1));;
             upsert_attempts attempts' vectors
           else raise e)
  end.

Definition _upsert_vector_batch (vectors : list Vector) : M unit :=
  upsert_attempts (seq 0 max_retries) vectors.

Definition vector_metadata (chunk : ContentChunk) : gmap string vvalue :=
  <["created_at" := Timestamp]>
  (<["date_context" := Scalar (vstr (date_context chunk))]>
  (<["keywords" := Keywords (keywords chunk)]>
  (<["importance" := Scalar (VStr (importance chunk))]>
  (<["chunk_type" := Scalar (VStr (chunk_type chunk))]>
  (Scalar <$> metadata chunk))))).

Definition batch_size : nat := 10.

(** The loop [for chunk in chunks] of [generate_vector_embeddings]; it
    returns the vectors not yet sent. *)
Fixpoint embed_chunks (chunks : list nat) (vectors_to_upsert : list Vector)
  : M (list Vector) :=
  match chunks with
  | [] => ret vectors_to_upsert
  | ref :: chunks' =>
      chunk ← deref ref;
      vector ←
        match metadata chunk !! "vector_id" with
        | Some id => ret (mk_vector id (content chunk) (vector_metadata chunk))
        | None => raise KeyError
        end;
      let vectors_to_upsert := vectors_to_upsert ++ [vector] in
      (* Process in batches *)
      if bool_decide (batch_size ≤ length vectors_to_upsert) then
        _upsert_vector_batch vectors_to_upsert;;
        embed_chunks chunks' []
      else embed_chunks chunks' vectors_to_upsert
  end.

Definition clear_existing_vectors : M unit :=
  try_except
    (vector_count ← index_info;
     if bool_decide (0 < vector_count) then index_reset else ret tt)
    (fun _ => ret tt).

Definition generate_vector_embeddings (chunks : list nat) : M unit :=
  try_except
    (clear_existing_vectors;;
     vectors_to_upsert ← embed_chunks chunks [];
     (* Process remaining vectors *)
     match vectors_to_upsert with
     | [] => ret tt
     | _ => _upsert_vector_batch vectors_to_upsert
     end)
    (fun e => count add_errors_encountered 1;; raise e).

(** ** The Document Loader: [load_and_validate_json] *)

Definition say (l : log_line) : M unit :=
  modify (fun w => set_log (log w ++ [l]) w).

(** [key in data] *)
Definition py_in (key : str) (data : json) : result bool :=
  match data with
  | JObject members => Ok (bool_decide (key ∈ members.*1))
  | JArray items =>
      Ok (existsb (fun v => match v with
                            | JString s => bool_decide (s = key)
                            | _ => false
                            end) items)
  | JString s => Ok (contains key s)
  | _ => Raise TypeError
  end.

(** [data.get(key, dflt)]: only a dictionary has [get]. *)
Definition dict_get (data : json) (key : str) (dflt : json) : result json :=
  match data with
  | JObject members =>
      Ok (default dflt (snd <$> List.find (fun kv => bool_decide (kv.1 = key)) members))
  | _ => Raise AttributeError
  end.

(** [len(v)] *)
Definition py_len (v : json) : result nat :=
  match v with
  | JString s => Ok (length s)
  | JArray items => Ok (length items)
  | JObject members => Ok (length members)
  | _ => Raise TypeError
  end.

Definition required_sections : list str :=
  [py "personalInfo"; py "experience"; py "skills"; py "projects";
   py "education"].

(** [[section for section in sections if section not in data]] *)
Fixpoint missing_sections (sections : list str) (data : json)
  : result (list str) :=
  match sections with
  | [] => Ok []
  | section :: sections' =>
      match py_in section data with
      | Raise e => Raise e
      | Ok present =>
          match missing_sections sections' data with
          | Raise e => Raise e
          | Ok rest => Ok (if present then rest else section :: rest)
          end
      end
  end.

(** [logger.info(f"   - {label}: {len(data.get(key, []))}")] *)
Definition log_count (label : string) (key : string) (data : json) : M unit :=
  v ← lift (dict_get data (py key) (JArray []));
  n ← lift (py_len v);
  say (InfoCount (py label) n).

(** [with open(file_path, 'r', encoding='utf-8') as f: data = json.load(f)] *)
Definition read_json (file_path : str) : M json :=
  fun w =>
    match files w file_path with
    | NoSuchFile => (Raise FileNotFoundError, w)
    | Unreadable e => (Raise e, w)
    | Malformed => (Raise JSONDecodeError, w)
    | WellFormed data => (Ok data, w)
    end.

Definition load_and_validate_json (file_path : str) : M json :=
  say (InfoLoading file_path);;
  try_except
    (data ← read_json file_path;
     (* Validate required sections *)
     missing ← lift (missing_sections required_sections data);
     match missing with
     | [] => ret tt
     | _ => say (WarningMissingSections missing)
     end;;
     say InfoLoaded;;
     log_count "Experiences" "experience" data;;
     log_count "Skills" "skills" data;;
     log_count "Projects" "projects" data;;
     log_count "Education" "education" data;;
     ret data)
    (fun e =>
       match e with
       | FileNotFoundError => say (ErrorFileNotFound file_path);; raise e
       | JSONDecodeError => say ErrorInvalidJSON;; raise e
       | _ => say ErrorLoading;; raise e
       end).

(** ** The JSON value of a profile document *)

Definition member {A : Type} (key : string) (f : A -> json) (field : option A)
  : list (str * json) :=
  match field with
  | Some v => [(py key, f v)]
  | None => []
  end.

Definition jstrings (l : list str) : json := JArray (map JString l).

Definition json_of_contact (c : Contact) : json :=
  JObject (member "email" JString (c_email c)
           ++ member "linkedin" JString (c_linkedin c)
           ++ member "github" JString (c_github c)
           ++ member "portfolio" JString (c_portfolio c)).

Definition json_of_personal_info (p : PersonalInfo) : json :=
  JObject (member "name" JString (pi_name p)
           ++ member "title" JString (pi_title p)
           ++ member "location" JString (pi_location p)
           ++ member "summary" JString (pi_summary p)
           ++ member "elevator_pitch" JString (pi_elevator_pitch p)
           ++ member "contact" json_of_contact (pi_contact p)
           ++ pi_other p).

Definition json_of_experience (e : Experience) : json :=
  JObject (member "company" JString (exp_company e)
           ++ member "position" JString (exp_position e)
           ++ member "duration" JString (exp_duration e)
           ++ member "description" JString (exp_description e)
           ++ member "achievements" jstrings (exp_achievements e)
           ++ member "technologies" jstrings (exp_technologies e)
           ++ member "skills_developed" jstrings (exp_skills_developed e)
           ++ member "impact" JString (exp_impact e)
           ++ member "keywords" jstrings (exp_keywords e)).

Definition json_of_technical_skill (s : TechnicalSkill) : json :=
  JObject (member "name" JString (ts_name s)
           ++ member "proficiency" JString (ts_proficiency s)
           ++ member "experience" JString (ts_experience s)
           ++ member "context" JString (ts_context s)
           ++ member "projects" jstrings (ts_projects s)).

Definition json_of_category_group (g : CategoryGroup) : json :=
  JObject (member "category" JString (cg_category g)
           ++ member "skills"
                (fun l => JArray (map json_of_technical_skill l)) (cg_skills g)).

Definition json_of_soft_skill (s : SoftSkill) : json :=
  JObject (member "skill" JString (ss_skill s)
           ++ member "name" JString (ss_name s)
           ++ member "evidence" JString (ss_evidence s)
           ++ member "examples" jstrings (ss_examples s)).

Definition json_of_skills (s : Skills) : json :=
  JObject (member "technical"
             (fun l => JArray (map json_of_category_group l)) (sk_technical s)
           ++ member "soft_skills"
                (fun l => JArray (map json_of_soft_skill l)) (sk_soft_skills s)).

Definition json_of_project (p : Project) : json :=
  JObject (member "name" JString (pr_name p)
           ++ member "type" JString (pr_type p)
           ++ member "status" JString (pr_status p)
           ++ member "description" JString (pr_description p)
           ++ member "role" JString (pr_role p)
           ++ member "technologies" jstrings (pr_technologies p)
           ++ member "achievements" jstrings (pr_achievements p)
           ++ member "challenges" jstrings (pr_challenges p)
           ++ member "url" JString (pr_url p)
           ++ member "github" JString (pr_github p)
           ++ member "documentation" JString (pr_documentation p)
           ++ member "timeline" JString (pr_timeline p)
           ++ member "team_size" JString (pr_team_size p)).

Definition json_of_education (e : Education) : json :=
  JObject (member "institution" JString (edu_institution e)
           ++ member "degree" JString (edu_degree e)
           ++ member "field_of_study" JString (edu_field_of_study e)
           ++ member "graduation_date" JString (edu_graduation_date e)
           ++ member "gpa" JString (edu_gpa e)
           ++ member "relevant_coursework" jstrings (edu_relevant_coursework e)
           ++ member "thesis_projects" jstrings (edu_thesis_projects e)
           ++ member "honors_awards" jstrings (edu_honors_awards e)
           ++ member "activities" jstrings (edu_activities e)
           ++ member "skills" jstrings (edu_skills e)).

Definition json_of_document (d : Document) : json :=
  JObject (member "personalInfo" json_of_personal_info (personalInfo d)
           ++ member "experience"
                (fun l => JArray (map json_of_experience l)) (experience d)
           ++ member "skills" json_of_skills (skills d)
           ++ member "projects"
                (fun l => JArray (map json_of_project l)) (projects d)
           ++ member "education"
                (fun l => JArray (map json_of_education l)) (education d)).

(** ** The whole run *)

(** [connect_databases]: a new connection sees what is committed; the
    vector index is asked for its [info()]. *)
Definition connect_databases : M unit :=
  (fun w =>
     let w1 := set_db_calls (S (db_calls w)) w in
     if db_fails w (db_calls w) then (Raise DatabaseError, w1)
     else (Ok tt, set_pending (committed w1) w1));;
  index_info;;
  ret tt.

(** [close_connections]: closing the connection drops what the open
    transaction has not committed. *)
Definition close_connections : M unit := rollback.

(** [with DigitalTwinMigrator() as migrator: body]. The constructor starts
    the statistics afresh (the environment is taken to hold the vector
    store's address and token); [__exit__] closes the connection and counts
    an error when the body raised, and lets the exception pass. *)
Definition with_migrator {A : Type} (body : M A) : M A :=
  modify (set_stats empty_stats);;
  connect_databases;;
  try_except
    (a ← body; close_connections;; ret a)
    (fun e =>
       close_connections;; count add_errors_encountered 1;; raise e).

(** Allocation of the chunk objects the builder returns: the list
    [chunks] of [main] is the list of their references. *)
Definition allocate (chunks : list ContentChunk) : M (list nat) :=
  fun w =>
    let base := heap_next w in
    (Ok (seq base (length chunks)),
     set_heap_next (base + length chunks)
       (set_heap (fun ref =>
                    match chunks !! (ref - base) with
                    | Some chunk =>
                        if bool_decide (base ≤ ref) then chunk else heap w ref
                    | None => heap w ref
                    end) w)).

(** The stages [main] runs on the loaded document [json_data]. *)
Definition run_stages (json_data : Document) : M unit :=
  (* Insert professional data *)
  professional_id ←
    match personalInfo json_data with
    | Some personal_info => insert_professional_data personal_info
    | None => raise KeyError
    end;
  (* Insert related data *)
  match experience json_data with
  | Some l => insert_experiences l professional_id
  | None => ret tt
  end;;
  match skills json_data with
  | Some s => insert_skills s professional_id
  | None => ret tt
  end;;
  match projects json_data with
  | Some l => insert_projects l professional_id
  | None => ret tt
  end;;
  match education json_data with
  | Some l => insert_education l professional_id
  | None => ret tt
  end;;
  (* Insert complete JSON document *)
  insert_json_content json_data professional_id;;
  (* Create and insert content chunks *)
  chunks ← allocate (create_content_chunks json_data professional_id);
  insert_content_chunks chunks professional_id;;
  (* Generate vector embeddings *)
  generate_vector_embeddings chunks.

Definition json_file_path : str := py "data/mytwin.json".

(** [main], for a file that holds the profile document [json_data]: the
    loader returns the JSON value of the file and the stages read it as
    [json_data]. Every exit with a failure is [sys.exit(1)]. *)
Definition main (json_data : Document) : M unit :=
  fun w =>
    match files w json_file_path with
    | NoSuchFile => (Raise (SystemExit 1), w)
    | _ =>
        try_except
          (with_migrator
             (load_and_validate_json json_file_path;;
              run_stages json_data))
          (fun _ => raise (SystemExit 1)) w
    end.

End Pipeline.

(** ** The mock API: [calculate_mock_confidence] ([api_server.py]) *)

(** [max(a, b)] and [min(a, b)] on floats: the first argument stays unless
    the second is strictly beyond it. *)
Definition py_max (a b : float) : float := if PrimFloat.ltb a b then b else a.
Definition py_min (a b : float) : float := if PrimFloat.ltb b a then b else a.

Definition base_confidence : float := 0.85%float.

Definition technical_terms : list str :=
  [py "database"; py "vector"; py "embedding"; py "sql"; py "performance";
   py "latency"].

Definition calculate_mock_confidence (query : str) : float :=
  (* Adjust confidence based on query length and specificity *)
  if bool_decide (length query < 10) then
    py_max 0.6%float (PrimFloat.sub base_confidence 0.2%float)
  else if bool_decide (50 < length query) then
    py_min 0.95%float (PrimFloat.add base_confidence 0.1%float)
  (* Higher confidence for technical queries *)
  else if existsb (fun term => contains term (lower query)) technical_terms then
    py_min 0.92%float (PrimFloat.add base_confidence 0.07%float)
  else base_confidence.

(** * Vocabulary of the statements *)

(** The external services answer every call. *)
Definition db_reliable (w : World) : Prop := forall n, db_fails w n = false.
Definition vector_reliable (w : World) : Prop :=
  forall n, vector_fails w n = false.

(** The world [w0] with everything replaced but the behaviour of the
    services and the files. *)
Definition world_at (w0 : World) (c p : Tables) (q : Sequences) (n : nat)
    (ix : list Vector) (vn : nat) (sl : list nat) (s : MigrationStats)
    (h : nat -> ContentChunk) (hn : nat) (lg : list log_line) : World :=
  mk_world c p q n (db_fails w0) ix vn (vector_fails w0) sl s h hn (files w0) lg.

(** [parse_duration] and [parse_date] never raise (shown below), so a
    string determines its dates. *)
Definition duration_of (unicode_decimal : N -> option N) (s : str)
  : option datetime * option datetime * bool :=
  match parse_duration unicode_decimal s with
  | Ok r => r
  | Raise _ => (None, None, false)
  end.

Definition date_of (unicode_decimal : N -> option N) (s : str)
  : option datetime :=
  match parse_date unicode_decimal s with Ok d => d | Raise _ => None end.

(** What [replace] does to one code point in [normalize_dashes]. *)
Definition norm_cp (c : N) : N :=
  if ((c =? en_dash) || (c =? em_dash))%N then 45%N else c.

(** The rows of each dependent table for the entries of a document, in
    document order. *)
Definition experience_rows (unicode_decimal : N -> option N)
    (professional_id : Z) (l : list Experience) : list ExperienceRow :=
  map (fun exp => experience_row professional_id exp
                    (duration_of unicode_decimal (get (exp_duration exp) []))) l.

Definition project_dates (unicode_decimal : N -> option N) (project : Project)
  : option datetime * option datetime * bool :=
  match pr_timeline project with
  | Some timeline => duration_of unicode_decimal timeline
  | None => (None, None, false)
  end.

Definition project_rows (unicode_decimal : N -> option N)
    (professional_id : Z) (l : list Project) : list ProjectRow :=
  map (fun project =>
         project_row professional_id project
           (project_dates unicode_decimal project).1.1
           (project_dates unicode_decimal project).1.2) l.

Definition education_rows (unicode_decimal : N -> option N)
    (professional_id : Z) (l : list Education) : list EducationRow :=
  map (fun edu =>
         education_row professional_id edu
           (match edu_graduation_date edu with
            | Some date_str => date_of unicode_decimal date_str
            | None => None
            end)) l.

(** What [insert_professional_data] does to the database. *)
Definition email_of (personal_info : PersonalInfo) : option str :=
  c_email (get (pi_contact personal_info) no_contact).

Definition professional_id_for (personal_info : PersonalInfo) (t : Tables)
    (q : Sequences) : Z :=
  default (next_professional_id q)
    (select_professional (email_of personal_info) t).

Definition professionals_after (personal_info : PersonalInfo) (t : Tables)
    (q : Sequences) : list ProfessionalRow :=
  let contact := get (pi_contact personal_info) no_contact in
  match select_professional (email_of personal_info) t with
  | Some id => map (update_professional id personal_info contact) (professionals t)
  | None =>
      professionals t
        ++ [new_professional (next_professional_id q) personal_info contact]
  end.

Definition sequences_after_professional (personal_info : PersonalInfo)
    (t : Tables) (q : Sequences) : Sequences :=
  match select_professional (email_of personal_info) t with
  | Some _ => q
  | None => mk_sequences (next_professional_id q + 1) (next_json_content_id q)
              (next_chunk_row_id q)
  end.

Definition stats_after_professional (personal_info : PersonalInfo)
    (t : Tables) (s : MigrationStats) : MigrationStats :=
  match select_professional (email_of personal_info) t with
  | Some _ => s
  | None => add_professionals_inserted 1 s
  end.





(** What the Chunk Persister leaves behind for the chunk behind [ref],
    the [i]-th of the list: the row it inserted ([h] is the heap before,
    [h'] the heap after). *)
Definition persisted (professional_id : Z) (i : nat)
    (h h' : nat -> ContentChunk) (ref : nat) (row : ChunkRow) : Prop :=
  ch_chunk_id row
    = py "chunk-" ++ str_of_Z professional_id ++ py "-"
        ++ chunk_type (h ref) ++ py "-" ++ str_of_nat i
  /\ ch_vector_id row = py "upstash-" ++ ch_chunk_id row
  /\ chunk_id_of_vector_id (ch_vector_id row) = Some (ch_chunk_id row)
  /\ metadata (h' ref) !! "chunk_id" = Some (VInt (ch_id row))
  /\ metadata (h' ref) !! "vector_id" = Some (VStr (ch_vector_id row)).

Definition sequences_after_chunks (q : Sequences) (k : nat) : Sequences :=
  mk_sequences (next_professional_id q) (next_json_content_id q)
    (next_chunk_row_id q + Z.of_nat k).

(** The heap after [allocate]. *)
Definition allocated (chunks : list ContentChunk) (h : nat -> ContentChunk)
    (base : nat) : nat -> ContentChunk :=
  fun ref =>
    match chunks !! (ref - base) with
    | Some chunk => if bool_decide (base ≤ ref) then chunk else h ref
    | None => h ref
    end.

(** The vectors counted as embedded. *)
Definition embedded (w : World) : nat := vectors_embedded (stats w).

(** The sections of a document the loader finds missing, and the lines it
    logs for a file that holds the document. *)
Definition absent {A : Type} (key : string) (field : option A) : list str :=
  match field with Some _ => [] | None => [py key] end.

Definition missing_of (d : Document) : list str :=
  absent "personalInfo" (personalInfo d) ++ absent "experience" (experience d)
  ++ absent "skills" (skills d) ++ absent "projects" (projects d)
  ++ absent "education" (education d).

Definition present {A : Type} (field : option A) : nat :=
  match field with Some _ => 1 | None => 0 end.

Definition skills_keys (s : Skills) : nat :=
  present (sk_technical s) + present (sk_soft_skills s).

Definition loader_lines (file_path : str) (d : Document) : list log_line :=
  [InfoLoading file_path]
  ++ match missing_of d with
     | [] => []
     | missing => [WarningMissingSections missing]
     end
  ++ [InfoLoaded;
      InfoCount (py "Experiences") (length (get (experience d) []));
      InfoCount (py "Skills") (from_option skills_keys 0 (skills d));
      InfoCount (py "Projects") (length (get (projects d) []));
      InfoCount (py "Education") (length (get (education d) []))].

Definition is_error_line (l : log_line) : bool :=
  match l with
  | ErrorFileNotFound _ | ErrorInvalidJSON | ErrorLoading => true
  | _ => false
  end.

(** A value [len] accepts. *)
Definition is_sized (v : json) : bool :=
  match v with
  | JString _ | JArray _ | JObject _ => true
  | _ => false
  end.

Definition counted_sections : list str :=
  [py "experience"; py "skills"; py "projects"; py "education"].

(** Every counted section that is present holds a value [len] accepts. *)
Definition sections_sized (members : list (str * json)) : bool :=
  forallb (fun key =>
             match List.find (fun kv => bool_decide (kv.1 = key)) members with
             | Some kv => is_sized kv.2
             | None => true
             end) counted_sections.

Definition is_digit (c : N) : bool := ((48 <=? c) && (c <=? 57))%N.

Definition mentions_technical_term (query : str) : bool :=
  existsb (fun term => contains term (lower query)) technical_terms.

(** ** Sample inputs *)

(** An interpreter whose only decimal digits are the ASCII ones. *)
Definition ascii_digits_only : N -> option N := fun _ => None.

Definition sample_hash : Document -> str := fun _ => py "0f".

Definition sample_experience (company duration : string) : Experience :=
  {| exp_company := Some (py company);
     exp_position := Some (py "Engineer");
     exp_duration := Some (py duration);
     exp_description := None;
     exp_achievements := Some [py "Shipped it"];
     exp_technologies := Some [py "Python"];
     exp_skills_developed := None;
     exp_impact := None;
     exp_keywords := Some [py "devops"] |}.

Definition sample_project (name : string) (status : option str) : Project :=
  {| pr_name := Some (py name); pr_type := None; pr_status := status;
     pr_description := None; pr_role := None;
     pr_technologies := Some [py "Rust"]; pr_achievements := None;
     pr_challenges := None; pr_url := None; pr_github := None;
     pr_documentation := None; pr_timeline := Some (py "2020-01 - 2020-06");
     pr_team_size := None |}.

Definition sample_education : Education :=
  {| edu_institution := Some (py "UNSW"); edu_degree := Some (py "BSc");
     edu_field_of_study := Some (py "Computing");
     edu_graduation_date := Some (py "2015"); edu_gpa := None;
     edu_relevant_coursework := None; edu_thesis_projects := None;
     edu_honors_awards := None; edu_activities := None; edu_skills := None |}.

Definition sample_personal_info : PersonalInfo :=
  {| pi_name := Some (py "Alex"); pi_title := Some (py "Engineer");
     pi_location := None; pi_summary := None; pi_elevator_pitch := None;
     pi_contact :=
       Some {| c_email := Some (py "alex@example.org"); c_linkedin := None;
               c_github := None; c_portfolio := None |};
     pi_other := [] |}.

Definition sample_skills : Skills :=
  {| sk_technical :=
       Some [{| cg_category := Some (py "Cloud");
                cg_skills :=
                  Some [{| ts_name := Some (py "Kubernetes");
                           ts_proficiency := None; ts_experience := None;
                           ts_context := None; ts_projects := None |}] |}];
     sk_soft_skills :=
       Some [{| ss_skill := Some (py "Mentoring"); ss_name := None;
                ss_evidence := None; ss_examples := None |}] |}.

Definition sample_experiences : list Experience :=
  [sample_experience "Acme" "2021-03 - Present";
   sample_experience "Initech" "2019-01 - 2020-06";
   sample_experience "Globex" "2017";
   sample_experience "Hooli" "June 2015 - Dec 2016"].

Definition sample_projects : list Project :=
  [sample_project "Ledger" (Some (py "completed"));
   sample_project "Beacon" (Some (py "in progress"))].

Definition sample_document : Document :=
  {| personalInfo := Some sample_personal_info;
     experience := Some sample_experiences;
     skills := Some sample_skills;
     projects := Some sample_projects;
     education := Some [sample_education] |}.


Definition empty_tables : Tables := mk_tables [] [] [] [] [] [] [].

Definition blank_chunk : ContentChunk :=
  mk_chunk [] ∅ (py "experience") (py "high") [] None.

(** A world with an empty database and an empty vector index, in which
    every path holds [file], the database answers every call and the
    vector store fails the calls [vector_failures] says. *)
Definition sample_world (file : file_state) (vector_failures : nat -> bool)
  : World :=
  mk_world empty_tables empty_tables (mk_sequences 1 1 1) 0 (fun _ => false)
    [] 0 vector_failures [] empty_stats (fun _ => blank_chunk) 0
    (fun _ => file) [].

Definition never : nat -> bool := fun _ => false.
Definition always : nat -> bool := fun _ => true.
Definition twice : nat -> bool := fun n => bool_decide (n < 2).

(** The chunks of the sample document for professional 1, held on the
    heap of a world at the references [sample_refs]. *)
Definition sample_chunks : list ContentChunk :=
  create_content_chunks sample_document 1.

Definition sample_refs : list nat := seq 0 (length sample_chunks).

Definition sample_chunk_world : World :=
  (allocate sample_chunks (sample_world NoSuchFile never)).2.

Definition sample_vectors : list Vector :=
  [mk_vector (VStr (py "upstash-chunk-1-experience-0")) (py "first") ∅;
   mk_vector (VStr (py "upstash-chunk-1-experience-1")) (py "second") ∅].

(** A chunk that has been given its vector id, and a world whose heap
    holds it while the vector store fails every call. *)
Definition keyed_chunk : ContentChunk :=
  mk_chunk (py "text")
    (<["vector_id" := VStr (py "upstash-chunk-1-experience-0")]> ∅)
    (py "experience") (py "high") [] None.

Definition failing_vector_world : World :=
  set_heap (fun _ => keyed_chunk) (sample_world NoSuchFile always).

(** A world whose profile file holds the document [d]. *)
Definition sample_file_world (d : Document) : World :=
  sample_world (WellFormed (json_of_document d)) never.

(** The file [{"experience": null}] and the file [{"projects": []}]. *)
Definition null_experience_file : file_state :=
  WellFormed (JObject [(py "experience", JNull)]).

Definition projects_only_file : file_state :=
  WellFormed (JObject [(py "projects", JArray [])]).

(** ** Vocabulary of the further properties *)

(** What a method of the Relational Mapper leaves behind when it raises:
    the committed tables as they were, the open transaction rolled back to
    them, and one more error counted. *)
Definition rolled_back (w w' : World) : Prop :=
  committed w' = committed w
  /\ pending w' = committed w
  /\ errors_encountered (stats w') = errors_encountered (stats w) + 1.

(** The outcome of a computation of the open transaction: [post] when it
    returns, and when it raises the exception is [DatabaseError] and
    [fail] holds. *)
Definition runs {A : Type} (m : M A) (w : World)
    (post : A -> World -> Prop) (fail : World -> Prop) : Prop :=
  match m w with
  | (Ok a, w') => post a w'
  | (Raise e, w') => e = DatabaseError /\ fail w'
  end.

(** The outcome of a replace-all method that makes [calls] calls to the
    database (the delete, one insert per row, the commit), from the world
    [w]: it returns when every call succeeds, with [replaced] committed
    and one row counted per insert; otherwise the first failing call
    raises, nothing is committed, and the inserts made before it stay
    counted. *)
Definition stage_outcome (w : World) (calls : nat)
    (counter : MigrationStats -> nat) (replaced : Tables)
    (r : result unit) (w' : World) : Prop :=
  match r with
  | Ok _ =>
      (forall k, k < calls -> db_fails w (db_calls w + k) = false)
      /\ committed w' = replaced
      /\ pending w' = replaced
      /\ counter (stats w') = counter (stats w) + (calls - 2)
      /\ errors_encountered (stats w') = errors_encountered (stats w)
  | Raise e =>
      e = DatabaseError
      /\ exists k,
           k < calls
           /\ db_fails w (db_calls w + k) = true
           /\ (forall j, j < k -> db_fails w (db_calls w + j) = false)
           /\ rolled_back w w'
           /\ counter (stats w') = counter (stats w) + (k - 1)
  end.

(** The first [calls] calls to the database from [w] on succeed. *)
Definition calls_succeed (w : World) (calls : nat) : Prop :=
  forall k, k < calls -> db_fails w (db_calls w + k) = false.

(** The call number [k] from [w] on is the first that fails. *)
Definition first_failure (w : World) (k : nat) : Prop :=
  db_fails w (db_calls w + k) = true /\ calls_succeed w k.

(** What [insert_json_content] does to the table of JSON documents. *)
Definition new_json_content (content_hash_of : Document -> str)
    (content_id : Z) (json_data : Document) (professional_id : Z)
  : JsonContentRow :=
  {| jc_id := content_id;
     jc_professional_id := professional_id;
     jc_version := py "v1";
     jc_content := json_data;
     jc_content_hash := content_hash_of json_data;
     jc_validation_status := py "valid" |}.

Definition json_content_after (content_hash_of : Document -> str)
    (json_data : Document) (professional_id : Z) (t : Tables) (q : Sequences)
  : list JsonContentRow :=
  match select_json_content professional_id t with
  | Some id =>
      map (update_json_content content_hash_of id json_data) (json_content t)
  | None =>
      json_content t
        ++ [new_json_content content_hash_of (next_json_content_id q)
              json_data professional_id]
  end.

Definition content_id_for (professional_id : Z) (t : Tables) (q : Sequences)
  : Z :=
  default (next_json_content_id q) (select_json_content professional_id t).

(** The vector [generate_vector_embeddings] builds for a chunk that has
    its vector id. *)
Definition vector_of (chunk : ContentChunk) : Vector :=
  mk_vector (default VNone (metadata chunk !! "vector_id")) (content chunk)
    (vector_metadata chunk).

(** A date [strptime] can return for the formats of [parse_date]: the
    first day of a month of a year from 1 on. *)
Definition first_of_month (d : datetime) : Prop :=
  (1 <= year d)%N /\ (1 <= month d <= 12)%N /\ day d = 1%N.

Definition valid_date (o : option datetime) : Prop :=
  match o with Some d => first_of_month d | None => True end.

(** A month number read by [strptime], when there is one. *)
Definition month_in_range (m : option N) : Prop :=
  match m with Some k => (1 <= k <= 12)%N | None => True end.

(** A year written with the four ASCII digits [a b c d], and its value. *)
Definition year_digits (a b c d : N) : str :=
  [48 + a; 48 + b; 48 + c; 48 + d]%N.

Definition year_value (a b c d : N) : N := (1000 * a + 100 * b + 10 * c + d)%N.

(** A month written with two ASCII digits. *)
Definition month_digits (m : N) : str := [48 + m / 10; 48 + m mod 10]%N.

(** No other name of [names] can be read where [name] and a space stand. *)
Definition separated (names : list (str * N)) (name : str) : bool :=
  forallb (fun nk =>
             bool_decide (nk.1 = name)
             || (negb (startswith nk.1 (name ++ [32%N]))
                 && negb (startswith (name ++ [32%N]) nk.1))) names.

(** The month a list of names gives to [name]. *)
Definition month_named (names : list (str * N)) (name : str) : option N :=
  snd <$> head (filter (fun nk => nk.1 = name) names).

(** The chunk types the builder uses. *)
Definition chunk_types : list str :=
  [py "personal_info"; py "experience"; py "skills"; py "project";
   py "education"].

(** What the builder leaves in the metadata of every chunk. *)
Definition fresh_metadata (professional_id : Z) (chunk : ContentChunk) : Prop :=
  metadata chunk !! "professional_id" = Some (VInt professional_id)
  /\ metadata chunk !! "content_type" = Some (VStr (chunk_type chunk))
  /\ chunk_type chunk ∈ chunk_types
  /\ metadata chunk !! "chunk_id" = None
  /\ metadata chunk !! "vector_id" = None.

(** How an f-string renders an optional string read with [dict.get(key)]. *)
Definition or_None (o : option str) : str :=
  match o with Some s => s | None => py "None" end.

(** A profile document that has no [personalInfo] section. *)
Definition sample_document_without_personal_info : Document :=
  {| personalInfo := None;
     experience := Some sample_experiences;
     skills := Some sample_skills;
     projects := Some sample_projects;
     education := Some [sample_education] |}.

(** ** The mock API: [generate_mock_response] and [get_mock_sources] *)

Definition newline : str := [10%N].
Definition quote : str := [34%N].

(** The four replies, line by line as the source has them. *)
Definition architecture_response : str :=
  py "The Digital Twin RAG system uses a hybrid architecture combining PostgreSQL and Upstash Vector databases. "
  ++ newline ++ py "        The system maintains an 8-table PostgreSQL schema with 61 optimized indexes and leverages 19 vector embeddings "
  ++ newline ++ py "        using the 1024-dimensional mixbread-large model. Current performance metrics show 86.7% accuracy with "
  ++ newline ++ py "        0.265s average latency and 3.8 queries per second throughput.".

Definition performance_response : str :=
  py "Current system performance metrics: Average latency of 0.265 seconds, throughput of 3.8 queries "
  ++ newline ++ py "        per second, and 86.7% test success rate (13/15 tests passing). The vector search typically completes in "
  ++ newline ++ py "        under 100ms, while PostgreSQL queries average 165ms response time.".

Definition testing_response : str :=
  py "The RAG system has been thoroughly tested with a success rate of 86.7% (13 out of 15 tests passing). "
  ++ newline ++ py "        Testing covers vector similarity search, content retrieval, chunk ID mapping, and end-to-end query processing. "
  ++ newline ++ py "        Recent improvements fixed critical chunk ID mapping issues between the vector database and PostgreSQL.".

Definition fallback_response (query : str) : str :=
  py "Based on your query about " ++ quote ++ query ++ quote
  ++ py ", I can provide information from the knowledge base. "
  ++ newline ++ py "        The Digital Twin RAG system combines advanced vector search with relational database querying to deliver "
  ++ newline ++ py "        accurate, contextual responses. The system processes your request through semantic similarity matching "
  ++ newline ++ py "        and retrieves the most relevant information from our comprehensive knowledge repository.".

(** [any(word in s for word in words)] *)
Definition any_in (words : list str) (s : str) : bool :=
  existsb (fun word => contains word s) words.

Definition generate_mock_response (query : str) : str :=
  let query_lower := lower query in
  if any_in [py "system"; py "architecture"; py "database"] query_lower then
    architecture_response
  else if any_in [py "performance"; py "speed"; py "latency"] query_lower then
    performance_response
  else if any_in [py "test"; py "testing"; py "results"] query_lower then
    testing_response
  else fallback_response query.

Definition base_sources : list str :=
  [py "schema/complete_schema.sql"; py "test_rag_functionality.py"].

Definition get_mock_sources (query : str) : list str :=
  let query_lower := lower query in
  if contains (py "system") query_lower
     || contains (py "architecture") query_lower then
    base_sources
    ++ [py "docs/current_system_overview.md"; py "IMPLEMENTATION_SUMMARY.md"]
  else if contains (py "performance") query_lower then
    base_sources
    ++ [py "rag_test_results.json"; py "upstash_vector_test_results.json"]
  else if contains (py "test") query_lower then
    base_sources ++ [py "test_rag_functionality.py"; py "debug_rag.py"]
  else base_sources ++ [py "README.md"].

(** The truth value of a dictionary: the JSON object has a member. *)
Definition has_members (v : json) : bool :=
  match v with JObject (_ :: _) => true | _ => false end.

(** A world whose heap holds [keyed_chunk] while both services answer. *)
Definition keyed_world : World :=
  set_heap (fun _ => keyed_chunk) (sample_world NoSuchFile never).

(** A document whose [personalInfo] has only a key the pipeline does not
    read, and whose soft skills are the empty list. *)
Definition sparse_document : Document :=
  {| personalInfo :=
       Some {| pi_name := None; pi_title := None; pi_location := None;
               pi_summary := None; pi_elevator_pitch := None;
               pi_contact := None;
               pi_other := [(py "age", JNumber (py "41"))] |};
     experience := None;
     skills := Some {| sk_technical := None; sk_soft_skills := Some [] |};
     projects := Some [];
     education := None |}.

(** A database that holds an older row for the e-mail of the sample
    person, under the id 7. *)
Definition stale_row : ProfessionalRow :=
  {| p_id := 7; p_name := Some (py "Old Name"); p_title := None;
     p_location := Some (py "Elsewhere");
     p_email := Some (py "alex@example.org");
     p_linkedin := Some (py "old-profile"); p_github := None;
     p_portfolio := None; p_summary := None; p_elevator_pitch := None |}.

Definition stale_tables : Tables := mk_tables [stale_row] [] [] [] [] [] [].

Definition stale_world : World :=
  set_pending stale_tables
    (set_committed stale_tables (sample_world NoSuchFile never)).

(** * Properties *)

(** ** Running the monad *)

Lemma bind_ok {A B : Type} (m : M A) (k : A -> M B) w a w' :
  m w = (Ok a, w') -> (m ≫= k) w = k a w'.
Proof. intros H. unfold mbind, M_bind, bind. by rewrite H. Qed.

Lemma bind_raise {A B : Type} (m : M A) (k : A -> M B) w e w' :
  m w = (Raise e, w') -> (m ≫= k) w = (Raise e, w').
Proof. intros H. unfold mbind, M_bind, bind. by rewrite H. Qed.

Lemma try_except_ok {A : Type} (m : M A) h w a w' :
  m w = (Ok a, w') -> try_except m h w = (Ok a, w').
Proof. intros H. unfold try_except. by rewrite H. Qed.

Lemma or_rollback_ok {A : Type} (m : M A) w a w' :
  m w = (Ok a, w') -> or_rollback m w = (Ok a, w').
Proof. apply try_except_ok. Qed.

(** Reduction of the projections of a world that setters have built. *)
Ltac world_simpl :=
  unfold set_committed, set_pending, set_sequences, set_db_calls,
    set_vector_index, set_vector_calls, set_slept, set_stats, set_heap,
    set_heap_next, set_log;
  cbn [committed pending sequences db_calls db_fails vector_index vector_calls
       vector_fails slept stats heap heap_next files log fst snd].

(** ** Strings *)

Lemma split_go_no_sep sep cur s :
  contains sep s = false -> split_go sep 0 cur s = [rev cur ++ s].
Proof.
  revert cur. induction s as [|c s IH]; intros cur H.
  - simpl. by rewrite app_nil_r.
  - cbn [contains] in H. apply orb_false_iff in H as [H1 H2].
    cbn [split_go]. rewrite H1, IH by done.
    simpl. by rewrite <- app_assoc.
Qed.

Lemma split_no_sep sep s : contains sep s = false -> split sep s = [s].
Proof. intros H. unfold split. by rewrite split_go_no_sep. Qed.

Lemma startswith_map (f : N -> N) (p s : str) :
  (forall c x, c ∈ p -> (f x = c <-> x = c)) ->
  startswith p (map f s) = startswith p s.
Proof.
  revert s. induction p as [|a p IH]; intros s Hf; [by destruct s|].
  destruct s as [|b s]; [done|]. cbn [map startswith].
  rewrite IH by (intros c x Hc; apply Hf; by right).
  f_equal. pose proof (Hf a b ltac:(by left)) as Hab.
  destruct (N.eqb_spec a (f b)) as [E|E], (N.eqb_spec a b) as [E'|E'];
    try done; exfalso.
  - by apply E', eq_sym, Hab.
  - by apply E, eq_sym, Hab.
Qed.

Lemma contains_map (f : N -> N) (p s : str) :
  (forall c x, c ∈ p -> (f x = c <-> x = c)) ->
  contains p (map f s) = contains p s.
Proof.
  intros Hf. induction s as [|b s IH].
  - simpl. by destruct p.
  - change (map f (b :: s)) with (f b :: map f s).
    cbn [contains]. rewrite IH. f_equal.
    exact (startswith_map f p (b :: s) Hf).
Qed.

(** ** Dash normalisation *)

Lemma normalize_dashes_map s : normalize_dashes s = map norm_cp s.
Proof.
  unfold normalize_dashes, replace.
  induction s as [|c s IH]; [done|].
  cbn [flat_map map]. unfold norm_cp at 1.
  destruct (c =? en_dash)%N eqn:E1; simpl.
  - by rewrite IH.
  - destruct (c =? em_dash)%N eqn:E2; simpl; by rewrite IH.
Qed.

Lemma lower_norm_comm c : lower_cp (norm_cp c) = norm_cp (lower_cp c).
Proof.
  unfold lower_cp, norm_cp, en_dash, em_dash.
  destruct (N.eqb_spec c 8211) as [->|?]; [done|].
  destruct (N.eqb_spec c 8212) as [->|?]; [done|].
  cbn [orb].
  destruct ((65 <=? c)%N && (c <=? 90)%N) eqn:E;
    [|by rewrite !(proj2 (N.eqb_neq _ _))].
  apply andb_true_iff in E as [?%N.leb_le ?%N.leb_le].
  by rewrite !(proj2 (N.eqb_neq _ _)) by lia.
Qed.

Lemma norm_cp_fixes c x :
  (97 <= c <= 122)%N -> (norm_cp x = c <-> x = c).
Proof.
  unfold norm_cp, en_dash, em_dash. intros Hc.
  repeat match goal with
         | |- context [(?a =? ?b)%N] => destruct (N.eqb_spec a b)
         end;
    simpl; split; intros; subst; lia.
Qed.

Lemma norm_cp_idem c : norm_cp (norm_cp c) = norm_cp c.
Proof.
  unfold norm_cp, en_dash, em_dash.
  destruct (N.eqb_spec c 8211) as [->|?]; [done|].
  destruct (N.eqb_spec c 8212) as [->|?]; [done|].
  cbn [orb]. by rewrite !(proj2 (N.eqb_neq _ _)).
Qed.

(** A word of lower-case ASCII letters occurs in a string exactly when it
    occurs in the string with its dashes normalised. *)
Lemma contains_norm (p s : str) :
  forallb (fun c => (97 <=? c) && (c <=? 122))%N p = true ->
  contains p (map norm_cp s) = contains p s.
Proof.
  intros Hp. apply contains_map. intros c x Hc.
  apply norm_cp_fixes. rewrite forallb_forall in Hp.
  apply list_elem_of_In, Hp, andb_true_iff in Hc.
  destruct Hc as [?%N.leb_le ?%N.leb_le]. lia.
Qed.

Lemma is_current_normalize s : is_current (normalize_dashes s) = is_current s.
Proof.
  unfold is_current. rewrite normalize_dashes_map. unfold lower.
  assert (E : map lower_cp (map norm_cp s) = map norm_cp (map lower_cp s)).
  { rewrite <- !list_fmap_compose. apply list_fmap_ext. intros ? c _.
    apply lower_norm_comm. }
  by rewrite E, !contains_norm.
Qed.

Lemma normalize_dashes_idem s :
  normalize_dashes (normalize_dashes s) = normalize_dashes s.
Proof.
  rewrite !normalize_dashes_map, <- list_fmap_compose.
  apply list_fmap_ext. intros ? c _. apply norm_cp_idem.
Qed.

(** ** [parse_date] and [parse_duration] *)

Section DateProperties.

Variable unicode_decimal : N -> option N.

Lemma strptime_raises s fmt e :
  strptime unicode_decimal s fmt = Raise e -> e = ValueError.
Proof.
  unfold strptime.
  destruct (re_match _ _ _ _ _) as [[[y m] [|? ?]]|]; try congruence.
  destruct (_ =? _)%N; congruence.
Qed.

Lemma parse_date_loop_ok s fmts :
  exists d, parse_date_loop unicode_decimal s fmts = Ok d.
Proof.
  induction fmts as [|fmt fmts IH]; [by eexists|].
  cbn [parse_date_loop].
  destruct (strptime unicode_decimal s fmt) as [d|e] eqn:E; [by eexists|].
  by rewrite (strptime_raises _ _ _ E).
Qed.

Lemma parse_date_ok s : exists d, parse_date unicode_decimal s = Ok d.
Proof.
  destruct s as [|c s]; [by exists None|].
  exact (parse_date_loop_ok (c :: s) formats).
Qed.

Lemma parse_date_date_of s :
  parse_date unicode_decimal s = Ok (date_of unicode_decimal s).
Proof. unfold date_of. by destruct (parse_date_ok s) as [d ->]. Qed.

Lemma parse_date_no_format s :
  (forall fmt, fmt ∈ formats -> strptime unicode_decimal s fmt = Raise ValueError) ->
  parse_date unicode_decimal s = Ok None.
Proof.
  intros H. destruct s as [|c s]; [done|].
  change (parse_date unicode_decimal (c :: s))
    with (parse_date_loop unicode_decimal (c :: s) formats).
  induction formats as [|fmt fmts IH]; [done|].
  cbn [parse_date_loop]. rewrite H by (by left).
  apply IH. intros fmt' Hfmt'. apply H. by right.
Qed.

Lemma parse_duration_ok s : exists r, parse_duration unicode_decimal s = Ok r.
Proof.
  unfold parse_duration. destruct s as [|c s]; [by eexists|].
  destruct (split _ _) as [|p0 [|p1 rest]]; try by eexists.
  rewrite !parse_date_date_of. destruct (is_current _); by eexists.
Qed.

Lemma parse_duration_duration_of s :
  parse_duration unicode_decimal s = Ok (duration_of unicode_decimal s).
Proof. unfold duration_of. by destruct (parse_duration_ok s) as [r ->]. Qed.

Lemma parse_duration_normalize s :
  parse_duration unicode_decimal (normalize_dashes s)
  = parse_duration unicode_decimal s.
Proof.
  unfold parse_duration.
  rewrite normalize_dashes_idem, is_current_normalize.
  destruct s as [|c s]; [done|].
  by rewrite normalize_dashes_map.
Qed.

Lemma parse_duration_parts s p0 p1 rest :
  split (py " - ") (normalize_dashes s) = p0 :: p1 :: rest ->
  parse_duration unicode_decimal s =
    Ok (date_of unicode_decimal (strip p0),
        if is_current s then None else date_of unicode_decimal (strip p1),
        is_current s).
Proof.
  intros H. unfold parse_duration. rewrite H.
  destruct s as [|c s]; [discriminate H|].
  rewrite !parse_date_date_of. by destruct (is_current _).
Qed.

(** C4, as amended: [parse_duration] maps "2021-03 - Present" to (March
    2021, no end, ongoing) and "2019-01 - 2020-06" to (January 2019, June
    2020, not ongoing); an en-dash (U+2013) or em-dash (U+2014) counts as
    a hyphen: a string with one of them parses as the string with a hyphen
    in its place, so "2021-03 (en-dash) Present" and "2019-01 (em-dash)
    2020-06" parse as the two strings above (the result on a string is the
    result on the string with its dashes normalised); when the normalised
    string splits at " - " into at least
    two parts, the result is the date of the first part, the date of the
    second part unless "present" or "current" occurs anywhere in the
    string in any letter case, in which case the end is null, and the
    ongoing flag says whether one of them occurs; a date string that
    matches none of the formats parses to null; and neither function ever
    raises. *)
Theorem parse_duration_amended :
  parse_duration unicode_decimal (py "2021-03 - Present")
  = Ok (Some (mk_datetime 2021 3 1), None, true)
  /\ parse_duration unicode_decimal (py "2019-01 - 2020-06")
     = Ok (Some (mk_datetime 2019 1 1), Some (mk_datetime 2020 6 1), false)
  /\ (forall a b,
        parse_duration unicode_decimal (a ++ [8211%N] ++ b)
        = parse_duration unicode_decimal (a ++ py "-" ++ b))
  /\ (forall a b,
        parse_duration unicode_decimal (a ++ [8212%N] ++ b)
        = parse_duration unicode_decimal (a ++ py "-" ++ b))
  /\ parse_duration unicode_decimal (py "2021-03 " ++ [8211%N] ++ py " Present")
     = Ok (Some (mk_datetime 2021 3 1), None, true)
  /\ parse_duration unicode_decimal (py "2019-01 " ++ [8212%N] ++ py " 2020-06")
     = Ok (Some (mk_datetime 2019 1 1), Some (mk_datetime 2020 6 1), false)
  /\ (forall s,
        parse_duration unicode_decimal s
        = parse_duration unicode_decimal (normalize_dashes s))
  /\ (forall s p0 p1 rest,
        split (py " - ") (normalize_dashes s) = p0 :: p1 :: rest ->
        parse_duration unicode_decimal s =
          Ok (date_of unicode_decimal (strip p0),
              if contains (py "present") (lower s)
                 || contains (py "current") (lower s)
              then None else date_of unicode_decimal (strip p1),
              contains (py "present") (lower s)
              || contains (py "current") (lower s)))
  /\ (forall s,
        (forall fmt, fmt ∈ formats ->
                     strptime unicode_decimal s fmt = Raise ValueError) ->
        parse_date unicode_decimal s = Ok None
        /\ date_of unicode_decimal s = None)
  /\ (forall s, exists d, parse_date unicode_decimal s = Ok d)
  /\ (forall s, exists r, parse_duration unicode_decimal s = Ok r).
Proof.
  assert (Hdash : forall dash a b,
            dash = 8211%N \/ dash = 8212%N ->
            parse_duration unicode_decimal (a ++ [dash] ++ b)
            = parse_duration unicode_decimal (a ++ py "-" ++ b)).
  { intros dash a b Hd.
    rewrite <- (parse_duration_normalize (a ++ [dash] ++ b)).
    rewrite <- (parse_duration_normalize (a ++ py "-" ++ b)).
    f_equal. rewrite !normalize_dashes_map, !map_app.
    by destruct Hd as [-> | ->]. }
  split; [reflexivity|]. split; [reflexivity|].
  split; [intros a b; apply Hdash; by left|].
  split; [intros a b; apply Hdash; by right|].
  split; [by rewrite Hdash by (by left)|].
  split; [by rewrite Hdash by (by right)|].
  repeat split.
  - intros s. by rewrite parse_duration_normalize.
  - intros s p0 p1 rest H. exact (parse_duration_parts s p0 p1 rest H).
  - by apply parse_date_no_format.
  - unfold date_of. by rewrite parse_date_no_format.
  - apply parse_date_ok.
  - apply parse_duration_ok.
Qed.

(** C8: a duration string that, after dash normalisation, does not
    contain the separator " - " parses to (null, null, not ongoing),
    whatever words occur in it. *)
Theorem parse_duration_without_separator (s : str) :
  contains (py " - ") (normalize_dashes s) = false ->
  parse_duration unicode_decimal s = Ok (None, None, false).
Proof.
  intros H. unfold parse_duration. rewrite split_no_sep by done.
  by destruct s.
Qed.

End DateProperties.

(** ** The mock confidence score *)

Lemma calculate_mock_confidence_value (query : str) :
  calculate_mock_confidence query =
    if bool_decide (length query < 10) then 0.6499999999999999%float
    else if bool_decide (50 < length query) then 0.95%float
    else if mentions_technical_term query then 0.9199999999999999%float
    else 0.85%float.
Proof.
  unfold calculate_mock_confidence, mentions_technical_term.
  repeat case_bool_decide; try reflexivity;
    by destruct (existsb _ _).
Qed.

(** C10, as amended: for every query string the score lies within
    [0.6, 0.95]; a query shorter than 10 characters yields 0.85 - 0.2,
    which in binary64 arithmetic is 0.6499999999999999; a query longer
    than 50 characters yields 0.95; a query of 10 to 50 characters that
    contains a technical term (in any letter case) yields 0.85 + 0.07,
    which is 0.9199999999999999; every other query yields 0.85; and the
    score is a function of the query string. *)
Theorem mock_confidence_values (query : str) :
  (PrimFloat.leb 0.6 (calculate_mock_confidence query) = true
   /\ PrimFloat.leb (calculate_mock_confidence query) 0.95 = true)
  /\ (length query < 10 ->
      calculate_mock_confidence query = 0.6499999999999999%float)
  /\ (50 < length query -> calculate_mock_confidence query = 0.95%float)
  /\ (10 <= length query <= 50 -> mentions_technical_term query = true ->
      calculate_mock_confidence query = 0.9199999999999999%float)
  /\ (10 <= length query <= 50 -> mentions_technical_term query = false ->
      calculate_mock_confidence query = 0.85%float)
  /\ (forall query', query' = query ->
      calculate_mock_confidence query' = calculate_mock_confidence query).
Proof.
  split; [|split; [|split; [|split; [|split]]]];
    try (intros ? ->; reflexivity);
    rewrite !calculate_mock_confidence_value;
    repeat case_bool_decide; destruct (mentions_technical_term query);
    try split; intros; try lia; try discriminate; reflexivity.
Qed.

(** ** The Chunk Builder *)

Lemma Forall_imap {A B : Type} (P : B -> Prop) (f : nat -> A -> B) (l : list A) :
  (forall i x, l !! i = Some x -> P (f i x)) -> Forall P (imap f l).
Proof.
  intros H. apply Forall_lookup. intros i y Hy.
  rewrite list_lookup_imap in Hy.
  destruct (l !! i) as [x|] eqn:E; [|done].
  injection Hy as <-. by apply H.
Qed.

(** C5: the builder's output is the identity chunk, the experience
    chunks, the technical-skill-category chunks, the soft-skills chunk,
    the project chunks and the education chunks, in this order; the
    experience chunk at position i of the experience list is "high" when
    i < 3 and "medium" otherwise; a project chunk is "high" exactly when
    the project's status is "completed"; identity and
    technical-skill-category chunks are "high"; soft-skills and education
    chunks are "medium". *)
Theorem importance_rule (json_data : Document) (professional_id : Z) :
  create_content_chunks json_data professional_id
  = personal_info_chunks json_data professional_id
    ++ experience_chunks json_data professional_id
    ++ technical_skills_chunks json_data professional_id
    ++ soft_skills_chunks json_data professional_id
    ++ project_chunks json_data professional_id
    ++ education_chunks json_data professional_id
  /\ Forall (fun chunk => importance chunk = py "high")
       (personal_info_chunks json_data professional_id)
  /\ (forall i exp, get (experience json_data) [] !! i = Some exp ->
      exists chunk,
        experience_chunks json_data professional_id !! i = Some chunk
        /\ chunk_type chunk = py "experience"
        /\ metadata chunk !! "index" = Some (VInt (Z.of_nat i))
        /\ importance chunk = if bool_decide (i < 3) then py "high"
                              else py "medium")
  /\ length (experience_chunks json_data professional_id)
     = length (get (experience json_data) [])
  /\ Forall (fun chunk => importance chunk = py "high")
       (technical_skills_chunks json_data professional_id)
  /\ Forall (fun chunk => importance chunk = py "medium")
       (soft_skills_chunks json_data professional_id)
  /\ (forall i project, get (projects json_data) [] !! i = Some project ->
      exists chunk,
        project_chunks json_data professional_id !! i = Some chunk
        /\ chunk_type chunk = py "project"
        /\ importance chunk
           = if bool_decide (pr_status project = Some (py "completed"))
             then py "high" else py "medium")
  /\ length (project_chunks json_data professional_id)
     = length (get (projects json_data) [])
  /\ Forall (fun chunk => importance chunk = py "medium")
       (education_chunks json_data professional_id).
Proof.
  split; [reflexivity|]. repeat split.
  - unfold personal_info_chunks.
    destruct (personalInfo json_data) as [p|]; [|done].
    destruct (personal_info_truthy p); [|done]. by constructor.
  - intros i exp Hi. exists (experience_chunk professional_id i exp).
    unfold experience_chunks. rewrite list_lookup_imap, Hi.
    repeat split; try done.
  - unfold experience_chunks. apply length_imap.
  - unfold technical_skills_chunks. destruct (sk_technical _); [|done].
    by apply Forall_fmap, Forall_true.
  - unfold soft_skills_chunks. destruct (sk_soft_skills _); [|done].
    by constructor.
  - intros i project Hi. exists (project_chunk professional_id i project).
    unfold project_chunks. by rewrite list_lookup_imap, Hi.
  - unfold project_chunks. apply length_imap.
  - unfold education_chunks. by apply Forall_imap.
Qed.


(** ** The Relational Mapper when the database answers *)

Section DatabaseStages.

Variable unicode_decimal : N -> option N.
Variable content_hash_of : Document -> str.

(** The parts of the world a database stage leaves alone. *)
Variable w0 : World.
Hypothesis db_ok : db_reliable w0.

Variables (ix : list Vector) (vn : nat) (sl : list nat)
  (h : nat -> ContentChunk) (hn : nat) (lg : list log_line).

Local Abbreviation at_db c p q n s :=
  (world_at w0 c p q n ix vn sl s h hn lg).


















End DatabaseStages.

(** ** The Chunk Persister when the database answers *)

Section ChunkStage.

Variable w0 : World.
Hypothesis db_ok : db_reliable w0.

Variables (ix : list Vector) (vn : nat) (sl : list nat) (hn : nat)
  (lg : list log_line).

Local Abbreviation at_chunks c p q n s h :=
  (world_at w0 c p q n ix vn sl s h hn lg).

Lemma insert_chunks_from_at chunks : forall i pid c p q n s h,
  NoDup chunks ->
  exists rows h' n',
    insert_chunks_from i chunks pid (at_chunks c p q n s h)
    = (Ok tt,
       at_chunks c (with_content_chunks (content_chunks p ++ rows) p)
         (sequences_after_chunks q (length chunks)) n'
         (add_content_chunks_created (length chunks) s) h')
    /\ length rows = length chunks
    /\ (forall r, r ∉ chunks -> h' r = h r)
    /\ (forall r, chunk_type (h' r) = chunk_type (h r))
    /\ (forall k ref, chunks !! k = Some ref ->
        exists row, rows !! k = Some row
                    /\ ch_id row = (next_chunk_row_id q + Z.of_nat k)%Z
                    /\ persisted pid (i + k) h h' ref row).
Proof.
  induction chunks as [|ref chunks IH]; intros i pid c p q n s h Hnd.
  - exists [], h, n. split; [|by repeat split].
    cbn. rewrite app_nil_r. destruct p, s, q.
    unfold world_at, sequences_after_chunks, add_content_chunks_created; cbn.
    by rewrite Z.add_0_r, !Nat.add_0_r.
  - pose proof (NoDup_cons_1_1 _ _ Hnd) as Hnotin.
    apply NoDup_cons_1_2 in Hnd.
    cbn [insert_chunks_from].
    set (chunk := h ref).
    set (chunk_id := chunk_id_of pid (chunk_type chunk) i).
    set (row := chunk_row (next_chunk_row_id q) pid chunk_id chunk).
    erewrite bind_ok by reflexivity.
    unfold insert_chunk_row, world_at.
    erewrite bind_ok; cycle 1.
    { unfold db_call. world_simpl. rewrite db_ok. reflexivity. }
    unfold set_metadata, count, modify.
    do 3 (erewrite bind_ok by reflexivity).
    world_simpl. rewrite !fn_lookup_insert.
    cbn [content metadata chunk_type importance keywords date_context].
    fold chunk chunk_id row.
    match goal with
    | |- context [insert_chunks_from (S i) chunks pid
                    (mk_world _ ?p1 ?q1 ?n1 _ _ _ _ _ ?s1 ?h1 _ _ _)] =>
        destruct (IH (S i) pid c p1 q1 n1 s1 h1 Hnd)
          as (rows & h' & n' & Hrun & Hlen & Hframe & Htype & Hper);
        set (H1 := h1) in *
    end.
    assert (Hh1 : forall r, r ≠ ref -> H1 r = h r).
    { intros r Hr. subst H1. by rewrite !fn_lookup_insert_ne. }
    assert (Hh1ref : H1 ref = mk_chunk (content chunk)
        (<["vector_id" := VStr (vector_id_of chunk_id)]>
           (<["chunk_id" := VInt (next_chunk_row_id q)]> (metadata chunk)))
        (chunk_type chunk) (importance chunk) (keywords chunk)
        (date_context chunk)).
    { subst H1. by rewrite fn_lookup_insert. }
    assert (Hh1t : forall r, chunk_type (H1 r) = chunk_type (h r)).
    { intros r. destruct (decide (r = ref)) as [->|Hr]; [|by rewrite Hh1].
      by rewrite Hh1ref. }
    exists (row :: rows), h', n'. split; [|repeat split].
    + unfold world_at in Hrun. rewrite Hrun. do 2 f_equal.
      * destruct p; unfold with_content_chunks; cbn. f_equal.
        by rewrite <- app_assoc.
      * unfold sequences_after_chunks. cbn. f_equal. lia.
      * destruct s; unfold add_content_chunks_created; cbn. f_equal; lia.
    + simpl. lia.
    + intros r Hr. apply not_elem_of_cons in Hr as [Hr1 Hr2].
      by rewrite Hframe, Hh1.
    + intros r. by rewrite Htype, Hh1t.
    + intros [|k] ref' Hk; simpl in Hk.
      * injection Hk as <-. exists row. split; [done|].
        split; [subst row; cbn; lia|].
        rewrite Nat.add_0_r. unfold persisted.
        rewrite Hframe, Hh1ref by done.
        subst row. cbn. repeat split; try done.
        by rewrite lookup_insert_ne, lookup_insert_eq.
        by rewrite lookup_insert_eq.
      * destruct (Hper k ref' Hk) as (row' & Hrow' & Hid & Hp).
        exists row'. split; [done|]. split.
        { rewrite Hid. cbn. lia. }
        replace (i + S k) with (S i + k) by lia.
        unfold persisted in *. by rewrite <- Hh1t.
Qed.

End ChunkStage.

(** ** The retry loop of the Vector Upserter *)

Lemma index_upsert_ok vectors w :
  vector_fails w (vector_calls w) = false ->
  index_upsert vectors w =
    (Ok tt, set_vector_index (foldl upsert_one (vector_index w) vectors)
              (set_vector_calls (S (vector_calls w)) w)).
Proof. intros H. unfold index_upsert, vector_call. by rewrite H. Qed.

Lemma index_upsert_fails vectors w :
  vector_fails w (vector_calls w) = true ->
  index_upsert vectors w =
    (Raise UpstashError, set_vector_calls (S (vector_calls w)) w).
Proof. intros H. unfold index_upsert, vector_call. by rewrite H. Qed.

(** One attempt of the loop, when the upsert succeeds and when it fails. *)
Lemma attempt_ok attempt attempts vectors w :
  vector_fails w (vector_calls w) = false ->
  upsert_attempts (attempt :: attempts) vectors w =
    (Ok tt,
     set_stats (add_vectors_embedded (length vectors) (stats w))
       (set_vector_index (foldl upsert_one (vector_index w) vectors)
          (set_vector_calls (S (vector_calls w)) w))).
Proof.
  intros H. cbn [upsert_attempts]. unfold try_except.
  by erewrite bind_ok by (by apply index_upsert_ok).
Qed.

Lemma attempt_fails attempt attempts vectors w :
  vector_fails w (vector_calls w) = true ->
  upsert_attempts (attempt :: attempts) vectors w =
    if bool_decide (attempt < max_retries - 1)
    then upsert_attempts attempts vectors
           (set_slept (slept w ++ [retry_delay * (attempt + 1)])
              (set_vector_calls (S (vector_calls w)) w))
    else (Raise UpstashError, set_vector_calls (S (vector_calls w)) w).
Proof.
  intros H. cbn [upsert_attempts]. unfold try_except.
  erewrite bind_raise by (by apply index_upsert_fails).
  by case_bool_decide.
Qed.

(** Whatever the store does, a batch costs one to three calls, and the
    loop sleeps [retry_delay * attempt] after the failed attempt number
    [attempt], the last one excepted. *)
Lemma upsert_batch_bounded vectors w :
  exists r w',
    _upsert_vector_batch vectors w = (r, w')
    /\ vector_calls w < vector_calls w' <= vector_calls w + max_retries
    /\ slept w' = slept w
                  ++ map (fun attempt => retry_delay * attempt)
                       (seq 1 (vector_calls w' - vector_calls w - 1))
    /\ vector_fails w' = vector_fails w.
Proof.
  unfold _upsert_vector_batch. cbn [seq max_retries].
  set (n := vector_calls w).
  assert (D0 : S n - n - 1 = 0) by lia.
  assert (D1 : S (S n) - n - 1 = 1) by lia.
  assert (D2 : S (S (S n)) - n - 1 = 2) by lia.
  destruct (vector_fails w n) eqn:F0.
  2:{ rewrite attempt_ok by done. eexists _, _. split; [reflexivity|].
      simpl vector_calls. fold n. rewrite D0. simpl slept.
      rewrite app_nil_r. repeat split; try done; unfold max_retries; lia. }
  rewrite attempt_fails by done. simpl bool_decide. cbv iota.
  destruct (vector_fails w (S n)) eqn:F1.
  2:{ rewrite attempt_ok by done. eexists _, _. split; [reflexivity|].
      simpl vector_calls. fold n. rewrite D1.
      repeat split; try done; unfold max_retries; lia. }
  rewrite attempt_fails by done. simpl bool_decide. cbv iota.
  destruct (vector_fails w (S (S n))) eqn:F2.
  - rewrite attempt_fails by done. simpl bool_decide. cbv iota.
    eexists _, _. split; [reflexivity|]. simpl vector_calls. fold n.
    rewrite D2. simpl slept. rewrite <- app_assoc.
    repeat split; try done; unfold max_retries; lia.
  - rewrite attempt_ok by done.
    eexists _, _. split; [reflexivity|]. simpl vector_calls. fold n.
    rewrite D2. simpl slept. rewrite <- app_assoc.
    repeat split; try done; unfold max_retries; lia.
Qed.

(** Two failures, then a success. *)
Lemma upsert_batch_third_attempt vectors w :
  vector_fails w (vector_calls w) = true ->
  vector_fails w (vector_calls w + 1) = true ->
  vector_fails w (vector_calls w + 2) = false ->
  exists w',
    _upsert_vector_batch vectors w = (Ok tt, w')
    /\ embedded w' = embedded w + length vectors
    /\ vector_index w' = foldl upsert_one (vector_index w) vectors
    /\ vector_calls w' = vector_calls w + 3
    /\ slept w' = slept w ++ [retry_delay * 1; retry_delay * 2].
Proof.
  intros F0 F1 F2. unfold _upsert_vector_batch. cbn [seq max_retries].
  rewrite Nat.add_1_r in F1.
  replace (vector_calls w + 2) with (S (S (vector_calls w))) in F2 by lia.
  rewrite attempt_fails by done. simpl bool_decide. cbv iota.
  rewrite attempt_fails by done. simpl bool_decide. cbv iota.
  rewrite attempt_ok by done.
  eexists. split; [done|]. unfold embedded. simpl. rewrite <- app_assoc.
  repeat split; try done; lia.
Qed.

(** Three failures. *)
Lemma upsert_batch_exhausted vectors w :
  vector_fails w (vector_calls w) = true ->
  vector_fails w (vector_calls w + 1) = true ->
  vector_fails w (vector_calls w + 2) = true ->
  exists w',
    _upsert_vector_batch vectors w = (Raise UpstashError, w')
    /\ stats w' = stats w
    /\ vector_index w' = vector_index w
    /\ vector_calls w' = vector_calls w + 3
    /\ slept w' = slept w ++ [retry_delay * 1; retry_delay * 2].
Proof.
  intros F0 F1 F2. unfold _upsert_vector_batch. cbn [seq max_retries].
  rewrite Nat.add_1_r in F1.
  replace (vector_calls w + 2) with (S (S (vector_calls w))) in F2 by lia.
  rewrite attempt_fails by done. simpl bool_decide. cbv iota.
  rewrite attempt_fails by done. simpl bool_decide. cbv iota.
  rewrite attempt_fails by done. simpl bool_decide. cbv iota.
  eexists. split; [done|]. simpl. rewrite <- app_assoc.
  repeat split; try done; lia.
Qed.

(** The loop over the chunks runs a list in two parts one after the other. *)
Lemma embed_chunks_app pre post : forall acc w,
  embed_chunks (pre ++ post) acc w
  = (embed_chunks pre acc ≫= embed_chunks post) w.
Proof.
  induction pre as [|ref pre IH]; intros acc w; [done|].
  cbn [app embed_chunks]. unfold mbind, M_bind, bind, deref in *.
  destruct (metadata (heap w ref) !! "vector_id"); [|done].
  cbn [ret]. case_bool_decide; [|apply IH].
  destruct (_upsert_vector_batch _ w) as [[[]|e] w1]; [apply IH|done].
Qed.

Lemma clear_existing_vectors_ok w :
  exists w0, clear_existing_vectors w = (Ok tt, w0).
Proof.
  unfold clear_existing_vectors, try_except, index_info, index_reset,
    vector_call, mbind, M_bind, bind, ret.
  destruct (vector_fails w (vector_calls w)); [by eexists|].
  case_bool_decide; [|by eexists]. cbn.
  destruct (vector_fails w (S (vector_calls w))); by eexists.
Qed.

(** A batch that fails three times ends [generate_vector_embeddings]:
    with [pre] processed without an exception and the batch that closes
    with [ref] due (it is full, or [ref] is the last chunk), no later
    chunk is looked at. *)
Lemma failed_batch_aborts pre ref post id w w0 acc w1 :
  clear_existing_vectors w = (Ok tt, w0) ->
  embed_chunks pre [] w0 = (Ok acc, w1) ->
  metadata (heap w1 ref) !! "vector_id" = Some id ->
  batch_size <= length acc + 1 \/ post = [] ->
  vector_fails w1 (vector_calls w1) = true ->
  vector_fails w1 (vector_calls w1 + 1) = true ->
  vector_fails w1 (vector_calls w1 + 2) = true ->
  exists w',
    generate_vector_embeddings (pre ++ ref :: post) w = (Raise UpstashError, w')
    /\ embedded w' = embedded w1
    /\ vector_index w' = vector_index w1
    /\ vector_calls w' = vector_calls w1 + 3
    /\ errors_encountered (stats w') = S (errors_encountered (stats w1)).
Proof.
  intros Hclear Hpre Hid Hfull F0 F1 F2.
  set (v := mk_vector id (content (heap w1 ref)) (vector_metadata (heap w1 ref))).
  destruct (upsert_batch_exhausted (acc ++ [v]) w1 F0 F1 F2)
    as (w2 & Hbatch & Hstats & Hix & Hcalls & _).
  exists (set_stats (add_errors_encountered 1 (stats w2)) w2).
  unfold generate_vector_embeddings, try_except.
  erewrite bind_ok by exact Hclear.
  assert (E : (embed_chunks (pre ++ ref :: post) [] ≫=
        (fun vectors_to_upsert => match vectors_to_upsert with
           | [] => ret tt | _ => _upsert_vector_batch vectors_to_upsert end)) w0
      = (Raise UpstashError, w2)).
  { unfold mbind at 1, M_bind at 1, bind at 1.
    rewrite embed_chunks_app. erewrite bind_ok by exact Hpre.
    cbn [embed_chunks]. unfold mbind, M_bind, bind, deref. rewrite Hid.
    cbn [ret]. fold v. case_bool_decide as Hb.
    - by rewrite Hbatch.
    - rewrite length_app in Hb. cbn [length] in Hb.
      destruct Hfull as [?| ->]; [lia|]. cbn [embed_chunks ret].
      destruct (acc ++ [v]) eqn:E; [by destruct acc|]. by rewrite Hbatch. }
  rewrite E. unfold count, modify.
  erewrite bind_ok by reflexivity. cbn.
  unfold embedded in *. cbn. rewrite Hstats. repeat split; try done. lia.
Qed.

(** C3: a batch is attempted at most three times, and the loop sleeps
    [retry_delay * attempt] after the failed attempt number [attempt]
    when another attempt follows; when the upsert fails twice and then
    succeeds, the batch is stored and every vector of it is counted as
    embedded once; when it fails three times, the error leaves
    [_upsert_vector_batch] with nothing counted, and it ends
    [generate_vector_embeddings], which counts an error and sends no
    later batch. *)
Theorem vector_batch_retry :
  (forall vectors w,
     exists r w',
       _upsert_vector_batch vectors w = (r, w')
       /\ vector_calls w < vector_calls w' <= vector_calls w + 3
       /\ slept w' = slept w
                     ++ map (fun attempt => retry_delay * attempt)
                          (seq 1 (vector_calls w' - vector_calls w - 1)))
  /\ (forall vectors w,
        vector_fails w (vector_calls w) = true ->
        vector_fails w (vector_calls w + 1) = true ->
        vector_fails w (vector_calls w + 2) = false ->
        exists w',
          _upsert_vector_batch vectors w = (Ok tt, w')
          /\ vectors_embedded (stats w')
             = vectors_embedded (stats w) + length vectors
          /\ vector_index w' = foldl upsert_one (vector_index w) vectors
          /\ vector_calls w' = vector_calls w + 3
          /\ slept w' = slept w ++ [retry_delay * 1; retry_delay * 2])
  /\ (forall vectors w,
        vector_fails w (vector_calls w) = true ->
        vector_fails w (vector_calls w + 1) = true ->
        vector_fails w (vector_calls w + 2) = true ->
        exists w',
          _upsert_vector_batch vectors w = (Raise UpstashError, w')
          /\ vectors_embedded (stats w') = vectors_embedded (stats w)
          /\ vector_index w' = vector_index w
          /\ vector_calls w' = vector_calls w + 3
          /\ slept w' = slept w ++ [retry_delay * 1; retry_delay * 2])
  /\ (forall pre ref post id w w0 acc w1,
        clear_existing_vectors w = (Ok tt, w0) ->
        embed_chunks pre [] w0 = (Ok acc, w1) ->
        metadata (heap w1 ref) !! "vector_id" = Some id ->
        batch_size <= length acc + 1 \/ post = [] ->
        vector_fails w1 (vector_calls w1) = true ->
        vector_fails w1 (vector_calls w1 + 1) = true ->
        vector_fails w1 (vector_calls w1 + 2) = true ->
        exists w',
          generate_vector_embeddings (pre ++ ref :: post) w
          = (Raise UpstashError, w')
          /\ vectors_embedded (stats w') = vectors_embedded (stats w1)
          /\ vector_index w' = vector_index w1
          /\ vector_calls w' = vector_calls w1 + 3
          /\ errors_encountered (stats w')
             = S (errors_encountered (stats w1))).
Proof.
  split; [|split; [|split]].
  - intros vectors w.
    destruct (upsert_batch_bounded vectors w) as (r & w' & H & Hc & Hs & _).
    by exists r, w'.
  - apply upsert_batch_third_attempt.
  - intros vectors w F0 F1 F2.
    destruct (upsert_batch_exhausted vectors w F0 F1 F2)
      as (w' & H & Hs & Hrest).
    exists w'. split; [done|]. split; [by rewrite Hs|done].
  - apply failed_batch_aborts.
Qed.

(** ** The Vector Upserter when the vector store answers *)

Lemma add_vectors_embedded_0 s : add_vectors_embedded 0 s = s.
Proof. destruct s. unfold add_vectors_embedded. cbn. f_equal. lia. Qed.

Lemma add_vectors_embedded_add a b s :
  add_vectors_embedded a (add_vectors_embedded b s)
  = add_vectors_embedded (b + a) s.
Proof. destruct s. unfold add_vectors_embedded. cbn. f_equal. lia. Qed.

Section VectorStage.

Variable w0 : World.
Hypothesis vector_ok : vector_reliable w0.

Variables (c p : Tables) (q : Sequences) (n : nat) (sl : list nat)
  (h : nat -> ContentChunk) (hn : nat) (lg : list log_line).

Local Abbreviation at_vectors ix vn s :=
  (world_at w0 c p q n ix vn sl s h hn lg).

Lemma _upsert_vector_batch_at vectors ix vn s :
  _upsert_vector_batch vectors (at_vectors ix vn s)
  = (Ok tt, at_vectors (foldl upsert_one ix vectors) (S vn)
              (add_vectors_embedded (length vectors) s)).
Proof.
  unfold _upsert_vector_batch. cbn [seq max_retries upsert_attempts].
  apply try_except_ok.
  erewrite bind_ok; cycle 1.
  { unfold index_upsert, vector_call, world_at. world_simpl.
    by rewrite vector_ok. }
  reflexivity.
Qed.




End VectorStage.

(** ** The Document Loader on the JSON value of a document *)

Lemma missing_sections_document d :
  missing_sections required_sections (json_of_document d) = Ok (missing_of d).
Proof. by destruct d as [[?|] [?|] [?|] [?|] [?|]]. Qed.

Lemma log_count_experience d w :
  log_count "Experiences" "experience" (json_of_document d) w
  = say (InfoCount (py "Experiences") (length (get (experience d) []))) w.
Proof.
  unfold log_count.
  erewrite bind_ok with
    (a := JArray (map json_of_experience (get (experience d) [])));
    [|by destruct d as [[?|] [?|] [?|] [?|] [?|]]].
  erewrite bind_ok by reflexivity. by rewrite length_map.
Qed.

Lemma log_count_skills d w :
  log_count "Skills" "skills" (json_of_document d) w
  = say (InfoCount (py "Skills")
           (from_option skills_keys 0 (skills d))) w.
Proof.
  unfold log_count.
  erewrite bind_ok with
    (a := from_option json_of_skills (JArray []) (skills d));
    [|by destruct d as [[?|] [?|] [?|] [?|] [?|]]].
  erewrite bind_ok with
    (a := from_option skills_keys 0 (skills d));
    [done|].
  by destruct (skills d) as [[[?|] [?|]]|].
Qed.

Lemma log_count_projects d w :
  log_count "Projects" "projects" (json_of_document d) w
  = say (InfoCount (py "Projects") (length (get (projects d) []))) w.
Proof.
  unfold log_count.
  erewrite bind_ok with
    (a := JArray (map json_of_project (get (projects d) [])));
    [|by destruct d as [[?|] [?|] [?|] [?|] [?|]]].
  erewrite bind_ok by reflexivity. by rewrite length_map.
Qed.

Lemma log_count_education d w :
  log_count "Education" "education" (json_of_document d) w
  = say (InfoCount (py "Education") (length (get (education d) []))) w.
Proof.
  unfold log_count.
  erewrite bind_ok with
    (a := JArray (map json_of_education (get (education d) [])));
    [|by destruct d as [[?|] [?|] [?|] [?|] [?|]]].
  erewrite bind_ok by reflexivity. by rewrite length_map.
Qed.

Lemma load_and_validate_json_document file_path d w :
  files w file_path = WellFormed (json_of_document d) ->
  load_and_validate_json file_path w
  = (Ok (json_of_document d), set_log (log w ++ loader_lines file_path d) w).
Proof.
  intros Hfile. unfold load_and_validate_json.
  erewrite bind_ok by reflexivity.
  apply try_except_ok.
  erewrite bind_ok; cycle 1.
  { unfold read_json. world_simpl. rewrite Hfile. reflexivity. }
  erewrite bind_ok by (unfold lift; by rewrite missing_sections_document).
  unfold loader_lines.
  erewrite bind_ok with
    (w' := set_log (log w ++ [InfoLoading file_path]
                    ++ match missing_of d with
                       | [] => []
                       | missing => [WarningMissingSections missing]
                       end) w);
    [|destruct (missing_of d); unfold say, modify, ret; world_simpl;
      by rewrite ?app_nil_r, <- ?app_assoc].
  erewrite bind_ok by reflexivity.
  erewrite bind_ok by (rewrite log_count_experience; reflexivity).
  erewrite bind_ok by (rewrite log_count_skills; reflexivity).
  erewrite bind_ok by (rewrite log_count_projects; reflexivity).
  erewrite bind_ok by (rewrite log_count_education; reflexivity).
  unfold ret. world_simpl. by rewrite <- !app_assoc.
Qed.

Lemma allocated_lookup chunks h base k chunk :
  chunks !! k = Some chunk -> allocated chunks h base (base + k) = chunk.
Proof.
  intros H. unfold allocated.
  replace (base + k - base) with k by lia. rewrite H.
  by rewrite bool_decide_eq_true_2 by lia.
Qed.


(** ** The whole run when both services answer *)

Section WholeRun.

Variable unicode_decimal : N -> option N.
Variable content_hash_of : Document -> str.

Variable w0 : World.
Hypothesis db_ok : db_reliable w0.
Hypothesis vector_ok : vector_reliable w0.

Local Abbreviation at_run := (world_at w0).

Lemma insert_content_chunks_at chunks pid c p q n ix vn sl s h hn lg :
  NoDup chunks ->
  exists rows h' n',
    insert_content_chunks chunks pid (at_run c p q n ix vn sl s h hn lg)
    = (Ok tt,
       let t := with_content_chunks (content_chunks p ++ rows) p in
       at_run t t (sequences_after_chunks q (length chunks)) n' ix vn sl
         (add_content_chunks_created (length chunks) s) h' hn lg)
    /\ length rows = length chunks
    /\ (forall r, r ∉ chunks -> h' r = h r)
    /\ (forall r, chunk_type (h' r) = chunk_type (h r))
    /\ (forall k ref, chunks !! k = Some ref ->
        exists row, rows !! k = Some row
                    /\ ch_id row = (next_chunk_row_id q + Z.of_nat k)%Z
                    /\ persisted pid k h h' ref row).
Proof.
  intros Hnd.
  destruct (insert_chunks_from_at w0 db_ok ix vn sl hn lg chunks 0 pid
              c p q n s h Hnd)
    as (rows & h' & n' & Hrun & Hrest).
  exists rows, h', (S n'). split; [|exact Hrest].
  unfold insert_content_chunks. apply or_rollback_ok.
  erewrite bind_ok by exact Hrun.
  unfold commit, world_at. world_simpl. by rewrite db_ok.
Qed.


End WholeRun.

Section MainRun.

Variable unicode_decimal : N -> option N.
Variable content_hash_of : Document -> str.


End MainRun.


(** ** Running the pipeline twice *)


Lemma filter_email_update e id personal_info contact l :
  filter (fun r => p_email r = Some e)
    (map (update_professional id personal_info contact) l)
  = map (update_professional id personal_info contact)
      (filter (fun r => p_email r = Some e) l).
Proof.
  induction l as [|r l IH]; [done|].
  cbn [map]. rewrite !filter_cons, IH.
  assert (E : p_email (update_professional id personal_info contact r) = p_email r).
  { unfold update_professional. by case_decide. }
  rewrite E. by case_decide.
Qed.

Lemma update_professional_id id personal_info contact r :
  p_id (update_professional id personal_info contact r) = p_id r.
Proof. unfold update_professional. by case_decide. Qed.

Section Idempotence.

Variable unicode_decimal : N -> option N.
Variable content_hash_of : Document -> str.








End Idempotence.


(** ** Chunk ids *)

(** *** Decimal rendering *)

Lemma string_of_uint_digits d :
  forallb is_digit (py (NilEmpty.string_of_uint d)) = true.
Proof. induction d; simpl; try done. Qed.

Lemma str_of_N_digits n : forallb is_digit (str_of_N n) = true.
Proof. apply string_of_uint_digits. Qed.

Lemma N_of_ascii_inj a b : N_of_ascii a = N_of_ascii b -> a = b.
Proof. intros H. by rewrite <- (ascii_N_embedding a), <- (ascii_N_embedding b), H. Qed.

Lemma py_inj s t : py s = py t -> s = t.
Proof.
  revert t. induction s as [|a s IH]; intros [|b t] H; try done.
  injection H as Hab Hst. apply N_of_ascii_inj in Hab as ->.
  f_equal. by apply IH.
Qed.

Lemma string_of_uint_inj d d' :
  NilEmpty.string_of_uint d = NilEmpty.string_of_uint d' -> d = d'.
Proof.
  intros H. apply (f_equal NilEmpty.uint_of_string) in H.
  rewrite !NilEmpty.usu in H. by injection H.
Qed.

Lemma str_of_N_inj n m : str_of_N n = str_of_N m -> n = m.
Proof.
  intros H. by apply py_inj, string_of_uint_inj, Unsigned.to_uint_inj in H.
Qed.

Lemma str_of_nat_inj i j : str_of_nat i = str_of_nat j -> i = j.
Proof. intros H. apply str_of_N_inj in H. lia. Qed.

(** Two strings that end in a hyphen and a run of digits are equal only
    if the runs are. *)
Lemma hyphen_suffix_inj (a b d d' : str) :
  forallb is_digit d = true -> forallb is_digit d' = true ->
  a ++ 45%N :: d = b ++ 45%N :: d' -> d = d'.
Proof.
  intros Hd Hd'. revert b.
  induction a as [|x a IH]; intros [|y b] H; simpl in H.
  - by injection H.
  - injection H as <- ->. rewrite forallb_app in Hd. simpl in Hd.
    by rewrite andb_false_r in Hd.
  - injection H as -> <-. rewrite forallb_app in Hd'. simpl in Hd'.
    by rewrite andb_false_r in Hd'.
  - injection H as _ H. by eapply IH.
Qed.

Lemma chunk_id_of_inj pid type type' i j :
  chunk_id_of pid type i = chunk_id_of pid type' j -> i = j.
Proof.
  assert (E : forall t k,
    chunk_id_of pid t k
    = (py "chunk-" ++ str_of_Z pid ++ py "-" ++ t) ++ 45%N :: str_of_nat k).
  { intros. unfold chunk_id_of. by rewrite <- !app_assoc. }
  rewrite !E. intros H. apply str_of_nat_inj.
  eapply hyphen_suffix_inj; [apply str_of_N_digits..|exact H].
Qed.

Lemma vector_id_of_inj a b : vector_id_of a = vector_id_of b -> a = b.
Proof. unfold vector_id_of. by intros H%app_inv_head. Qed.

(** Claim C9: the textual chunk ids assigned by one call of the Chunk
    Persister are pairwise distinct, and so are the vector-store ids
    derived from them.  The index at the end of a chunk id is the position
    of the chunk in the list handed to the persister, whatever its type,
    and a decimal numeral after the last hyphen determines that position. *)
Theorem chunk_ids_distinct chunks professional_id w :
  NoDup chunks -> db_reliable w ->
  exists w' rows,
    insert_content_chunks chunks professional_id w = (Ok tt, w')
    /\ content_chunks (committed w') = content_chunks (pending w) ++ rows
    /\ length rows = length chunks
    /\ NoDup (ch_chunk_id <$> rows)
    /\ NoDup (ch_vector_id <$> rows).
Proof.
  intros Hnd Hdb.
  destruct (insert_content_chunks_at w Hdb chunks professional_id
              (committed w) (pending w) (sequences w) (db_calls w)
              (vector_index w) (vector_calls w) (slept w) (stats w) (heap w)
              (heap_next w) (log w) Hnd)
    as (rows & h' & n' & Hrun & Hlen & _ & _ & Hper).
  replace (world_at w (committed w) (pending w) (sequences w) (db_calls w)
             (vector_index w) (vector_calls w) (slept w) (stats w) (heap w)
             (heap_next w) (log w)) with w in Hrun by (by destruct w).
  eexists _, rows. split; [exact Hrun|]. split; [done|]. split; [done|].
  assert (Hids : forall k row, rows !! k = Some row ->
            exists type, ch_chunk_id row = chunk_id_of professional_id type k
                         /\ ch_vector_id row = vector_id_of (ch_chunk_id row)).
  { intros k row Hrow.
    destruct (chunks !! k) as [ref|] eqn:Hk.
    - destruct (Hper k ref Hk) as (row' & Hrow' & _ & Hid & Hv & _).
      rewrite Hrow in Hrow'. injection Hrow' as <-.
      exists (chunk_type (heap w ref)). by split.
    - apply lookup_ge_None in Hk. apply lookup_lt_Some in Hrow. lia. }
  assert (Hdistinct : NoDup (ch_chunk_id <$> rows)).
  { apply NoDup_alt. intros i j id Hi Hj.
    rewrite list_lookup_fmap in Hi, Hj.
    destruct (rows !! i) as [ri|] eqn:Ei; [|done].
    destruct (rows !! j) as [rj|] eqn:Ej; [|done].
    injection Hi as Hi. injection Hj as Hj.
    destruct (Hids i ri Ei) as (ti & Hti & _).
    destruct (Hids j rj Ej) as (tj & Htj & _).
    eapply chunk_id_of_inj. by rewrite <- Hti, <- Htj, Hi, Hj. }
  split; [done|].
  apply NoDup_alt. intros i j id Hi Hj.
  rewrite list_lookup_fmap in Hi, Hj.
  destruct (rows !! i) as [ri|] eqn:Ei; [|done].
  destruct (rows !! j) as [rj|] eqn:Ej; [|done].
  injection Hi as Hi. injection Hj as Hj.
  destruct (Hids i ri Ei) as (ti & _ & Hvi).
  destruct (Hids j rj Ej) as (tj & _ & Hvj).
  rewrite Hvi in Hi. rewrite Hvj in Hj.
  eapply (NoDup_lookup _ _ _ _ Hdistinct); rewrite list_lookup_fmap.
  - by rewrite Ei.
  - rewrite Ej. cbn. f_equal. apply vector_id_of_inj. by rewrite Hi, Hj.
Qed.

(** Claim C1: for the chunk at position [i] of the list handed to the Chunk
    Persister, the row written has the chunk id
    "chunk-{professional_id}-{chunk_type}-{i}", its vector id is
    "upstash-" followed by that chunk id, removing the "upstash-" prefix
    from the vector id gives the chunk id back, and the chunk object's
    metadata field chunk_id holds the id the insert returned for the row
    (its field vector_id holds the vector id). *)
Theorem chunk_ids_persisted chunks professional_id w :
  NoDup chunks -> db_reliable w ->
  exists w' rows,
    insert_content_chunks chunks professional_id w = (Ok tt, w')
    /\ content_chunks (committed w') = content_chunks (pending w) ++ rows
    /\ length rows = length chunks
    /\ forall i ref, chunks !! i = Some ref ->
       exists row,
         rows !! i = Some row
         /\ ch_chunk_id row
            = py "chunk-" ++ str_of_Z professional_id ++ py "-"
                ++ chunk_type (heap w ref) ++ py "-" ++ str_of_nat i
         /\ ch_vector_id row = py "upstash-" ++ ch_chunk_id row
         /\ chunk_id_of_vector_id (ch_vector_id row) = Some (ch_chunk_id row)
         /\ ch_id row = (next_chunk_row_id (sequences w) + Z.of_nat i)%Z
         /\ metadata (heap w' ref) !! "chunk_id" = Some (VInt (ch_id row))
         /\ metadata (heap w' ref) !! "vector_id"
            = Some (VStr (ch_vector_id row)).
Proof.
  intros Hnd Hdb.
  destruct (insert_content_chunks_at w Hdb chunks professional_id
              (committed w) (pending w) (sequences w) (db_calls w)
              (vector_index w) (vector_calls w) (slept w) (stats w) (heap w)
              (heap_next w) (log w) Hnd)
    as (rows & h' & n' & Hrun & Hlen & _ & _ & Hper).
  replace (world_at w (committed w) (pending w) (sequences w) (db_calls w)
             (vector_index w) (vector_calls w) (slept w) (stats w) (heap w)
             (heap_next w) (log w)) with w in Hrun by (by destruct w).
  eexists _, rows. split; [exact Hrun|]. split; [done|]. split; [done|].
  intros i ref Hi.
  destruct (Hper i ref Hi) as (row & Hrow & Hid & H1 & H2 & H3 & H4 & H5).
  exists row. by repeat split.
Qed.


(** ** A document without the education section *)

Section MissingEducation.

Variable unicode_decimal : N -> option N.
Variable content_hash_of : Document -> str.


End MissingEducation.


(** ** The Document Loader on any file *)

Lemma missing_sections_object sections members :
  exists missing, missing_sections sections (JObject members) = Ok missing.
Proof.
  induction sections as [|section sections [missing IH]]; [by eexists|].
  cbn [missing_sections py_in]. rewrite IH. by eexists.
Qed.

Lemma log_count_sized label key members w :
  match List.find (fun kv => bool_decide (kv.1 = py key)) members with
  | Some kv => is_sized kv.2
  | None => true
  end = true ->
  exists n, log_count label key (JObject members) w
            = (Ok tt, set_log (log w ++ [InfoCount (py label) n]) w).
Proof.
  intros H. unfold log_count, dict_get.
  erewrite bind_ok by reflexivity.
  destruct (List.find _ members) as [[k v]|]; cbn [fmap option_fmap option_map default snd] in *.
  - destruct v; try discriminate H; (erewrite bind_ok by reflexivity); by eexists.
  - erewrite bind_ok by reflexivity. by eexists.
Qed.

(** Claim C7, amended: the Document Loader raises FileNotFoundError when the
    path does not exist, JSONDecodeError when the file is not valid JSON,
    and re-raises any other failure of reading the file, each with its
    own error line in the log.  For a well-formed file holding a JSON
    object it raises nothing, whichever sections are present, provided
    that each of experience, skills, projects and education that is
    present holds an array, an object or a string. *)
Theorem loader_error_kinds (file_path : str) (w : World) :
  (files w file_path = NoSuchFile ->
   load_and_validate_json file_path w
   = (Raise FileNotFoundError,
      set_log (log w ++ [InfoLoading file_path; ErrorFileNotFound file_path]) w))
  /\ (files w file_path = Malformed ->
      load_and_validate_json file_path w
      = (Raise JSONDecodeError,
         set_log (log w ++ [InfoLoading file_path; ErrorInvalidJSON]) w))
  /\ (forall e, files w file_path = Unreadable e ->
      e ≠ FileNotFoundError -> e ≠ JSONDecodeError ->
      load_and_validate_json file_path w
      = (Raise e, set_log (log w ++ [InfoLoading file_path; ErrorLoading]) w))
  /\ (forall members, files w file_path = WellFormed (JObject members) ->
      sections_sized members = true ->
      exists lines,
        load_and_validate_json file_path w
        = (Ok (JObject members), set_log (log w ++ lines) w)
        /\ existsb is_error_line lines = false).
Proof.
  unfold load_and_validate_json. repeat split.
  - intros H. erewrite bind_ok by reflexivity. unfold try_except.
    erewrite bind_raise; cycle 1.
    { unfold read_json. world_simpl. rewrite H. reflexivity. }
    cbv beta iota.
    erewrite bind_ok by reflexivity. unfold raise, say, modify. world_simpl.
    by rewrite <- app_assoc.
  - intros H. erewrite bind_ok by reflexivity. unfold try_except.
    erewrite bind_raise; cycle 1.
    { unfold read_json. world_simpl. rewrite H. reflexivity. }
    cbv beta iota.
    erewrite bind_ok by reflexivity. unfold raise, say, modify. world_simpl.
    by rewrite <- app_assoc.
  - intros e H H1 H2. erewrite bind_ok by reflexivity. unfold try_except.
    erewrite bind_raise; cycle 1.
    { unfold read_json. world_simpl. rewrite H. reflexivity. }
    destruct e; try done; cbv beta iota;
      (erewrite bind_ok by reflexivity); unfold raise, say, modify; world_simpl;
      by rewrite <- app_assoc.
  - intros members H Hsized.
    unfold sections_sized in Hsized. cbn [forallb counted_sections] in Hsized.
    apply andb_true_iff in Hsized as [H1 Hsized].
    apply andb_true_iff in Hsized as [H2 Hsized].
    apply andb_true_iff in Hsized as [H3 Hsized].
    apply andb_true_iff in Hsized as [H4 _].
    destruct (missing_sections_object required_sections members) as [missing Hm].
    set (warn := match missing with
                 | [] => []
                 | _ => [WarningMissingSections missing]
                 end).
    set (w1 := set_log (log w ++ [InfoLoading file_path] ++ warn ++ [InfoLoaded]) w).
    destruct (log_count_sized "Experiences" "experience" members w1 H1) as [n1 E1].
    destruct (log_count_sized "Skills" "skills" members
                (set_log (log w1 ++ [InfoCount (py "Experiences") n1]) w1) H2)
      as [n2 E2].
    destruct (log_count_sized "Projects" "projects" members
                (set_log (log (set_log (log w1 ++ [InfoCount (py "Experiences") n1]) w1)
                          ++ [InfoCount (py "Skills") n2])
                   (set_log (log w1 ++ [InfoCount (py "Experiences") n1]) w1)) H3)
      as [n3 E3].
    match type of E3 with _ = (_, ?w3) =>
      destruct (log_count_sized "Education" "education" members w3 H4)
        as [n4 E4] end.
    exists ([InfoLoading file_path] ++ warn
            ++ [InfoLoaded; InfoCount (py "Experiences") n1;
                InfoCount (py "Skills") n2; InfoCount (py "Projects") n3;
                InfoCount (py "Education") n4]).
    split; [|subst warn; by destruct missing].
    erewrite bind_ok by reflexivity. apply try_except_ok.
    erewrite bind_ok; cycle 1.
    { unfold read_json. world_simpl. rewrite H. reflexivity. }
    erewrite bind_ok by (unfold lift; by rewrite Hm).
    erewrite bind_ok with
      (w' := set_log (log w ++ [InfoLoading file_path] ++ warn) w);
      [|subst warn; destruct missing; unfold say, modify, ret; world_simpl;
        by rewrite ?app_nil_r, <- ?app_assoc].
    erewrite bind_ok with (w' := w1);
      [|subst w1; unfold say, modify; world_simpl; by rewrite <- !app_assoc].
    erewrite bind_ok by exact E1.
    erewrite bind_ok by exact E2.
    erewrite bind_ok by exact E3.
    erewrite bind_ok by exact E4.
    subst w1. unfold ret. world_simpl.
    by rewrite <- !app_assoc.
Qed.

(** ** The properties on the sample inputs *)

(** C4 on "March 2021 - CURRENT", on "2021-03 (en-dash) 2022-01", on
    "March 2021 (em-dash) CURRENT" and on the date string "soon". *)
Lemma parse_duration_amended_witness :
  split (py " - ") (normalize_dashes (py "March 2021 - CURRENT"))
  = [py "March 2021"; py "CURRENT"]
  /\ parse_duration ascii_digits_only (py "March 2021 - CURRENT")
     = Ok (Some (mk_datetime 2021 3 1), None, true)
  /\ parse_duration ascii_digits_only (py "2021-03 " ++ [8211%N] ++ py " 2022-01")
     = Ok (Some (mk_datetime 2021 3 1), Some (mk_datetime 2022 1 1), false)
  /\ parse_duration ascii_digits_only
       (py "March 2021 " ++ [8212%N] ++ py " CURRENT")
     = Ok (Some (mk_datetime 2021 3 1), None, true)
  /\ parse_date ascii_digits_only (py "soon") = Ok None.
Proof.
  pose proof (parse_duration_amended ascii_digits_only)
    as (_ & _ & Hen & Hem & _ & _ & _ & Hparts & Hnone & _).
  split; [reflexivity|]. split; [|split; [|split]].
  - rewrite (Hparts (py "March 2021 - CURRENT") (py "March 2021")
               (py "CURRENT") []) by reflexivity.
    reflexivity.
  - rewrite (Hen (py "2021-03 ") (py " 2022-01")). reflexivity.
  - rewrite (Hem (py "March 2021 ") (py " CURRENT")). reflexivity.
  - apply Hnone. intros fmt Hfmt.
    repeat (apply elem_of_cons in Hfmt as [->|Hfmt]; [reflexivity|]).
    by apply elem_of_nil in Hfmt.
Defined.

(** The bare word "Present" contains "present", and [parse_duration]
    returns ongoing = false for it: the words decide the flag only when
    the string splits at the separator. *)
Lemma parse_duration_amended_counterexample :
  contains (py "present") (lower (py "Present")) = true
  /\ parse_duration ascii_digits_only (py "Present") = Ok (None, None, false).
Proof. split; reflexivity. Qed.

(** C8 on the bare date "2021". *)
Lemma parse_duration_without_separator_witness :
  contains (py " - ") (normalize_dashes (py "2021")) = false
  /\ parse_duration ascii_digits_only (py "2021") = Ok (None, None, false).
Proof.
  split; [reflexivity|].
  apply (parse_duration_without_separator ascii_digits_only (py "2021")).
  reflexivity.
Defined.

(** C10 on a query with a technical term and on one without. *)
Lemma mock_confidence_values_witness :
  mentions_technical_term (py "vector search") = true
  /\ calculate_mock_confidence (py "vector search") = 0.9199999999999999%float
  /\ calculate_mock_confidence (py "what do you do") = 0.85%float.
Proof.
  split; [reflexivity|]. split.
  - pose proof (mock_confidence_values (py "vector search"))
      as (_ & _ & _ & Hterm & _).
    apply Hterm; [simpl; lia|reflexivity].
  - pose proof (mock_confidence_values (py "what do you do"))
      as (_ & _ & _ & _ & Hplain & _).
    apply Hplain; [simpl; lia|reflexivity].
Defined.

(** The scores of "hi", "sql" and "vector search": the short queries
    score 0.6499999999999999, which is not the float 0.65, also when they
    contain a technical term, and the technical query scores
    0.9199999999999999, which is not the float 0.92. *)
Lemma mock_confidence_values_counterexample :
  calculate_mock_confidence (py "hi") = 0.6499999999999999%float
  /\ PrimFloat.eqb (calculate_mock_confidence (py "hi")) 0.65 = false
  /\ contains (py "sql") (lower (py "sql")) = true
  /\ calculate_mock_confidence (py "sql") = 0.6499999999999999%float
  /\ calculate_mock_confidence (py "vector search") = 0.9199999999999999%float
  /\ PrimFloat.eqb (calculate_mock_confidence (py "vector search")) 0.92 = false.
Proof. repeat split; reflexivity. Qed.

(** C5 on the four experiences of the sample document. *)
Lemma importance_rule_witness :
  map importance (experience_chunks sample_document 1)
  = [py "high"; py "high"; py "high"; py "medium"]
  /\ exists chunk,
       experience_chunks sample_document 1 !! 3 = Some chunk
       /\ chunk_type chunk = py "experience"
       /\ metadata chunk !! "index" = Some (VInt 3)
       /\ importance chunk = py "medium".
Proof.
  split; [reflexivity|].
  pose proof (importance_rule sample_document 1) as (_ & _ & Hexp & _).
  destruct (List.nth_error sample_experiences 3) as [exp|] eqn:E; [|discriminate E].
  exact (Hexp 3 exp E).
Defined.

(** C3 on a store that fails twice and on one that fails always. *)
Lemma vector_batch_retry_witness :
  (exists w',
     _upsert_vector_batch sample_vectors (sample_world NoSuchFile twice)
     = (Ok tt, w')
     /\ vectors_embedded (stats w') = 2
     /\ vector_index w' = sample_vectors
     /\ vector_calls w' = 3
     /\ slept w' = [1; 2])
  /\ (exists w',
        _upsert_vector_batch sample_vectors (sample_world NoSuchFile always)
        = (Raise UpstashError, w')
        /\ vectors_embedded (stats w') = 0
        /\ vector_index w' = []
        /\ vector_calls w' = 3
        /\ slept w' = [1; 2])
  /\ (exists w',
        generate_vector_embeddings [0] failing_vector_world
        = (Raise UpstashError, w')
        /\ vectors_embedded (stats w') = 0
        /\ vector_index w' = []
        /\ errors_encountered (stats w') = 1).
Proof.
  pose proof vector_batch_retry as (_ & Hthird & Hexhausted & Habort).
  split; [|split].
  - destruct (Hthird sample_vectors (sample_world NoSuchFile twice))
      as (w' & H1 & H2 & H3 & H4 & H5); [reflexivity..|].
    exists w'. repeat split; assumption.
  - destruct (Hexhausted sample_vectors (sample_world NoSuchFile always))
      as (w' & H1 & H2 & H3 & H4 & H5); [reflexivity..|].
    exists w'. repeat split; assumption.
  - destruct (Habort [] 0 [] (VStr (py "upstash-chunk-1-experience-0"))
                failing_vector_world
                (clear_existing_vectors failing_vector_world).2 []
                (clear_existing_vectors failing_vector_world).2)
      as (w' & H1 & H2 & H3 & H4 & H5); [reflexivity|reflexivity|reflexivity|by right|reflexivity|reflexivity|reflexivity|].
    exists w'. repeat split; assumption.
Defined.

(** C1 on the chunks of the sample document, at position 1. *)
Lemma chunk_ids_persisted_witness :
  NoDup sample_refs
  /\ db_reliable sample_chunk_world
  /\ exists w' rows,
       insert_content_chunks sample_refs 1 sample_chunk_world = (Ok tt, w')
       /\ content_chunks (committed w') = rows
       /\ length rows = length sample_refs
       /\ exists row,
            rows !! 1 = Some row
            /\ ch_chunk_id row = py "chunk-1-experience-1"
            /\ ch_vector_id row = py "upstash-chunk-1-experience-1"
            /\ chunk_id_of_vector_id (ch_vector_id row)
               = Some (py "chunk-1-experience-1")
            /\ ch_id row = 2%Z
            /\ metadata (heap w' 1) !! "chunk_id" = Some (VInt 2).
Proof.
  assert (Hrefs : NoDup sample_refs) by apply NoDup_seq.
  assert (Hdb : db_reliable sample_chunk_world) by (intros n; reflexivity).
  split; [exact Hrefs|]. split; [exact Hdb|].
  destruct (chunk_ids_persisted sample_refs 1 sample_chunk_world Hrefs Hdb)
    as (w' & rows & Hrun & Hrows & Hlen & Hper).
  exists w', rows. split; [exact Hrun|]. split; [exact Hrows|].
  split; [exact Hlen|].
  destruct (Hper 1 1 eq_refl) as (row & H1 & H2 & H3 & H4 & H5 & H6 & _).
  exists row. split; [exact H1|]. split; [exact H2|].
  split; [rewrite H3, H2; reflexivity|].
  split; [rewrite H4, H2; reflexivity|].
  split; [exact H5|]. rewrite H6, H5. reflexivity.
Defined.

(** C9 on the chunks of the sample document. *)
Lemma chunk_ids_distinct_witness :
  NoDup sample_refs
  /\ db_reliable sample_chunk_world
  /\ exists w' rows,
       insert_content_chunks sample_refs 1 sample_chunk_world = (Ok tt, w')
       /\ content_chunks (committed w') = rows
       /\ length rows = length sample_chunks
       /\ NoDup (ch_chunk_id <$> rows)
       /\ NoDup (ch_vector_id <$> rows).
Proof.
  assert (Hrefs : NoDup sample_refs) by apply NoDup_seq.
  assert (Hdb : db_reliable sample_chunk_world) by (intros n; reflexivity).
  split; [exact Hrefs|]. split; [exact Hdb|].
  destruct (chunk_ids_distinct sample_refs 1 sample_chunk_world Hrefs Hdb)
    as (w' & rows & Hrun & Hrows & Hlen & Hids & Hvids).
  exists w', rows. repeat split; assumption.
Defined.



(** C7 on a missing file, a malformed file, an unreadable file and the
    file [{"projects": []}]. *)
Lemma loader_error_kinds_witness :
  load_and_validate_json json_file_path (sample_world NoSuchFile never)
  = (Raise FileNotFoundError,
     set_log [InfoLoading json_file_path; ErrorFileNotFound json_file_path]
       (sample_world NoSuchFile never))
  /\ (load_and_validate_json json_file_path (sample_world Malformed never)).1
     = Raise JSONDecodeError
  /\ (load_and_validate_json json_file_path
        (sample_world (Unreadable OSError) never)).1
     = Raise OSError
  /\ exists lines,
       load_and_validate_json json_file_path
         (sample_world projects_only_file never)
       = (Ok (JObject [(py "projects", JArray [])]),
          set_log lines (sample_world projects_only_file never))
       /\ existsb is_error_line lines = false.
Proof.
  split; [|split; [|split]].
  - apply (loader_error_kinds json_file_path (sample_world NoSuchFile never)).
    reflexivity.
  - pose proof (loader_error_kinds json_file_path (sample_world Malformed never))
      as (_ & H & _).
    rewrite H; reflexivity.
  - pose proof (loader_error_kinds json_file_path
                  (sample_world (Unreadable OSError) never))
      as (_ & _ & H & _).
    rewrite (H OSError); [reflexivity|reflexivity|discriminate|discriminate].
  - pose proof (loader_error_kinds json_file_path
                  (sample_world projects_only_file never))
      as (_ & _ & _ & H).
    apply H; reflexivity.
Defined.

(** The well-formed file [{"experience": null}]: [len(None)] raises
    TypeError, which the loader logs and re-raises. *)
Lemma loader_error_kinds_counterexample :
  (load_and_validate_json json_file_path
     (sample_world null_experience_file never)).1 = Raise TypeError
  /\ log (load_and_validate_json json_file_path
            (sample_world null_experience_file never)).2
     = [InfoLoading json_file_path;
        WarningMissingSections
          [py "personalInfo"; py "skills"; py "projects"; py "education"];
        InfoLoaded; ErrorLoading].
Proof. split; reflexivity. Qed.


(** * Further properties of the code *)

Lemma runs_bind {A B : Type} (m : M A) (k : A -> M B) w
    (P : A -> World -> Prop) (Q : B -> World -> Prop) (F : World -> Prop) :
  runs m w P F ->
  (forall a w', P a w' -> runs (k a) w' Q F) ->
  runs (m ≫= k) w Q F.
Proof.
  unfold runs, mbind, M_bind, bind.
  destruct (m w) as [[a|e] w']; intros HP Hk; [by apply Hk|done].
Qed.

Lemma runs_ret {A : Type} (a : A) w (P : A -> World -> Prop) F :
  P a w -> runs (mret a) w P F.
Proof. done. Qed.

Lemma runs_count add k w (P : unit -> World -> Prop) F :
  P tt (set_stats (add k (stats w)) w) -> runs (count add k) w P F.
Proof. done. Qed.

Lemma runs_db_call {A : Type}
    (f : Tables -> Sequences -> Tables * Sequences * A) w
    (P : A -> World -> Prop) F :
  (db_fails w (db_calls w) = true -> F (set_db_calls (S (db_calls w)) w)) ->
  (db_fails w (db_calls w) = false ->
   P (f (pending w) (sequences w)).2
     (set_sequences (f (pending w) (sequences w)).1.2
        (set_pending (f (pending w) (sequences w)).1.1
           (set_db_calls (S (db_calls w)) w)))) ->
  runs (db_call f) w P F.
Proof.
  intros HF HP. unfold runs, db_call.
  destruct (db_fails w (db_calls w)); [by split; [|apply HF]|].
  destruct (f (pending w) (sequences w)) as [[t q] a]. by apply HP.
Qed.

Lemma runs_commit w (P : unit -> World -> Prop) F :
  (db_fails w (db_calls w) = true -> F (set_db_calls (S (db_calls w)) w)) ->
  (db_fails w (db_calls w) = false ->
   P tt (set_committed (pending w) (set_db_calls (S (db_calls w)) w))) ->
  runs commit w P F.
Proof.
  intros HF HP. unfold runs, commit.
  destruct (db_fails w (db_calls w)); [by split; [|apply HF]|]. by apply HP.
Qed.

Lemma runs_for_each_from {A : Type} (body : A -> M unit)
    (I : list A -> World -> Prop) F l rest : forall seen w,
  l = seen ++ rest ->
  I seen w ->
  (forall seen x rest w, l = seen ++ x :: rest -> I seen w ->
     runs (body x) w (fun _ w' => I (seen ++ [x]) w') F) ->
  runs (for_each body rest) w (fun _ w' => I l w') F.
Proof.
  induction rest as [|x rest IH]; intros seen w Hl HI Hbody.
  - unfold runs. cbn. by rewrite Hl, app_nil_r.
  - cbn [for_each]. eapply runs_bind; [by eapply Hbody|].
    intros [] w' HI'. apply (IH (seen ++ [x])); [|done..].
    by rewrite <- app_assoc.
Qed.

Lemma runs_for_each {A : Type} (body : A -> M unit)
    (I : list A -> World -> Prop) F l w :
  I [] w ->
  (forall seen x rest w, l = seen ++ x :: rest -> I seen w ->
     runs (body x) w (fun _ w' => I (seen ++ [x]) w') F) ->
  runs (for_each body l) w (fun _ w' => I l w') F.
Proof. intros. by eapply (runs_for_each_from body I F l l []). Qed.

Lemma runs_ext {A : Type} (m m' : M A) w P F :
  m w = m' w -> runs m' w P F -> runs m w P F.
Proof. unfold runs. by intros ->. Qed.

Lemma runs_or_rollback {A : Type} (body : M A) w
    (P : A -> World -> Prop) (F : World -> Prop) :
  runs body w P F ->
  match or_rollback body w with
  | (Ok a, w') => P a w'
  | (Raise e, w') =>
      e = DatabaseError
      /\ exists w1, F w1
           /\ w' = set_stats (add_errors_encountered 1 (stats w1))
                     (set_pending (committed w1) w1)
  end.
Proof.
  unfold runs, or_rollback, try_except.
  destruct (body w) as [[a|e] w1]; [done|].
  intros [-> HF]. split; [done|]. by exists w1.
Qed.

Section ReplaceAll.

Context {A : Type}.
Variable del : Tables -> Tables.
Variable ins : A -> Tables -> Tables.
Variable add : nat -> MigrationStats -> MigrationStats.
Variable counter : MigrationStats -> nat.

Hypothesis counter_add : forall s, counter (add 1 s) = counter s + 1.
Hypothesis errors_add :
  forall s, errors_encountered (add 1 s) = errors_encountered s.
Hypothesis counter_errors :
  forall s, counter (add_errors_encountered 1 s) = counter s.

Variable body : A -> M unit.
Hypothesis body_eq :
  forall x w, body x w = (execute (ins x);; count add 1) w.

Lemma replace_all_outcome l w :
  match or_rollback (execute del;; for_each body l;; commit) w with
  | (r, w') =>
      stage_outcome w (length l + 2) counter
        (foldl (fun t x => ins x t) (del (pending w)) l) r w'
  end.
Proof.
  set (I := fun (seen : list A) (w1 : World) =>
    (forall k, k <= length seen -> db_fails w (db_calls w + k) = false)
    /\ db_calls w1 = db_calls w + 1 + length seen
    /\ db_fails w1 = db_fails w
    /\ committed w1 = committed w
    /\ errors_encountered (stats w1) = errors_encountered (stats w)
    /\ counter (stats w1) = counter (stats w) + length seen
    /\ pending w1 = foldl (fun t x => ins x t) (del (pending w)) seen).
  set (F := fun (w1 : World) =>
    exists k, k < length l + 2
      /\ db_fails w (db_calls w + k) = true
      /\ (forall j, j < k -> db_fails w (db_calls w + j) = false)
      /\ committed w1 = committed w
      /\ errors_encountered (stats w1) = errors_encountered (stats w)
      /\ counter (stats w1) = counter (stats w) + (k - 1)).
  set (P := fun (_ : unit) (w1 : World) =>
    stage_outcome w (length l + 2) counter
      (foldl (fun t x => ins x t) (del (pending w)) l) (Ok tt) w1).
  assert (H : runs (execute del;; for_each body l;; commit) w P F).
  { eapply runs_bind with (P := fun _ w1 => I [] w1).
    { apply runs_db_call; intros Hcall; world_simpl.
      - exists 0. rewrite Nat.add_0_r. repeat split; try done; lia.
      - subst I. cbn. repeat split; try done; try lia.
        intros k Hk. replace k with 0 by lia. by rewrite Nat.add_0_r. }
    intros [] w1 HI.
    eapply runs_bind with (P := fun _ w2 => I l w2).
    { apply runs_for_each; [done|].
      intros seen x rest w2 Hl (Hok & Hn & Hf & Hc & He & Hk & Hp).
      eapply runs_ext; [apply body_eq|].
      eapply runs_bind with (P := fun _ w3 =>
        db_fails w (db_calls w + S (length seen)) = false
        /\ db_calls w3 = db_calls w + 1 + S (length seen)
        /\ db_fails w3 = db_fails w
        /\ committed w3 = committed w
        /\ stats w3 = stats w2
        /\ pending w3 = ins x (pending w2)).
      { apply runs_db_call; intros Hcall; world_simpl;
          rewrite Hf, Hn in Hcall;
          replace (db_calls w + 1 + length seen)
            with (db_calls w + S (length seen)) in Hcall by lia.
        - exists (S (length seen)). rewrite Hl, length_app. cbn.
          world_simpl. repeat split; try done; try lia.
          intros j Hj. apply Hok. lia.
        - repeat split; try done. lia. }
      intros [] w3 (Hcall & Hn3 & Hf3 & Hc3 & Hs3 & Hp3).
      apply runs_count. subst I. cbn. world_simpl.
      rewrite length_app, foldl_app. cbn.
      repeat split; try done.
      + intros k Hk'. destruct (decide (k = S (length seen))) as [->|];
          [done|apply Hok; lia].
      + lia.
      + by rewrite errors_add, Hs3.
      + rewrite counter_add, Hs3, Hk. lia.
      + by rewrite Hp3, Hp. }
    intros [] w2 (Hok & Hn & Hf & Hc & He & Hk & Hp).
    apply runs_commit; intros Hcall; world_simpl;
      rewrite Hf, Hn in Hcall.
    - exists (S (length l)). world_simpl.
      replace (db_calls w + 1 + length l)
        with (db_calls w + S (length l)) in Hcall by lia.
      repeat split; try done; try lia.
      intros j Hj. apply Hok. lia.
    - subst P. cbn. world_simpl.
      replace (db_calls w + 1 + length l)
        with (db_calls w + S (length l)) in Hcall by lia.
      repeat split; try done; try lia.
      intros k Hk'. destruct (decide (k = S (length l))) as [->|];
        [done|apply Hok; lia]. }
  apply runs_or_rollback in H.
  destruct (or_rollback _ w) as [[[]|e] w']; [exact H|].
  destruct H as (-> & w1 & (k & Hk & Hfail & Hok & Hc & He & Hn) & ->).
  split; [done|]. exists k. unfold rolled_back. world_simpl.
  repeat split; try done.
  - destruct (stats w1); cbn in *. lia.
  - by rewrite counter_errors.
Qed.

End ReplaceAll.

Lemma foldl_append_rows {A R : Type} (table : Tables -> list R)
    (with_table : list R -> Tables -> Tables) (row : A -> R)
    (t0 : Tables) (l : list A) :
  (forall rows t, table (with_table rows t) = rows) ->
  (forall rows rows' t, with_table rows (with_table rows' t) = with_table rows t) ->
  forall base,
    foldl (fun t x => with_table (table t ++ [row x]) t) (with_table base t0) l
    = with_table (base ++ map row l) t0.
Proof.
  intros Hget Hset. induction l as [|x l IH]; intros base.
  - by rewrite app_nil_r.
  - cbn [foldl map]. rewrite Hget, Hset, IH. by rewrite <- app_assoc.
Qed.

(** X3. [insert_experiences] makes one call per entry and two more (the
    delete and the commit). When all succeed, the committed experiences
    are those of the other professionals followed by one row per entry, in
    order, and the counter grows by the number of entries. Otherwise the
    first failing call raises, nothing is committed, one error is counted,
    and the counter keeps the inserts made before the failure. *)
Theorem insert_experiences_outcome unicode_decimal experiences_list
    professional_id w :
  match insert_experiences unicode_decimal experiences_list professional_id w with
  | (r, w') =>
      stage_outcome w (length experiences_list + 2) experiences_inserted
        (with_experiences
           (filter (fun r => e_professional_id r ≠ professional_id)
              (experiences (pending w))
            ++ experience_rows unicode_decimal professional_id experiences_list)
           (pending w)) r w'
  end.
Proof.
  unfold insert_experiences, experience_rows.
  rewrite <- (foldl_append_rows experiences with_experiences
                (fun exp => experience_row professional_id exp
                   (duration_of unicode_decimal (get (exp_duration exp) []))))
    by (by intros; destruct t).
  apply (replace_all_outcome
           (fun t => with_experiences
              (filter (fun r => e_professional_id r ≠ professional_id)
                 (experiences t)) t)
           (fun exp t => with_experiences
              (experiences t
               ++ [experience_row professional_id exp
                     (duration_of unicode_decimal (get (exp_duration exp) []))])
              t) add_experiences_inserted experiences_inserted);
    try (by intros []).
  intros exp w1. unfold mbind, M_bind, bind, lift.
  by rewrite parse_duration_duration_of.
Qed.


(** X5. [insert_projects] replaces the projects of the professional in
    the same way: one call per project and two more; on a failure nothing
    is committed but the projects counted before the failure stay
    counted. *)
Theorem insert_projects_outcome unicode_decimal projects_list
    professional_id w :
  match insert_projects unicode_decimal projects_list professional_id w with
  | (r, w') =>
      stage_outcome w (length projects_list + 2) projects_inserted
        (with_projects
           (filter (fun r => j_professional_id r ≠ professional_id)
              (projects_table (pending w))
            ++ project_rows unicode_decimal professional_id projects_list)
           (pending w)) r w'
  end.
Proof.
  unfold insert_projects, project_rows.
  rewrite <- (foldl_append_rows projects_table with_projects
                (fun project => project_row professional_id project
                   (project_dates unicode_decimal project).1.1
                   (project_dates unicode_decimal project).1.2))
    by (by intros; destruct t).
  apply (replace_all_outcome
           (fun t => with_projects
              (filter (fun r => j_professional_id r ≠ professional_id)
                 (projects_table t)) t)
           (fun project t => with_projects
              (projects_table t
               ++ [project_row professional_id project
                     (project_dates unicode_decimal project).1.1
                     (project_dates unicode_decimal project).1.2]) t)
           add_projects_inserted projects_inserted);
    try (by intros []).
  intros project w1. unfold mbind, M_bind, bind, lift, project_dates.
  destruct (pr_timeline project); [|done].
  by rewrite parse_duration_duration_of.
Qed.

(** X6. [insert_education] replaces the education rows of the
    professional in the same way: one call per entry and two more; on a
    failure nothing is committed but the entries counted before the
    failure stay counted. *)
Theorem insert_education_outcome unicode_decimal education_list
    professional_id w :
  match insert_education unicode_decimal education_list professional_id w with
  | (r, w') =>
      stage_outcome w (length education_list + 2) education_inserted
        (with_education
           (filter (fun r => d_professional_id r ≠ professional_id)
              (education_table (pending w))
            ++ education_rows unicode_decimal professional_id education_list)
           (pending w)) r w'
  end.
Proof.
  unfold insert_education, education_rows.
  rewrite <- (foldl_append_rows education_table with_education
                (fun edu => education_row professional_id edu
                   (match edu_graduation_date edu with
                    | Some date_str => date_of unicode_decimal date_str
                    | None => None
                    end)))
    by (by intros; destruct t).
  apply (replace_all_outcome
           (fun t => with_education
              (filter (fun r => d_professional_id r ≠ professional_id)
                 (education_table t)) t)
           (fun edu t => with_education
              (education_table t
               ++ [education_row professional_id edu
                     (match edu_graduation_date edu with
                      | Some date_str => date_of unicode_decimal date_str
                      | None => None
                      end)]) t)
           add_education_inserted education_inserted);
    try (by intros []).
  intros edu w1. unfold mbind, M_bind, bind, lift.
  destruct (edu_graduation_date edu); [|done].
  by rewrite parse_date_date_of.
Qed.

Lemma insert_professional_data_runs personal_info w :
  match insert_professional_data personal_info w with
  | (Ok professional_id, w') =>
      calls_succeed w 3
      /\ professional_id
         = professional_id_for personal_info (pending w) (sequences w)
      /\ committed w'
         = with_professionals
             (professionals_after personal_info (pending w) (sequences w))
             (pending w)
      /\ pending w' = committed w'
      /\ sequences w'
         = sequences_after_professional personal_info (pending w) (sequences w)
      /\ stats w' = stats_after_professional personal_info (pending w) (stats w)
  | (Raise e, w') =>
      e = DatabaseError
      /\ rolled_back w w'
      /\ exists k, k < 3 /\ first_failure w k
  end.
Proof.
  set (F := fun (w1 : World) =>
    committed w1 = committed w
    /\ errors_encountered (stats w1) = errors_encountered (stats w)
    /\ exists k, k < 3 /\ first_failure w k).
  set (P := fun (professional_id : Z) (w' : World) =>
      calls_succeed w 3
      /\ professional_id
         = professional_id_for personal_info (pending w) (sequences w)
      /\ committed w'
         = with_professionals
             (professionals_after personal_info (pending w) (sequences w))
             (pending w)
      /\ pending w' = committed w'
      /\ sequences w'
         = sequences_after_professional personal_info (pending w) (sequences w)
      /\ stats w' = stats_after_professional personal_info (pending w) (stats w)).
  unfold insert_professional_data.
  match goal with |- match or_rollback ?body w with _ => _ end =>
    assert (H : runs body w P F) end.
  { eapply runs_bind with (P := fun existing w1 =>
      existing = select_professional (email_of personal_info) (pending w)
      /\ db_fails w (db_calls w) = false
      /\ w1 = set_db_calls (S (db_calls w)) w).
    { apply runs_db_call; intros Hcall; unfold F; world_simpl.
      - repeat split; try done. exists 0. split; [lia|]. split.
        + by rewrite Nat.add_0_r.
        + intros j Hj. lia.
      - repeat split; try done. }
    intros existing w1 (-> & H0 & ->).
    eapply runs_bind with (P := fun professional_id w2 =>
      professional_id
        = professional_id_for personal_info (pending w) (sequences w)
      /\ db_fails w (db_calls w + 1) = false
      /\ db_calls w2 = db_calls w + 2
      /\ db_fails w2 = db_fails w
      /\ committed w2 = committed w
      /\ pending w2
         = with_professionals
             (professionals_after personal_info (pending w) (sequences w))
             (pending w)
      /\ sequences w2
         = sequences_after_professional personal_info (pending w) (sequences w)
      /\ stats w2 = stats_after_professional personal_info (pending w) (stats w)).
    { unfold professional_id_for, professionals_after,
        sequences_after_professional, stats_after_professional.
      destruct (select_professional (email_of personal_info) (pending w))
        as [id|].
      - eapply runs_bind with (P := fun _ w2 =>
          db_fails w (db_calls w + 1) = false
          /\ w2 = set_pending
                    (with_professionals
                       (map (update_professional id personal_info
                               (get (pi_contact personal_info) no_contact))
                          (professionals (pending w))) (pending w))
                    (set_db_calls (S (S (db_calls w))) w)).
        { apply runs_db_call; intros Hcall; unfold F; world_simpl;
            replace (S (db_calls w)) with (db_calls w + 1) in Hcall by lia.
          - repeat split; try done. exists 1. split; [lia|]. split; [done|].
            intros j Hj. replace j with 0 by lia. by rewrite Nat.add_0_r.
          - by split. }
        intros [] w2 (H1 & ->). apply runs_ret. world_simpl.
        repeat split; try done; try lia.
      - eapply runs_bind with (P := fun professional_id w2 =>
          professional_id = next_professional_id (sequences w)
          /\ db_fails w (db_calls w + 1) = false
          /\ w2 = set_sequences
                    (mk_sequences (next_professional_id (sequences w) + 1)
                       (next_json_content_id (sequences w))
                       (next_chunk_row_id (sequences w)))
                    (set_pending
                       (with_professionals
                          (professionals (pending w)
                           ++ [new_professional
                                 (next_professional_id (sequences w))
                                 personal_info
                                 (get (pi_contact personal_info) no_contact)])
                          (pending w))
                       (set_db_calls (S (S (db_calls w))) w))).
        { apply runs_db_call; intros Hcall; unfold F; world_simpl;
            replace (S (db_calls w)) with (db_calls w + 1) in Hcall by lia.
          - repeat split; try done. exists 1. split; [lia|]. split; [done|].
            intros j Hj. replace j with 0 by lia. by rewrite Nat.add_0_r.
          - repeat split; try done. }
        intros professional_id w2 (-> & H1 & Hw2).
        eapply runs_bind with
          (P := fun _ w3 =>
                  w3 = set_stats (add_professionals_inserted 1 (stats w2)) w2);
          [by apply runs_count|].
        intros [] w3 ->. subst w2. apply runs_ret. world_simpl.
        repeat split; try done; try lia. }
    intros professional_id w2 (-> & H1 & Hn & Hf & Hc & Hp & Hq & Hs).
    eapply runs_bind with
      (P := fun _ w3 =>
              P (professional_id_for personal_info (pending w) (sequences w))
                w3);
      [|by intros [] w3 ?].
    apply runs_commit; intros Hcall; rewrite Hf, Hn in Hcall;
      unfold F, P; world_simpl.
    - repeat split; try done.
      + rewrite Hs. unfold stats_after_professional.
        by destruct (select_professional _ _), (stats w).
      + exists 2. split; [lia|]. split; [done|]. intros j Hj.
        destruct j as [|[|j]]; [by rewrite Nat.add_0_r|done|lia].
    - repeat split; try done.
      intros j Hj. destruct j as [|[|[|j]]];
        [by rewrite Nat.add_0_r|done|done|lia]. }
  apply runs_or_rollback in H.
  destruct (or_rollback _ w) as [[id|e] w']; [exact H|].
  destruct H as (-> & w1 & (Hc & He & Hk) & ->).
  split; [done|]. split; [|done]. unfold rolled_back. world_simpl.
  repeat split; try done. destruct (stats w1); cbn in *. lia.
Qed.

(** X1. [insert_professional_data] makes three calls to the database (the
    lookup by e-mail, the update or the insert, the commit). When all three
    succeed and a row has the e-mail of the document, it returns the id of
    the first such row and commits the table in which every row of that id
    has the name, title, location, linkedin, github, portfolio, summary
    and elevator pitch of the document and keeps its id and e-mail, while
    the other rows, the sequence and the counter are as before. When no
    row has that e-mail, or the document has none, it returns the next id
    of the sequence and commits the table with a new row of that id and
    the document's values at its end, and counts one professional. The
    other tables are committed as the transaction held them. When a call
    fails it raises the database's error, commits nothing, rolls the
    transaction back and counts one error. *)
Theorem insert_professional_data_outcome personal_info w :
  match insert_professional_data personal_info w with
  | (Ok professional_id, w') =>
      calls_succeed w 3
      /\ match select_professional (pi_contact personal_info ≫= c_email)
                 (pending w) with
         | Some id =>
             professional_id = id
             /\ professionals (committed w')
                = map (fun r =>
                         if decide (p_id r = id) then
                           {| p_id := p_id r;
                              p_name := pi_name personal_info;
                              p_title := pi_title personal_info;
                              p_location := pi_location personal_info;
                              p_email := p_email r;
                              p_linkedin := pi_contact personal_info ≫= c_linkedin;
                              p_github := pi_contact personal_info ≫= c_github;
                              p_portfolio :=
                                pi_contact personal_info ≫= c_portfolio;
                              p_summary := pi_summary personal_info;
                              p_elevator_pitch :=
                                pi_elevator_pitch personal_info |}
                         else r)
                    (professionals (pending w))
             /\ sequences w' = sequences w
             /\ stats w' = stats w
         | None =>
             professional_id = next_professional_id (sequences w)
             /\ professionals (committed w')
                = professionals (pending w)
                  ++ [{| p_id := next_professional_id (sequences w);
                         p_name := pi_name personal_info;
                         p_title := pi_title personal_info;
                         p_location := pi_location personal_info;
                         p_email := pi_contact personal_info ≫= c_email;
                         p_linkedin := pi_contact personal_info ≫= c_linkedin;
                         p_github := pi_contact personal_info ≫= c_github;
                         p_portfolio := pi_contact personal_info ≫= c_portfolio;
                         p_summary := pi_summary personal_info;
                         p_elevator_pitch := pi_elevator_pitch personal_info |}]
             /\ next_professional_id (sequences w')
                = (next_professional_id (sequences w) + 1)%Z
             /\ professionals_inserted (stats w')
                = professionals_inserted (stats w) + 1
             /\ errors_encountered (stats w') = errors_encountered (stats w)
         end
      /\ experiences (committed w') = experiences (pending w)
      /\ skills_table (committed w') = skills_table (pending w)
      /\ projects_table (committed w') = projects_table (pending w)
      /\ education_table (committed w') = education_table (pending w)
      /\ json_content (committed w') = json_content (pending w)
      /\ content_chunks (committed w') = content_chunks (pending w)
      /\ pending w' = committed w'
  | (Raise e, w') =>
      e = DatabaseError
      /\ rolled_back w w'
      /\ exists k, k < 3 /\ first_failure w k
  end.
Proof.
  pose proof (insert_professional_data_runs personal_info w) as H.
  destruct (insert_professional_data personal_info w) as [[id|e] w'];
    [|exact H].
  destruct H as (Hcalls & Hid & Hcommitted & Hpending & Hseq & Hstats).
  assert (Hcontact : forall (A : Type) (f : Contact -> option A),
            f no_contact = None ->
            f (get (pi_contact personal_info) no_contact)
            = pi_contact personal_info ≫= f).
  { intros A f Hf. by destruct (pi_contact personal_info). }
  split; [exact Hcalls|].
  rewrite Hcommitted in Hpending |- *. clear Hcommitted.
  unfold professional_id_for, professionals_after,
    sequences_after_professional, stats_after_professional, email_of in *.
  rewrite (Hcontact _ c_email eq_refl) in *.
  destruct (pending w) as [ps es ss js ds cs ks]. cbn [professionals] in *.
  destruct (select_professional (pi_contact personal_info ≫= c_email) _)
    as [existing|]; cbn [default] in *.
  - split; [|by repeat split].
    split; [exact Hid|]. split; [|by split].
    cbn [with_professionals professionals].
    apply map_ext. intros r. unfold update_professional.
    case_decide; [|done].
    by rewrite !Hcontact.
  - split; [|by repeat split].
    split; [exact Hid|].
    split.
    { cbn [with_professionals professionals]. unfold new_professional.
      by rewrite !Hcontact. }
    rewrite Hseq, Hstats. destruct (stats w). cbn. repeat split; lia.
Qed.

Lemma select_professional_after personal_info e t q :
  email_of personal_info = Some e ->
  select_professional (Some e)
    (with_professionals (professionals_after personal_info t q) t)
  = Some (professional_id_for personal_info t q).
Proof.
  intros He. unfold professionals_after, professional_id_for.
  rewrite He. unfold select_professional at 2 3.
  destruct (filter (fun r => p_email r = Some e) (professionals t))
    as [|r rest] eqn:F; cbn [head fmap option_fmap option_map default].
  - unfold select_professional.
    destruct t as [ps es ss js ds cs ks]; cbn [professionals with_professionals].
    cbn [professionals] in F.
    rewrite filter_app, F, filter_cons_True by exact He. done.
  - unfold select_professional.
    destruct t as [ps es ss js ds cs ks]; cbn [professionals with_professionals].
    cbn [professionals] in F.
    rewrite filter_email_update, F. cbn.
    by rewrite update_professional_id.
Qed.

(** X2. After [insert_professional_data] has returned an id, looking the
    person up by the e-mail of the document finds that id; a document
    without e-mail adds a new row under the next id of the sequence,
    whatever the table holds; and the rows of other ids are still there. *)
Theorem insert_professional_data_lookup personal_info w professional_id w' :
  insert_professional_data personal_info w = (Ok professional_id, w') ->
  (forall e, email_of personal_info = Some e ->
     select_professional (Some e) (committed w') = Some professional_id)
  /\ (email_of personal_info = None ->
      professional_id = next_professional_id (sequences w)
      /\ professionals (committed w')
         = professionals (pending w)
           ++ [new_professional professional_id personal_info
                 (get (pi_contact personal_info) no_contact)])
  /\ (forall r, r ∈ professionals (pending w) -> p_id r ≠ professional_id ->
      r ∈ professionals (committed w')).
Proof.
  intros Hrun. pose proof (insert_professional_data_runs personal_info w) as H.
  rewrite Hrun in H. destruct H as (_ & Hid & Hc & _).
  rewrite Hc, Hid. clear Hrun Hc Hid. repeat split.
  - intros e He. by apply select_professional_after.
  - unfold professional_id_for. by rewrite H.
  - unfold professionals_after, professional_id_for. rewrite H.
    by destruct (pending w).
  - intros r Hr Hne. unfold professionals_after, professional_id_for in *.
    destruct (select_professional _ _) as [id|]; destruct (pending w); cbn in *.
    + apply list_elem_of_fmap. exists r. split; [|done].
      unfold update_professional. by rewrite decide_False.
    + apply elem_of_app. by left.
Qed.

Section JsonContent.

Variable content_hash_of : Document -> str.

Lemma insert_json_content_runs json_data professional_id w :
  match insert_json_content content_hash_of json_data professional_id w with
  | (Ok content_id, w') =>
      calls_succeed w 3
      /\ content_id = content_id_for professional_id (pending w) (sequences w)
      /\ committed w'
         = with_json_content
             (json_content_after content_hash_of json_data professional_id
                (pending w) (sequences w))
             (pending w)
      /\ pending w' = committed w'
      /\ json_content_inserted (stats w')
         = json_content_inserted (stats w)
           + match select_json_content professional_id (pending w) with
              | Some _ => 0
              | None => 1
              end
  | (Raise e, w') =>
      e = DatabaseError
      /\ rolled_back w w'
      /\ exists k, k < 3 /\ first_failure w k
  end.
Proof.
  set (F := fun (w1 : World) =>
    committed w1 = committed w
    /\ errors_encountered (stats w1) = errors_encountered (stats w)
    /\ exists k, k < 3 /\ first_failure w k).
  set (P := fun (content_id : Z) (w' : World) =>
      calls_succeed w 3
      /\ content_id = content_id_for professional_id (pending w) (sequences w)
      /\ committed w'
         = with_json_content
             (json_content_after content_hash_of json_data professional_id
                (pending w) (sequences w))
             (pending w)
      /\ pending w' = committed w'
      /\ json_content_inserted (stats w')
         = json_content_inserted (stats w)
           + match select_json_content professional_id (pending w) with
              | Some _ => 0
              | None => 1
              end).
  unfold insert_json_content.
  match goal with |- match or_rollback ?body w with _ => _ end =>
    assert (H : runs body w P F) end.
  { eapply runs_bind with (P := fun existing w1 =>
      existing = select_json_content professional_id (pending w)
      /\ db_fails w (db_calls w) = false
      /\ w1 = set_db_calls (S (db_calls w)) w).
    { apply runs_db_call; intros Hcall; unfold F; world_simpl.
      - repeat split; try done. exists 0. split; [lia|]. split.
        + by rewrite Nat.add_0_r.
        + intros j Hj. lia.
      - repeat split; try done. }
    intros existing w1 (-> & H0 & ->).
    eapply runs_bind with (P := fun content_id w2 =>
      content_id = content_id_for professional_id (pending w) (sequences w)
      /\ db_fails w (db_calls w + 1) = false
      /\ db_calls w2 = db_calls w + 2
      /\ db_fails w2 = db_fails w
      /\ committed w2 = committed w
      /\ pending w2
         = with_json_content
             (json_content_after content_hash_of json_data professional_id
                (pending w) (sequences w))
             (pending w)
      /\ errors_encountered (stats w2) = errors_encountered (stats w)
      /\ json_content_inserted (stats w2)
         = json_content_inserted (stats w)
           + match select_json_content professional_id (pending w) with
             | Some _ => 0
             | None => 1
             end).
    { unfold content_id_for, json_content_after.
      destruct (select_json_content professional_id (pending w)) as [id|].
      - eapply runs_bind with (P := fun _ w2 =>
          db_fails w (db_calls w + 1) = false
          /\ w2 = set_pending
                    (with_json_content
                       (map (update_json_content content_hash_of id json_data)
                          (json_content (pending w))) (pending w))
                    (set_db_calls (S (S (db_calls w))) w)).
        { apply runs_db_call; intros Hcall; unfold F; world_simpl;
            replace (S (db_calls w)) with (db_calls w + 1) in Hcall by lia.
          - repeat split; try done. exists 1. split; [lia|]. split; [done|].
            intros j Hj. replace j with 0 by lia. by rewrite Nat.add_0_r.
          - by split. }
        intros [] w2 (H1 & ->). apply runs_ret. world_simpl.
        repeat split; try done; try lia.
      - eapply runs_bind with (P := fun content_id w2 =>
          content_id = next_json_content_id (sequences w)
          /\ db_fails w (db_calls w + 1) = false
          /\ w2 = set_sequences
                    (mk_sequences (next_professional_id (sequences w))
                       (next_json_content_id (sequences w) + 1)
                       (next_chunk_row_id (sequences w)))
                    (set_pending
                       (with_json_content
                          (json_content (pending w)
                           ++ [new_json_content content_hash_of
                                 (next_json_content_id (sequences w))
                                 json_data professional_id])
                          (pending w))
                       (set_db_calls (S (S (db_calls w))) w))).
        { apply runs_db_call; intros Hcall; unfold F; world_simpl;
            replace (S (db_calls w)) with (db_calls w + 1) in Hcall by lia.
          - repeat split; try done. exists 1. split; [lia|]. split; [done|].
            intros j Hj. replace j with 0 by lia. by rewrite Nat.add_0_r.
          - repeat split; try done. }
        intros content_id w2 (-> & H1 & Hw2).
        eapply runs_bind with
          (P := fun _ w3 =>
                  w3 = set_stats (add_json_content_inserted 1 (stats w2)) w2);
          [by apply runs_count|].
        intros [] w3 ->. subst w2. apply runs_ret. world_simpl.
        repeat split; try done; try lia; by destruct (stats w). }
    intros content_id w2 (-> & H1 & Hn & Hf & Hc & Hp & He & Hs).
    eapply runs_bind with
      (P := fun _ w3 =>
              P (content_id_for professional_id (pending w) (sequences w)) w3);
      [|by intros [] w3 ?].
    apply runs_commit; intros Hcall; rewrite Hf, Hn in Hcall;
      unfold F, P; world_simpl.
    - repeat split; try done.
      exists 2. split; [lia|]. split; [done|]. intros j Hj.
      destruct j as [|[|j]]; [by rewrite Nat.add_0_r|done|lia].
    - repeat split; try done.
      intros j Hj. destruct j as [|[|[|j]]];
        [by rewrite Nat.add_0_r|done|done|lia]. }
  apply runs_or_rollback in H.
  destruct (or_rollback _ w) as [[id|e] w']; [exact H|].
  destruct H as (-> & w1 & (Hc & He & Hk) & ->).
  split; [done|]. split; [|done]. unfold rolled_back. world_simpl.
  repeat split; try done. destruct (stats w1); cbn in *. lia.
Qed.

Lemma filter_json_update id json_data pid l :
  filter (fun r => jc_professional_id r = pid ∧ jc_version r = py "v1")
    (map (update_json_content content_hash_of id json_data) l)
  = map (update_json_content content_hash_of id json_data)
      (filter (fun r => jc_professional_id r = pid ∧ jc_version r = py "v1") l).
Proof.
  induction l as [|r l IH]; [done|].
  cbn [map]. rewrite !filter_cons, IH.
  assert (E1 : jc_professional_id (update_json_content content_hash_of id json_data r)
               = jc_professional_id r).
  { unfold update_json_content. by case_decide. }
  assert (E2 : jc_version (update_json_content content_hash_of id json_data r)
               = jc_version r).
  { unfold update_json_content. by case_decide. }
  rewrite E1, E2. by case_decide.
Qed.

(** X7. [insert_json_content] keeps one 'v1' document per professional:
    when its three calls succeed, the lookup by professional finds the
    returned id, the first 'v1' row of the professional holds the document,
    its hash and the status 'valid', and the table and the counter grow by
    one only when the professional had no such row. When a call fails it
    raises the database's error and commits nothing. *)
Theorem insert_json_content_upsert json_data professional_id w :
  match insert_json_content content_hash_of json_data professional_id w with
  | (Ok content_id, w') =>
      calls_succeed w 3
      /\ select_json_content professional_id (committed w') = Some content_id
      /\ (exists row,
            head (filter (fun r => jc_professional_id r = professional_id
                                   ∧ jc_version r = py "v1")
                    (json_content (committed w'))) = Some row
            /\ jc_id row = content_id
            /\ jc_content row = json_data
            /\ jc_content_hash row = content_hash_of json_data
            /\ jc_validation_status row = py "valid")
      /\ length (json_content (committed w'))
         = length (json_content (pending w))
           + match select_json_content professional_id (pending w) with
             | Some _ => 0
             | None => 1
             end
      /\ json_content_inserted (stats w')
         = json_content_inserted (stats w)
           + match select_json_content professional_id (pending w) with
             | Some _ => 0
             | None => 1
             end
      /\ pending w' = committed w'
  | (Raise e, w') =>
      e = DatabaseError
      /\ rolled_back w w'
      /\ exists k, k < 3 /\ first_failure w k
  end.
Proof.
  pose proof (insert_json_content_runs json_data professional_id w) as H.
  destruct (insert_json_content _ _ _ w) as [[content_id|e] w']; [|exact H].
  destruct H as (Hcalls & -> & Hc & Hp & Hs).
  split; [done|]. rewrite Hc in Hp |- *. clear Hc.
  unfold content_id_for, json_content_after, select_json_content in *.
  destruct (pending w) as [ps es ss js ds cs ks];
    cbn [json_content with_json_content] in *.
  destruct (filter _ cs) as [|r rest] eqn:E;
    cbn [head fmap option_fmap option_map default] in *.
  - rewrite filter_app, E, filter_cons_True by done.
    cbn. repeat split; try done.
    + eexists. by repeat split.
    + rewrite length_app. cbn. lia.
  - rewrite filter_json_update, E. cbn.
    assert (Hr : update_json_content content_hash_of (jc_id r) json_data r
                 = {| jc_id := jc_id r;
                      jc_professional_id := jc_professional_id r;
                      jc_version := jc_version r;
                      jc_content := json_data;
                      jc_content_hash := content_hash_of json_data;
                      jc_validation_status := py "valid" |}).
    { unfold update_json_content. by rewrite decide_True. }
    rewrite Hr. cbn. repeat split; try done.
    + eexists. by repeat split.
    + rewrite length_map. lia.
Qed.

End JsonContent.

Lemma runs_modify f w (P : unit -> World -> Prop) F :
  P tt (f w) -> runs (modify f) w P F.
Proof. done. Qed.

Lemma runs_deref ref w (P : ContentChunk -> World -> Prop) F :
  P (heap w ref) w -> runs (deref ref) w P F.
Proof. done. Qed.

Lemma runs_modify_bind {B : Type} f (k : unit -> M B) w
    (Q : B -> World -> Prop) F :
  runs (k tt) (f w) Q F -> runs (modify f ≫= k) w Q F.
Proof. done. Qed.

Section ChunkOutcome.

Variable professional_id : Z.
Variable w : World.
Variable total : nat.

Let I (n : nat) (w1 : World) : Prop :=
  calls_succeed w n
  /\ db_calls w1 = db_calls w + n
  /\ db_fails w1 = db_fails w
  /\ committed w1 = committed w
  /\ errors_encountered (stats w1) = errors_encountered (stats w)
  /\ content_chunks_created (stats w1) = content_chunks_created (stats w) + n
  /\ next_chunk_row_id (sequences w1)
     = (next_chunk_row_id (sequences w) + Z.of_nat n)%Z
  /\ exists rows,
       pending w1
       = with_content_chunks (content_chunks (pending w) ++ rows) (pending w)
       /\ length rows = n
       /\ Forall (fun row => ch_professional_id row = professional_id) rows.

Let F (w1 : World) : Prop :=
  exists k, k < total + 1
    /\ first_failure w k
    /\ committed w1 = committed w
    /\ errors_encountered (stats w1) = errors_encountered (stats w)
    /\ content_chunks_created (stats w1) = content_chunks_created (stats w) + k.

Lemma insert_chunks_from_runs chunks : forall i n w1,
  n + length chunks = total ->
  I n w1 ->
  runs (insert_chunks_from i chunks professional_id) w1
    (fun _ w2 => I total w2) F.
Proof.
  induction chunks as [|ref chunks IH]; intros i n w1 Hn HI.
  - cbn in Hn. apply runs_ret. by replace total with n by lia.
  - cbn [length] in Hn. cbn [insert_chunks_from].
    destruct w1 as [c1 p1 q1 n1 f1 ix1 vn1 vf1 sl1 s1 h1 hn1 fl1 lg1].
    destruct HI as (Hok & Hc & Hf & Hcm & He & Hk & Hq & rows & Hp & Hl & Hrows).
    cbn [committed pending sequences db_calls db_fails stats] in *.
    eapply runs_bind with
      (P := fun chunk w2 =>
              chunk = h1 ref
              /\ w2 = mk_world c1 p1 q1 n1 f1 ix1 vn1 vf1 sl1 s1 h1 hn1 fl1 lg1);
      [by apply runs_deref|].
    intros chunk w2 [-> ->].
    set (chunk := h1 ref).
    set (chunk_id := chunk_id_of professional_id (chunk_type chunk) i).
    eapply runs_bind with (P := fun db_chunk_id w2 =>
      db_fails w (db_calls w + n) = false
      /\ w2 = mk_world c1
                (with_content_chunks
                   (content_chunks p1
                    ++ [chunk_row (next_chunk_row_id q1) professional_id
                          chunk_id chunk]) p1)
                (mk_sequences (next_professional_id q1)
                   (next_json_content_id q1) (next_chunk_row_id q1 + 1))
                (S n1) f1 ix1 vn1 vf1 sl1 s1 h1 hn1 fl1 lg1).
    { apply runs_db_call; world_simpl; intros Hcall; rewrite Hf, Hc in Hcall;
        unfold F; world_simpl.
      - exists n. repeat split; try done; lia.
      - by split. }
    intros db_chunk_id w2 (Hcall & ->).
    unfold set_metadata, count.
    do 3 apply runs_modify_bind.
    world_simpl. apply (IH (S i) (S n)); [lia|]. unfold I. world_simpl.
    subst c1 f1 p1.
    assert (Hs1 : errors_encountered (add_content_chunks_created 1 s1)
                  = errors_encountered s1
                  /\ content_chunks_created (add_content_chunks_created 1 s1)
                     = content_chunks_created s1 + 1) by (by destruct s1).
    destruct Hs1 as [-> ->]. cbn [next_chunk_row_id].
    split.
    { intros k Hlt. destruct (decide (k = n)) as [->|]; [done|].
      apply Hok. lia. }
    repeat split; try done; try lia.
    exists (rows ++ [chunk_row (next_chunk_row_id q1) professional_id
                       chunk_id chunk]).
    repeat split.
    + destruct (pending w) as [ps es ss js ds cs ks]; cbn.
      by rewrite <- app_assoc.
    + rewrite length_app. cbn. lia.
    + apply Forall_app. split; [done|]. by constructor.
Qed.

Lemma insert_content_chunks_runs chunks :
  total = length chunks ->
  match insert_content_chunks chunks professional_id w with
  | (Ok _, w') =>
      calls_succeed w (total + 1)
      /\ (exists rows,
            committed w'
            = with_content_chunks (content_chunks (pending w) ++ rows)
                (pending w)
            /\ length rows = total
            /\ Forall (fun row => ch_professional_id row = professional_id) rows)
      /\ pending w' = committed w'
      /\ content_chunks_created (stats w')
         = content_chunks_created (stats w) + total
      /\ next_chunk_row_id (sequences w')
         = (next_chunk_row_id (sequences w) + Z.of_nat total)%Z
  | (Raise e, w') =>
      e = DatabaseError
      /\ rolled_back w w'
      /\ exists k,
           k < total + 1
           /\ first_failure w k
           /\ content_chunks_created (stats w')
              = content_chunks_created (stats w) + k
  end.
Proof.
  intros Htotal. unfold insert_content_chunks.
  match goal with |- match or_rollback ?body w with _ => _ end =>
    assert (H : runs body w
      (fun _ w' =>
         calls_succeed w (total + 1)
         /\ (exists rows,
               committed w'
               = with_content_chunks (content_chunks (pending w) ++ rows)
                   (pending w)
               /\ length rows = total
               /\ Forall (fun row => ch_professional_id row = professional_id)
                    rows)
         /\ pending w' = committed w'
         /\ content_chunks_created (stats w')
            = content_chunks_created (stats w) + total
         /\ next_chunk_row_id (sequences w')
            = (next_chunk_row_id (sequences w) + Z.of_nat total)%Z) F) end.
  { eapply runs_bind.
    { apply (insert_chunks_from_runs chunks 0 0); [lia|].
      unfold I. repeat split; try done; try lia.
      - intros k Hk. lia.
      - exists []. rewrite app_nil_r. repeat split; [|done].
        by destruct (pending w). }
    intros [] w1 (Hok & Hc & Hf & Hcm & He & Hk & Hq & rows & Hp & Hl & Hrows).
    apply runs_commit; intros Hcall; rewrite Hf, Hc in Hcall;
      unfold F; world_simpl.
    - exists total. repeat split; try done; lia.
    - repeat split; try done.
      + intros k Hlt. destruct (decide (k = total)) as [->|]; [done|].
        apply Hok. lia.
      + by exists rows. }
  apply runs_or_rollback in H.
  destruct (or_rollback _ w) as [[[]|e] w']; [exact H|].
  destruct H as (-> & w1 & (k & Hk & Hfail & Hc & He & Hn) & ->).
  split; [done|]. unfold rolled_back. world_simpl.
  repeat split; try done.
  - destruct (stats w1); cbn in *. lia.
  - exists k. repeat split; try done; try (by destruct Hfail);
      try (by destruct (stats w1)).
Qed.

End ChunkOutcome.

(** X11. [insert_content_chunks] makes one call per chunk and the commit.
    When all succeed it has appended one row per chunk, each under the
    professional's id, to the rows that were there (it deletes none), and
    counted them. Otherwise the first failing call raises, nothing is
    committed, and the chunks inserted before it stay counted. *)
Theorem insert_content_chunks_outcome chunks professional_id w :
  match insert_content_chunks chunks professional_id w with
  | (Ok _, w') =>
      calls_succeed w (length chunks + 1)
      /\ (exists rows,
            committed w'
            = with_content_chunks (content_chunks (pending w) ++ rows)
                (pending w)
            /\ length rows = length chunks
            /\ Forall (fun row => ch_professional_id row = professional_id) rows)
      /\ pending w' = committed w'
      /\ content_chunks_created (stats w')
         = content_chunks_created (stats w) + length chunks
      /\ next_chunk_row_id (sequences w')
         = (next_chunk_row_id (sequences w) + Z.of_nat (length chunks))%Z
  | (Raise e, w') =>
      e = DatabaseError
      /\ rolled_back w w'
      /\ exists k,
           k < length chunks + 1
           /\ first_failure w k
           /\ content_chunks_created (stats w')
              = content_chunks_created (stats w) + k
  end.
Proof.
  exact (insert_content_chunks_runs professional_id w (length chunks) chunks
           eq_refl).
Qed.

Lemma foldl_upsert_fresh vectors : forall ix,
  NoDup ((v_id <$> ix) ++ (v_id <$> vectors)) ->
  foldl upsert_one ix vectors = ix ++ vectors.
Proof.
  induction vectors as [|v vectors IH]; intros ix Hnd.
  - by rewrite app_nil_r.
  - cbn [foldl]. assert (Hfresh : upsert_one ix v = ix ++ [v]).
    { unfold upsert_one. rewrite bool_decide_eq_false_2; [done|].
      intros [u [Hu Heq]]%Exists_exists.
      apply NoDup_app in Hnd as (_ & Hdisj & _).
      apply (Hdisj (v_id v)).
      - rewrite <- Heq. by apply list_elem_of_fmap_2.
      - cbn. left. }
    rewrite Hfresh, IH.
    + by rewrite <- app_assoc.
    + rewrite fmap_app. cbn. by rewrite <- app_assoc.
Qed.

Lemma batches_of k :
  (k + 9) / 10 = k / 10 + (if bool_decide (k mod 10 = 0) then 0 else 1).
Proof.
  pose proof (Nat.div_mod_eq k 10) as E.
  pose proof (Nat.mod_upper_bound k 10 ltac:(done)) as B.
  case_bool_decide as Hm.
  - symmetry. apply (Nat.div_unique _ _ _ 9); lia.
  - symmetry. apply (Nat.div_unique _ _ _ (k mod 10 - 1)); lia.
Qed.

Section VectorRun.

Variable w0 : World.
Hypothesis vector_ok : vector_reliable w0.

Variables (c p : Tables) (q : Sequences) (n : nat) (sl : list nat)
  (h : nat -> ContentChunk) (hn : nat) (lg : list log_line).

Local Abbreviation at_vectors ix vn s :=
  (world_at w0 c p q n ix vn sl s h hn lg).

Lemma embed_chunks_run chunks : forall acc ix vn s,
  length acc < batch_size ->
  (forall ref, ref ∈ chunks -> is_Some (metadata (h ref) !! "vector_id")) ->
  exists rest ix',
    embed_chunks chunks acc (at_vectors ix vn s)
    = (Ok rest,
       at_vectors ix' (vn + (length acc + length chunks) / batch_size)
         (add_vectors_embedded (length acc + length chunks - length rest) s))
    /\ length rest = (length acc + length chunks) mod batch_size
    /\ foldl upsert_one ix' rest
       = foldl upsert_one ix (acc ++ (vector_of <$> (h <$> chunks))).
Proof.
  unfold batch_size.
  induction chunks as [|ref chunks IH]; intros acc ix vn s Hacc Hids.
  - exists acc, ix. cbn [embed_chunks length]. rewrite Nat.add_0_r.
    rewrite Nat.div_small, Nat.mod_small, Nat.sub_diag by done.
    rewrite add_vectors_embedded_0, Nat.add_0_r, app_nil_r. done.
  - destruct (Hids ref ltac:(set_solver)) as [id Hid].
    cbn [embed_chunks]. erewrite bind_ok by reflexivity.
    change (heap (world_at w0 c p q n ix vn sl s h hn lg)) with h. rewrite Hid.
    erewrite bind_ok by reflexivity.
    assert (Hv : mk_vector id (content (h ref)) (vector_metadata (h ref))
                 = vector_of (h ref)).
    { unfold vector_of. by rewrite Hid. }
    rewrite Hv. set (v := vector_of (h ref)).
    unfold batch_size. case_bool_decide as Hb.
    + erewrite bind_ok by apply (_upsert_vector_batch_at w0 vector_ok).
      destruct (IH [] (foldl upsert_one ix (acc ++ [v])) (S vn)
                  (add_vectors_embedded (length (acc ++ [v])) s))
        as (rest & ix' & Hrun & Hlen & Hix); [cbn; lia|set_solver|].
      exists rest, ix'. rewrite length_app in *. cbn [length] in *.
      assert (Hten : length acc + 1 = 10) by lia.
      assert (Hdiv : (length acc + S (length chunks)) / 10
                     = S (length chunks / 10)).
      { replace (length acc + S (length chunks))
          with (length chunks + 1 * 10) by lia.
        rewrite Nat.div_add by done. lia. }
      assert (Hmod : (length acc + S (length chunks)) mod 10
                     = length chunks mod 10).
      { replace (length acc + S (length chunks))
          with (length chunks + 1 * 10) by lia.
        by rewrite Nat.Div0.mod_add. }
      split; [|split].
      * rewrite Hrun, add_vectors_embedded_add, Hdiv. cbn [Nat.add].
        pose proof (Nat.Div0.mod_le (length chunks) 10).
        cbn [length Nat.add] in Hlen.
        replace (S (vn + length chunks / 10))
          with (vn + S (length chunks / 10)) by lia.
        replace (length acc + 1 + (length chunks - length rest))
          with (length acc + S (length chunks) - length rest) by lia.
        done.
      * by rewrite Hmod, Hlen.
      * rewrite Hix. cbn [app fmap list_fmap].
        by rewrite <- foldl_app, <- app_assoc.
    + destruct (IH (acc ++ [v]) ix vn s)
        as (rest & ix' & Hrun & Hlen & Hix);
        [rewrite length_app in *; cbn in *; lia|set_solver|].
      exists rest, ix'. rewrite length_app in *. cbn [length] in *.
      replace (length acc + 1 + length chunks)
        with (length acc + S (length chunks)) in * by lia.
      split; [done|]. split; [done|].
      rewrite Hix. cbn [fmap list_fmap]. by rewrite <- app_assoc.
Qed.

Lemma clear_existing_vectors_run ix vn s :
  clear_existing_vectors (at_vectors ix vn s)
  = (Ok tt,
     at_vectors [] (vn + 1 + (if bool_decide (ix = []) then 0 else 1)) s).
Proof.
  unfold clear_existing_vectors, index_info, index_reset.
  apply try_except_ok.
  erewrite bind_ok; cycle 1.
  { unfold vector_call, world_at. world_simpl. by rewrite vector_ok. }
  destruct ix as [|v ix].
  - cbn. unfold ret, world_at. do 3 f_equal. lia.
  - cbn [length]. rewrite bool_decide_eq_true_2 by lia.
    rewrite bool_decide_eq_false_2 by done.
    unfold vector_call, world_at. world_simpl. rewrite vector_ok.
    do 3 f_equal. lia.
Qed.

Lemma generate_vector_embeddings_run chunks ix vn s :
  (forall ref, ref ∈ chunks -> is_Some (metadata (h ref) !! "vector_id")) ->
  generate_vector_embeddings chunks (at_vectors ix vn s)
  = (Ok tt,
     at_vectors (foldl upsert_one [] (vector_of <$> (h <$> chunks)))
       (vn + 1 + (if bool_decide (ix = []) then 0 else 1)
        + (length chunks + 9) / 10)
       (add_vectors_embedded (length chunks) s)).
Proof.
  intros Hids. unfold generate_vector_embeddings.
  destruct (embed_chunks_run chunks [] []
              (vn + 1 + (if bool_decide (ix = []) then 0 else 1)) s
              ltac:(cbn; unfold batch_size; lia) Hids)
    as (rest & ix2 & Hrun & Hlen & Hix).
  cbn [length Nat.add app] in *. unfold batch_size in *.
  apply try_except_ok.
  erewrite bind_ok by apply clear_existing_vectors_run.
  erewrite bind_ok by exact Hrun.
  rewrite batches_of. pose proof (Nat.Div0.mod_le (length chunks) 10).
  destruct rest as [|v rest].
  - cbn [length] in Hlen. rewrite (bool_decide_eq_true_2 (length chunks mod 10 = 0))
      by (symmetry; exact Hlen).
    cbn [foldl] in Hix. subst ix2. cbn [length].
    rewrite Nat.sub_0_r, !Nat.add_0_r. reflexivity.
  - cbv beta iota.
    rewrite (_upsert_vector_batch_at w0 vector_ok), add_vectors_embedded_add.
    rewrite (bool_decide_eq_false_2 (length chunks mod 10 = 0))
      by (intros E; rewrite E in Hlen; discriminate Hlen).
    rewrite Hix.
    replace (length chunks - length (v :: rest) + length (v :: rest))
      with (length chunks) by lia.
    replace (S (vn + 1 + (if bool_decide (ix = []) then 0 else 1)
                + length chunks / 10))
      with (vn + 1 + (if bool_decide (ix = []) then 0 else 1)
            + (length chunks / 10 + 1)) by lia.
    reflexivity.
Qed.

End VectorRun.

(** X12. With a vector store that answers and chunks that all hold a
    vector id, [generate_vector_embeddings] returns, the index holds the
    vectors of these chunks and nothing of what it held before (one vector
    per id, in order when the ids are distinct), the store has been called
    once for its size, once more to reset a non-empty index and once per
    batch of ten chunks, and every chunk is counted. *)
Theorem generate_vector_embeddings_replaces_index chunks w :
  vector_reliable w ->
  (forall ref, ref ∈ chunks -> is_Some (metadata (heap w ref) !! "vector_id")) ->
  exists w',
    generate_vector_embeddings chunks w = (Ok tt, w')
    /\ vector_index w'
       = foldl upsert_one [] (vector_of <$> (heap w <$> chunks))
    /\ (NoDup (v_id <$> (vector_of <$> (heap w <$> chunks))) ->
        vector_index w' = vector_of <$> (heap w <$> chunks))
    /\ vector_calls w'
       = vector_calls w + 1
         + (if bool_decide (vector_index w = []) then 0 else 1)
         + (length chunks + 9) / 10
    /\ vectors_embedded (stats w')
       = vectors_embedded (stats w) + length chunks
    /\ errors_encountered (stats w') = errors_encountered (stats w)
    /\ slept w' = slept w.
Proof.
  intros Hok Hids.
  pose proof (generate_vector_embeddings_run w Hok (committed w) (pending w)
                (sequences w) (db_calls w) (slept w) (heap w) (heap_next w)
                (log w) chunks (vector_index w) (vector_calls w) (stats w)
                Hids) as Hrun.
  replace (world_at w (committed w) (pending w) (sequences w) (db_calls w)
             (vector_index w) (vector_calls w) (slept w) (stats w) (heap w)
             (heap_next w) (log w)) with w in Hrun by (by destruct w).
  eexists. split; [exact Hrun|]. unfold world_at. world_simpl.
  repeat split; try done; try (by destruct (stats w)).
  intros Hnd. by apply (foldl_upsert_fresh _ []).
Qed.

Lemma clear_existing_vectors_effect w :
  exists w0,
    clear_existing_vectors w = (Ok tt, w0)
    /\ stats w0 = stats w
    /\ heap w0 = heap w
    /\ committed w0 = committed w
    /\ slept w0 = slept w
    /\ vector_index w0
       = (if vector_fails w (vector_calls w) then vector_index w
          else if vector_fails w (S (vector_calls w)) then vector_index w
          else [])
    /\ vector_calls w < vector_calls w0 <= vector_calls w + 2.
Proof.
  unfold clear_existing_vectors, try_except, index_info, index_reset,
    vector_call, mbind, M_bind, bind, ret.
  destruct (vector_fails w (vector_calls w)) eqn:F0.
  { eexists. split; [done|]. world_simpl. repeat split; try done; lia. }
  case_bool_decide as Hlen; world_simpl;
    destruct (vector_fails w (S (vector_calls w))) eqn:F1;
    (eexists; split; [done|]; world_simpl; repeat split; try done; try lia);
    destruct (vector_index w); try done; cbn in Hlen; lia.
Qed.

(** X13. Clearing the index at the start of
    [generate_vector_embeddings] never raises and counts no error: when
    the size request or the reset fails the index is left as it was,
    otherwise it is empty. *)
Theorem clearing_never_raises w :
  exists w0,
    clear_existing_vectors w = (Ok tt, w0)
    /\ stats w0 = stats w
    /\ vector_index w0
       = (if vector_fails w (vector_calls w) then vector_index w
          else if vector_fails w (S (vector_calls w)) then vector_index w
          else []).
Proof.
  destruct (clear_existing_vectors_effect w) as (w0 & H & Hs & _ & _ & _ & Hix & _).
  by exists w0.
Qed.

Lemma embed_chunks_small chunks : forall acc w,
  length acc + length chunks < batch_size ->
  (forall ref, ref ∈ chunks -> is_Some (metadata (heap w ref) !! "vector_id")) ->
  embed_chunks chunks acc w
  = (Ok (acc ++ (vector_of <$> (heap w <$> chunks))), w).
Proof.
  unfold batch_size.
  induction chunks as [|ref chunks IH]; intros acc w Hlen Hids.
  - cbn. by rewrite app_nil_r.
  - destruct (Hids ref ltac:(set_solver)) as [id Hid].
    cbn [embed_chunks length] in *. unfold mbind, M_bind, bind, deref.
    rewrite Hid. cbn [ret].
    rewrite bool_decide_eq_false_2
      by (unfold batch_size; rewrite length_app; cbn; lia).
    rewrite IH; [|rewrite length_app; cbn; lia|set_solver].
    cbn [fmap list_fmap]. unfold vector_of at 2. rewrite Hid.
    by rewrite <- app_assoc.
Qed.

(** X14. A chunk without 'vector_id' among the first batch makes
    [generate_vector_embeddings] raise KeyError: no vector is counted, one
    error is counted and, unless the clearing failed, the index is left
    empty. *)
Theorem missing_vector_id_aborts pre ref post w :
  length pre < batch_size ->
  (forall r, r ∈ pre -> is_Some (metadata (heap w r) !! "vector_id")) ->
  metadata (heap w ref) !! "vector_id" = None ->
  exists w',
    generate_vector_embeddings (pre ++ ref :: post) w = (Raise KeyError, w')
    /\ vectors_embedded (stats w') = vectors_embedded (stats w)
    /\ errors_encountered (stats w') = errors_encountered (stats w) + 1
    /\ vector_index w'
       = (if vector_fails w (vector_calls w) then vector_index w
          else if vector_fails w (S (vector_calls w)) then vector_index w
          else []).
Proof.
  intros Hlen Hids Hnone.
  destruct (clear_existing_vectors_effect w)
    as (w0 & Hclear & Hs & Hh & _ & _ & Hix & _).
  exists (set_stats (add_errors_encountered 1 (stats w0)) w0).
  split.
  - unfold generate_vector_embeddings, try_except.
    erewrite bind_ok by exact Hclear.
    unfold mbind at 1, M_bind at 1, bind at 1.
    rewrite embed_chunks_app.
    erewrite bind_ok; cycle 1.
    { apply embed_chunks_small; [cbn; lia|]. by rewrite Hh. }
    cbn [embed_chunks]. unfold mbind, M_bind, bind, deref.
    by rewrite Hh, Hnone.
  - world_simpl. rewrite Hs. repeat split; try done; by destruct (stats w).
Qed.

Lemma first_some_Some {A B : Type} (f : A -> option B) l y :
  first_some f l = Some y -> exists x, x ∈ l /\ f x = Some y.
Proof.
  induction l as [|x l IH]; [done|]. cbn.
  destruct (f x) as [y'|] eqn:E.
  - intros [= <-]. exists x. split; [left|done].
  - intros H. destruct (IH H) as (x' & Hx' & Hf). exists x'.
    split; [by right|done].
Qed.

Lemma month_alternatives_range s v s' :
  (v, s') ∈ month_alternatives s -> (1 <= v <= 12)%N.
Proof.
  unfold month_alternatives. rewrite !elem_of_app.
  intros [H|[H|H]].
  - destruct s as [|a [|b rest]]; try by apply elem_of_nil in H.
    destruct ((a =? 49) && (48 <=? b) && (b <=? 50))%N eqn:E;
      [|by apply elem_of_nil in H].
    apply list_elem_of_singleton in H. injection H as -> _.
    apply andb_true_iff in E as [E E3]. apply andb_true_iff in E as [E1 E2].
    apply N.leb_le in E2, E3. lia.
  - destruct s as [|a [|b rest]]; try by apply elem_of_nil in H.
    destruct ((a =? 48) && (49 <=? b) && (b <=? 57))%N eqn:E;
      [|by apply elem_of_nil in H].
    apply list_elem_of_singleton in H. injection H as -> _.
    apply andb_true_iff in E as [E E3]. apply andb_true_iff in E as [E1 E2].
    apply N.leb_le in E2, E3. lia.
  - destruct s as [|a rest]; try by apply elem_of_nil in H.
    destruct ((49 <=? a) && (a <=? 57))%N eqn:E;
      [|by apply elem_of_nil in H].
    apply list_elem_of_singleton in H. injection H as -> _.
    apply andb_true_iff in E as [E1 E2].
    apply N.leb_le in E1, E2. lia.
Qed.

Lemma name_alternatives_range names s v s' :
  Forall (fun nk => (1 <= nk.2 <= 12)%N) names ->
  (v, s') ∈ name_alternatives names s -> (1 <= v <= 12)%N.
Proof.
  intros Hnames. unfold name_alternatives.
  intros H. apply list_elem_of_In, in_flat_map in H as ([name k] & Hin & H).
  apply list_elem_of_In in Hin.
  destruct (startswith name (lower s)); [|done].
  destruct H as [[= <- _]|[]].
  by apply (proj1 (Forall_forall _ _) Hnames (name, k)).
Qed.

Lemma full_month_names_range :
  Forall (fun nk => (1 <= nk.2 <= 12)%N) full_month_names.
Proof. repeat constructor; cbn; lia. Qed.

Lemma abbr_month_names_range :
  Forall (fun nk => (1 <= nk.2 <= 12)%N) abbr_month_names.
Proof. repeat constructor; cbn; lia. Qed.

Section DateInvariants.

Variable unicode_decimal : N -> option N.

Lemma re_match_month items : forall s y m y' m' rest,
  month_in_range m ->
  re_match unicode_decimal items s y m = Some (y', m', rest) ->
  month_in_range m'.
Proof.
  induction items as [|item items IH]; intros s y m y' m' rest Hm H.
  - cbn in H. by injection H as _ <- _.
  - destruct item; cbn [re_match] in H.
    + destruct (take_year unicode_decimal s) as [[v s']|]; [|done].
      by eapply IH.
    + apply first_some_Some in H as ([v s'] & Hin & H).
      eapply IH; [|exact H]. by eapply month_alternatives_range.
    + apply first_some_Some in H as ([v s'] & Hin & H).
      eapply IH; [|exact H].
      by eapply name_alternatives_range; [apply full_month_names_range|].
    + apply first_some_Some in H as ([v s'] & Hin & H).
      eapply IH; [|exact H].
      by eapply name_alternatives_range; [apply abbr_month_names_range|].
    + destruct s as [|c s']; [done|]. destruct (isspace c); [|done].
      by eapply IH.
    + destruct s as [|c' s']; [done|].
      destruct (lower_cp c' =? lower_cp c)%N; [|done]. by eapply IH.
    + done.
Qed.

Lemma strptime_first_of_month s fmt d :
  strptime unicode_decimal s fmt = Ok d -> first_of_month d.
Proof.
  unfold strptime.
  destruct (re_match _ _ _ _ _) as [[[y m] [|? ?]]|] eqn:E; try done.
  destruct (default 1900 y =? 0)%N eqn:Ey; [done|].
  intros [= <-]. apply N.eqb_neq in Ey.
  apply re_match_month in E; [|done].
  unfold first_of_month. cbn. repeat split; try lia;
    destruct m as [k|]; cbn in *; lia.
Qed.

Lemma parse_date_loop_valid s fmts d :
  parse_date_loop unicode_decimal s fmts = Ok d -> valid_date d.
Proof.
  induction fmts as [|fmt fmts IH]; cbn [parse_date_loop].
  - by intros [= <-].
  - destruct (strptime unicode_decimal s fmt) as [d'|e] eqn:E.
    + intros [= <-]. by eapply strptime_first_of_month.
    + rewrite (strptime_raises _ _ _ _ E). exact IH.
Qed.

Lemma parse_date_valid s d :
  parse_date unicode_decimal s = Ok d -> valid_date d.
Proof.
  destruct s as [|c s]; [by intros [= <-]|].
  apply parse_date_loop_valid.
Qed.

End DateInvariants.

(** X15. Every date [parse_date] returns is the first day of a month:
    the year is at least 1, the month lies between 1 and 12 and the day
    is 1. *)
Theorem parse_date_first_of_month unicode_decimal date_str d :
  parse_date unicode_decimal date_str = Ok (Some d) ->
  (1 <= year d)%N /\ (1 <= month d <= 12)%N /\ day d = 1%N.
Proof. intros H. exact (parse_date_valid unicode_decimal _ _ H). Qed.

(** X16. When [parse_duration] reports a current position the end date
    is None, and the dates it returns are first days of a month. *)
Theorem parse_duration_invariants unicode_decimal duration_str
    start_date end_date current :
  parse_duration unicode_decimal duration_str
  = Ok (start_date, end_date, current) ->
  (current = true -> end_date = None)
  /\ valid_date start_date
  /\ valid_date end_date.
Proof.
  unfold parse_duration. destruct duration_str as [|c s].
  { by intros [= <- <- <-]. }
  destruct (split _ _) as [|p0 [|p1 rest]];
    try by intros [= <- <- <-].
  destruct (parse_date unicode_decimal (strip p0)) as [d0|e] eqn:E0;
    [|by intros [= <- <- <-]].
  destruct (is_current (c :: s)) eqn:Ec.
  - intros [= <- <- <-]. repeat split; try done.
    by eapply parse_date_valid.
  - destruct (parse_date unicode_decimal (strip p1)) as [d1|e] eqn:E1;
      intros [= <- <- <-]; repeat split; try done;
      by eapply parse_date_valid.
Qed.

Lemma month_cases (m : N) :
  (1 <= m <= 12)%N ->
  m ∈ [1; 2; 3; 4; 5; 6; 7; 8; 9; 10; 11; 12]%N.
Proof.
  intros H. rewrite <- (N2Nat.id m).
  assert (Hk : N.to_nat m <= 12) by lia.
  assert (Hk0 : 1 <= N.to_nat m) by lia.
  destruct (N.to_nat m) as [|k]; [lia|].
  do 12 (destruct k as [|k]; [cbn; by repeat constructor|]). lia.
Qed.

Section NumericDates.

Variable unicode_decimal : N -> option N.

Lemma digit_value_ascii x :
  (x <= 9)%N -> digit_value unicode_decimal (48 + x) = Some x.
Proof.
  intros H. unfold digit_value.
  replace (48 + x <? 128)%N with true by (symmetry; apply N.ltb_lt; lia).
  replace (48 <=? 48 + x)%N with true by (symmetry; apply N.leb_le; lia).
  replace (48 + x <=? 57)%N with true by (symmetry; apply N.leb_le; lia).
  cbn. f_equal. lia.
Qed.

Lemma take_year_digits a b c d rest :
  (a <= 9)%N -> (b <= 9)%N -> (c <= 9)%N -> (d <= 9)%N ->
  take_year unicode_decimal (year_digits a b c d ++ rest)
  = Some (year_value a b c d, rest).
Proof.
  intros. unfold take_year, year_digits. cbn [app].
  by rewrite !digit_value_ascii.
Qed.

(** A string that does not open with an ASCII digit has no year and no
    month at its head. *)
Lemma take_year_no_digit c s :
  (c < 128)%N -> is_digit c = false -> take_year unicode_decimal (c :: s) = None.
Proof.
  intros Hc Hd. unfold take_year.
  destruct s as [|b [|c' [|d rest]]]; try done.
  unfold digit_value at 1.
  replace (c <? 128)%N with true by (symmetry; by apply N.ltb_lt).
  unfold is_digit in Hd. by rewrite Hd.
Qed.

End NumericDates.

Lemma month_alternatives_no_digit c s :
  is_digit c = false -> month_alternatives (c :: s) = [].
Proof.
  unfold is_digit, month_alternatives. intros Hd.
  apply andb_false_iff in Hd.
  assert (H49 : (c =? 49)%N = false \/ True) by (by right).
  assert (E1 : (c =? 49)%N = false).
  { apply N.eqb_neq. intros ->. by destruct Hd. }
  assert (E2 : (c =? 48)%N = false).
  { apply N.eqb_neq. intros ->. by destruct Hd. }
  assert (E3 : ((49 <=? c) && (c <=? 57))%N = false).
  { apply andb_false_iff. destruct Hd as [Hd|Hd]; [left|by right].
    apply N.leb_gt. apply N.leb_gt in Hd. lia. }
  rewrite E3. destruct s as [|b rest]; [done|].
  by rewrite E1, E2.
Qed.

Lemma formats_compiled :
  map compile_format formats
  = [[FYear; FLit 45; FMonth]; [FYear; FLit 47; FMonth];
     [FMonth; FLit 47; FYear]; [FYear];
     [FMonthName; FSpace; FYear]; [FMonthAbbr; FSpace; FYear]]%N.
Proof. reflexivity. Qed.

Lemma lower_cp_digit x : (x <= 9)%N -> lower_cp (48 + x) = (48 + x)%N.
Proof.
  intros H. unfold lower_cp.
  replace (48 + x <=? 90)%N with true by (symmetry; apply N.leb_le; lia).
  replace (65 <=? 48 + x)%N with false by (symmetry; apply N.leb_gt; lia).
  done.
Qed.

Section NumericFormats.

Variable unicode_decimal : N -> option N.
Variables a b c d : N.
Hypothesis Ha : (a <= 9)%N.
Hypothesis Hb : (b <= 9)%N.
Hypothesis Hc : (c <= 9)%N.
Hypothesis Hd : (d <= 9)%N.
Hypothesis Hyear : year_value a b c d ≠ 0%N.

Local Abbreviation Y := (year_digits a b c d).
Local Abbreviation y := (year_value a b c d).

Lemma take_year_third c0 c1 c2 s :
  digit_value unicode_decimal c2 = None ->
  take_year unicode_decimal (c0 :: c1 :: c2 :: s) = None.
Proof.
  intros H. unfold take_year. destruct s as [|c3 rest]; [done|].
  rewrite H.
  by destruct (digit_value unicode_decimal c0),
    (digit_value unicode_decimal c1).
Qed.

Lemma year_accepted (m : option N) :
  (if (default 1900 (Some y) =? 0)%N then Raise ValueError
   else Ok (mk_datetime (default 1900%N (Some y)) (default 1%N m) 1))
  = Ok (mk_datetime y (default 1%N m) 1).
Proof.
  change (default 1900%N (Some y)) with y.
  by rewrite (proj2 (N.eqb_neq _ _) Hyear).
Qed.

(** "YYYY<sep>MM" under the format "%Y<sep>%m". *)
Lemma strptime_year_month (sep : N) (fmt : str) m :
  compile_format fmt = [FYear; FLit sep; FMonth] ->
  (1 <= m <= 12)%N ->
  strptime unicode_decimal (Y ++ [sep] ++ month_digits m) fmt
  = Ok (mk_datetime y m 1).
Proof.
  intros Hfmt Hm. unfold strptime. rewrite Hfmt. cbn [re_match].
  rewrite (take_year_digits _ _ _ _ _ _ Ha Hb Hc Hd).
  cbn [app]. rewrite N.eqb_refl.
  pose proof year_accepted as Hy. revert Hy.
  generalize y as v. intros v Hy.
  apply month_cases in Hm.
  repeat (apply elem_of_cons in Hm as [->|Hm]; [exact (Hy (Some _))|]).
  by apply elem_of_nil in Hm.
Qed.

(** The same string under a format with another separator. *)
Lemma strptime_other_separator (sep sep' : N) (fmt : str) s :
  compile_format fmt = [FYear; FLit sep'; FMonth] ->
  lower_cp sep ≠ lower_cp sep' ->
  strptime unicode_decimal (Y ++ [sep] ++ s) fmt = Raise ValueError.
Proof.
  intros Hfmt Hsep. unfold strptime. rewrite Hfmt. cbn [re_match].
  rewrite (take_year_digits _ _ _ _ _ _ Ha Hb Hc Hd).
  cbn [app]. by rewrite (proj2 (N.eqb_neq _ _) Hsep).
Qed.

(** "MM<sep>YYYY" under the formats that open with the year. *)
Lemma strptime_month_first_no_year (fmt : str) items m :
  compile_format fmt = FYear :: items ->
  strptime unicode_decimal (month_digits m ++ [47%N] ++ Y) fmt
  = Raise ValueError.
Proof.
  intros Hfmt. unfold strptime. rewrite Hfmt. cbn [re_match].
  unfold month_digits. cbn [app]. by rewrite take_year_third.
Qed.

(** "MM/YYYY" under "%m/%Y". *)
Lemma strptime_month_year m :
  (1 <= m <= 12)%N ->
  strptime unicode_decimal (month_digits m ++ [47%N] ++ Y) (py "%m/%Y")
  = Ok (mk_datetime y m 1).
Proof.
  intros Hm. unfold strptime.
  change (compile_format (py "%m/%Y")) with [FMonth; FLit 47%N; FYear].
  pose proof (take_year_digits unicode_decimal a b c d [] Ha Hb Hc Hd) as Hty.
  rewrite app_nil_r in Hty.
  pose proof year_accepted as Hy. revert Hty Hy.
  generalize Y as s, y as v. intros s v Hty Hy.
  apply month_cases in Hm.
  repeat (apply elem_of_cons in Hm as [->|Hm];
          [match goal with
           | |- context [month_digits ?k] =>
               let t := eval vm_compute in (month_digits k) in
               change (month_digits k) with t
           end;
           cbn; rewrite Hty; exact (Hy (Some _))|]).
  by apply elem_of_nil in Hm.
Qed.

Lemma digit_not_slash x :
  (x <= 9)%N -> (lower_cp (48 + x) =? lower_cp 47)%N = false.
Proof.
  intros Hx. rewrite lower_cp_digit by done.
  apply N.eqb_neq. change (lower_cp 47) with 47%N. lia.
Qed.

(** "YYYY" under "%m/%Y": whatever month the digits open with, a digit
    follows where the format has its slash. *)
Lemma strptime_year_no_month :
  strptime unicode_decimal Y (py "%m/%Y") = Raise ValueError.
Proof.
  unfold strptime.
  change (compile_format (py "%m/%Y")) with [FMonth; FLit 47%N; FYear].
  cbn [re_match].
  replace (first_some _ (month_alternatives Y)) with
    (@None (option N * option N * str)); [done|].
  symmetry. unfold month_alternatives, year_digits.
  destruct ((48 + a =? 49) && (48 <=? 48 + b) && (48 + b <=? 50))%N;
    destruct ((48 + a =? 48) && (49 <=? 48 + b) && (48 + b <=? 57))%N;
    destruct ((49 <=? 48 + a) && (48 + a <=? 57))%N;
    cbn [app first_some]; by rewrite ?digit_not_slash.
Qed.

Lemma strptime_year_alone (fmt : str) sep items :
  compile_format fmt = FYear :: FLit sep :: items ->
  strptime unicode_decimal Y fmt = Raise ValueError.
Proof.
  intros Hfmt. unfold strptime. rewrite Hfmt. cbn [re_match].
  pose proof (take_year_digits unicode_decimal a b c d [] Ha Hb Hc Hd) as Hty.
  rewrite app_nil_r in Hty. by rewrite Hty.
Qed.

Lemma strptime_year :
  strptime unicode_decimal Y (py "%Y") = Ok (mk_datetime y 1 1).
Proof.
  unfold strptime. change (compile_format (py "%Y")) with [FYear].
  cbn [re_match].
  pose proof (take_year_digits unicode_decimal a b c d [] Ha Hb Hc Hd) as Hty.
  rewrite app_nil_r in Hty. rewrite Hty. exact (year_accepted None).
Qed.

End NumericFormats.

(** X17. For a four-digit year other than 0000 and a two-digit month,
    [parse_date] reads 'YYYY-MM', 'YYYY/MM' and 'MM/YYYY' as the first day
    of that month, and 'YYYY' alone as the first of January. *)
Theorem parse_date_numeric unicode_decimal (a b c d m : N) :
  (a <= 9)%N -> (b <= 9)%N -> (c <= 9)%N -> (d <= 9)%N ->
  year_value a b c d ≠ 0%N ->
  (1 <= m <= 12)%N ->
  parse_date unicode_decimal (year_digits a b c d ++ py "-" ++ month_digits m)
  = Ok (Some (mk_datetime (year_value a b c d) m 1))
  /\ parse_date unicode_decimal
       (year_digits a b c d ++ py "/" ++ month_digits m)
     = Ok (Some (mk_datetime (year_value a b c d) m 1))
  /\ parse_date unicode_decimal
       (month_digits m ++ py "/" ++ year_digits a b c d)
     = Ok (Some (mk_datetime (year_value a b c d) m 1))
  /\ parse_date unicode_decimal (year_digits a b c d)
     = Ok (Some (mk_datetime (year_value a b c d) 1 1)).
Proof.
  intros Ha Hb Hc Hd Hy Hm.
  assert (Hcons : forall s,
            s ≠ [] ->
            parse_date unicode_decimal s
            = parse_date_loop unicode_decimal s formats) by (by intros []).
  change (py "-") with [45%N]. change (py "/") with [47%N].
  repeat split; (rewrite Hcons by done); unfold formats; cbn [parse_date_loop].
  - by rewrite (strptime_year_month unicode_decimal a b c d Ha Hb Hc Hd Hy
                  45%N (py "%Y-%m") m eq_refl Hm).
  - rewrite (strptime_other_separator unicode_decimal a b c d Ha Hb Hc Hd
               47%N 45%N (py "%Y-%m") _ eq_refl) by done.
    by rewrite (strptime_year_month unicode_decimal a b c d Ha Hb Hc Hd Hy
                  47%N (py "%Y/%m") m eq_refl Hm).
  - rewrite (strptime_month_first_no_year unicode_decimal a b c d
               (py "%Y-%m") _ m eq_refl).
    rewrite (strptime_month_first_no_year unicode_decimal a b c d
               (py "%Y/%m") _ m eq_refl).
    by rewrite strptime_month_year.
  - rewrite (strptime_year_alone unicode_decimal a b c d Ha Hb Hc Hd
               (py "%Y-%m") _ _ eq_refl).
    rewrite (strptime_year_alone unicode_decimal a b c d Ha Hb Hc Hd
               (py "%Y/%m") _ _ eq_refl).
    rewrite strptime_year_no_month by done.
    by rewrite strptime_year.
Qed.

Lemma startswith_app_false p : forall a t,
  startswith p a = false -> startswith a p = false ->
  startswith p (a ++ t) = false.
Proof.
  induction p as [|x p IH]; intros [|y a] t Hpa Hap; try done.
  cbn in *. destruct (x =? y)%N eqn:E; [|done].
  apply N.eqb_eq in E as ->. rewrite N.eqb_refl in Hap. cbn in *.
  by apply IH.
Qed.

Lemma startswith_app_self p t : startswith p (p ++ t) = true.
Proof. induction p as [|x p IH]; [done|]. cbn. by rewrite N.eqb_refl. Qed.

Lemma name_alternatives_word names v name rest :
  lower v = name ->
  separated names name = true ->
  name_alternatives names (v ++ 32%N :: rest)
  = (fun nk => (nk.2, 32%N :: rest)) <$> filter (fun nk => nk.1 = name) names.
Proof.
  intros Hv Hsep. unfold name_alternatives.
  assert (Hlower : lower (v ++ 32%N :: rest) = (name ++ [32%N]) ++ lower rest).
  { unfold lower. rewrite map_app. fold (lower v). rewrite Hv.
    by rewrite <- app_assoc. }
  rewrite Hlower. clear Hlower.
  induction names as [|[name' k'] names IH]; [done|].
  cbn [separated forallb] in Hsep. apply andb_true_iff in Hsep as [H1 Hsep].
  cbn [flat_map]. rewrite IH by exact Hsep. clear IH.
  rewrite filter_cons. cbn [fst] in *. case_decide as Hname.
  - subst name'. rewrite <- app_assoc, startswith_app_self.
    cbn [fmap list_fmap app snd]. do 2 f_equal.
    rewrite <- Hv. unfold lower. rewrite length_map.
    by rewrite drop_app_length.
  - rewrite bool_decide_eq_false_2 in H1 by done. cbn in H1.
    apply andb_true_iff in H1 as [Ha Hb].
    apply negb_true_iff in Ha, Hb.
    by rewrite startswith_app_false.
Qed.

Lemma letter_of_lower c x :
  lower_cp c = x -> (97 <= x <= 122)%N -> (c < 128)%N /\ is_digit c = false.
Proof.
  unfold lower_cp, is_digit. intros H Hx.
  destruct ((65 <=? c) && (c <=? 90))%N eqn:E.
  - apply andb_true_iff in E as [E1 E2]. apply N.leb_le in E1, E2.
    split; [lia|]. apply andb_false_iff. right. apply N.leb_gt. lia.
  - subst x. split; [lia|]. apply andb_false_iff. right. apply N.leb_gt. lia.
Qed.

Lemma isspace_digit x : (x <= 9)%N -> isspace (48 + x) = false.
Proof.
  intros H. unfold isspace.
  repeat match goal with
  | |- context [(?u <=? ?v)%N] =>
      first [ replace (u <=? v)%N with true by (symmetry; apply N.leb_le; lia)
            | replace (u <=? v)%N with false by (symmetry; apply N.leb_gt; lia) ]
  | |- context [(?u =? ?v)%N] =>
      replace (u =? v)%N with false by (symmetry; apply N.eqb_neq; lia)
  end.
  done.
Qed.

Section MonthNames.

Variable unicode_decimal : N -> option N.
Variables a b c d : N.
Hypothesis Ha : (a <= 9)%N.
Hypothesis Hb : (b <= 9)%N.
Hypothesis Hc : (c <= 9)%N.
Hypothesis Hd : (d <= 9)%N.
Hypothesis Hyear : year_value a b c d ≠ 0%N.

Local Abbreviation Y := (year_digits a b c d).
Local Abbreviation y := (year_value a b c d).

(** A word, a space and a year under a format of a month name, a space
    and a year. *)
Lemma strptime_name_year item names fmt v name :
  compile_format fmt = [item; FSpace; FYear] ->
  (forall items s yr mo,
     re_match unicode_decimal (item :: items) s yr mo
     = first_some (fun '(k, s') => re_match unicode_decimal items s' yr (Some k))
         (name_alternatives names s)) ->
  lower v = name ->
  separated names name = true ->
  strptime unicode_decimal (v ++ [32%N] ++ Y) fmt
  = match month_named names name with
    | Some k => Ok (mk_datetime y k 1)
    | None => Raise ValueError
    end.
Proof.
  intros Hfmt Hitem Hv Hsep. unfold strptime, month_named.
  rewrite Hfmt, Hitem. cbn [app].
  rewrite (name_alternatives_word names v name _ Hv Hsep).
  destruct (filter _ names) as [|[name' k] l]; [done|].
  cbn [fmap list_fmap first_some head option_fmap option_map snd re_match].
  change (isspace 32) with true. cbv iota.
  assert (Hstrip : lstrip Y = Y).
  { unfold year_digits. cbn [lstrip]. by rewrite isspace_digit. }
  rewrite Hstrip.
  pose proof (take_year_digits unicode_decimal a b c d [] Ha Hb Hc Hd) as Hty.
  rewrite app_nil_r in Hty. rewrite Hty.
  exact (year_accepted a b c d Hyear (Some k)).
Qed.

(** A string that opens with a letter under the numeric formats. *)
Lemma strptime_letter_first c0 s fmt items :
  (c0 < 128)%N -> is_digit c0 = false ->
  compile_format fmt = FYear :: items \/ compile_format fmt = FMonth :: items ->
  strptime unicode_decimal (c0 :: s) fmt = Raise ValueError.
Proof.
  intros H1 H2 [Hfmt|Hfmt]; unfold strptime; rewrite Hfmt; cbn [re_match].
  - by rewrite take_year_no_digit.
  - by rewrite month_alternatives_no_digit.
Qed.

Lemma parse_date_word v name k :
  lower v = name ->
  match name with x :: _ => (97 <=? x)%N && (x <=? 122)%N | [] => false end
  = true ->
  separated full_month_names name = true ->
  month_named full_month_names name = Some k
  \/ (month_named full_month_names name = None
      /\ separated abbr_month_names name = true
      /\ month_named abbr_month_names name = Some k) ->
  parse_date unicode_decimal (v ++ [32%N] ++ Y)
  = Ok (Some (mk_datetime y k 1)).
Proof.
  intros Hv Hletter Hfull Hk.
  destruct v as [|c0 v'];
    [by rewrite <- Hv in Hletter|].
  assert (Hc0 : (c0 < 128)%N /\ is_digit c0 = false).
  { rewrite <- Hv in Hletter. cbn in Hletter.
    apply andb_true_iff in Hletter as [H1 H2]. apply N.leb_le in H1, H2.
    by apply (letter_of_lower c0 (lower_cp c0)). }
  destruct Hc0 as [Hc1 Hc2].
  pose proof (strptime_name_year FMonthName full_month_names (py "%B %Y")
                (c0 :: v') name eq_refl ltac:(done) Hv Hfull) as HB.
  unfold parse_date. cbn [app] in *. unfold formats. cbn [parse_date_loop].
  rewrite (strptime_letter_first c0 _ (py "%Y-%m") _ Hc1 Hc2 (or_introl eq_refl)).
  rewrite (strptime_letter_first c0 _ (py "%Y/%m") _ Hc1 Hc2 (or_introl eq_refl)).
  rewrite (strptime_letter_first c0 _ (py "%m/%Y") _ Hc1 Hc2 (or_intror eq_refl)).
  rewrite (strptime_letter_first c0 _ (py "%Y") _ Hc1 Hc2 (or_introl eq_refl)).
  rewrite HB.
  destruct Hk as [->|(-> & Habbr & Hk)]; [done|].
  pose proof (strptime_name_year FMonthAbbr abbr_month_names (py "%b %Y")
                (c0 :: v') name eq_refl ltac:(done) Hv Habbr) as Hb'.
  cbn [app] in Hb'. by rewrite Hb', Hk.
Qed.

End MonthNames.

(** X18. [parse_date] reads an English month name or its three-letter
    abbreviation, in any letter case, followed by a space and a four-digit
    year other than 0000, as the first day of that month. *)
Theorem parse_date_month_names unicode_decimal (word name : str) (k a b c d : N) :
  (name, k) ∈ full_month_names ++ abbr_month_names ->
  lower word = name ->
  (a <= 9)%N -> (b <= 9)%N -> (c <= 9)%N -> (d <= 9)%N ->
  year_value a b c d ≠ 0%N ->
  parse_date unicode_decimal (word ++ py " " ++ year_digits a b c d)
  = Ok (Some (mk_datetime (year_value a b c d) k 1)).
Proof.
  intros Hin Hword Ha Hb Hc Hd Hy.
  change (py " ") with [32%N].
  apply (parse_date_word unicode_decimal a b c d Ha Hb Hc Hd Hy word name k Hword);
    unfold full_month_names, abbr_month_names in Hin; cbn [app] in Hin;
    repeat (apply elem_of_cons in Hin as [Hin|Hin];
            [injection Hin as -> ->;
             first [reflexivity | by left | by right]|]);
    by apply elem_of_nil in Hin.
Qed.

Ltac lookup_metadata :=
  cbn [metadata chunk_type personal_info_chunk experience_chunk
       technical_skills_chunk soft_skills_chunk project_chunk education_chunk];
  repeat first
    [ rewrite lookup_insert_eq
    | rewrite lookup_insert_ne by done
    | rewrite lookup_empty ];
  try done.

Lemma personal_info_chunk_fresh p pid :
  fresh_metadata pid (personal_info_chunk p pid).
Proof.
  unfold fresh_metadata, personal_info_chunk, chunk_types.
  repeat split; lookup_metadata. by repeat constructor.
Qed.

Lemma experience_chunk_fresh pid i exp :
  fresh_metadata pid (experience_chunk pid i exp).
Proof.
  unfold fresh_metadata, experience_chunk, chunk_types.
  repeat split; lookup_metadata. by repeat constructor.
Qed.

Lemma technical_skills_chunk_fresh pid g :
  fresh_metadata pid (technical_skills_chunk pid g).
Proof.
  unfold fresh_metadata, technical_skills_chunk, chunk_types.
  repeat split; lookup_metadata. by repeat constructor.
Qed.

Lemma soft_skills_chunk_fresh pid l :
  fresh_metadata pid (soft_skills_chunk pid l).
Proof.
  unfold fresh_metadata, soft_skills_chunk, chunk_types.
  repeat split; lookup_metadata. by repeat constructor.
Qed.

Lemma project_chunk_fresh pid i p :
  fresh_metadata pid (project_chunk pid i p).
Proof.
  unfold fresh_metadata, project_chunk, chunk_types.
  repeat split; lookup_metadata. by repeat constructor.
Qed.

Lemma education_chunk_fresh pid i e :
  fresh_metadata pid (education_chunk pid i e).
Proof.
  unfold fresh_metadata, education_chunk, chunk_types.
  repeat split; lookup_metadata. by repeat constructor.
Qed.

Lemma built_chunks_metadata_helper json_data professional_id :
  Forall (fresh_metadata professional_id)
    (create_content_chunks json_data professional_id).
Proof.
  unfold create_content_chunks. repeat (apply Forall_app; split).
  - unfold personal_info_chunks.
    destruct (personalInfo json_data) as [p|]; [|done].
    destruct (personal_info_truthy p); [|done].
    constructor; [apply personal_info_chunk_fresh|done].
  - apply Forall_imap. intros. apply experience_chunk_fresh.
  - unfold technical_skills_chunks. destruct (sk_technical _); [|done].
    apply Forall_fmap, Forall_forall. intros. apply technical_skills_chunk_fresh.
  - unfold soft_skills_chunks. destruct (sk_soft_skills _); [|done].
    constructor; [apply soft_skills_chunk_fresh|done].
  - apply Forall_imap. intros. apply project_chunk_fresh.
  - apply Forall_imap. intros. apply education_chunk_fresh.
Qed.

(** X8. Every chunk [create_content_chunks] builds carries the
    professional's id and its own chunk type as 'content_type' in its
    metadata, has one of the five chunk types, and has no 'chunk_id' and
    no 'vector_id' yet. *)
Theorem built_chunks_metadata json_data professional_id :
  Forall (fresh_metadata professional_id)
    (create_content_chunks json_data professional_id).
Proof. apply built_chunks_metadata_helper. Qed.

Lemma personal_info_truthy_members p :
  personal_info_truthy p = has_members (json_of_personal_info p).
Proof.
  destruct p as [[?|] [?|] [?|] [?|] [?|] [?|] [|? ?]]; reflexivity.
Qed.

(** X9. [create_content_chunks] builds, in this order: one chunk for
    [personalInfo] when that dictionary has a member (none when the
    section is absent or is the empty dictionary), one per experience, one
    per technical skill category, one for the soft skills whenever the key
    'soft_skills' is present (also with an empty list), one per project
    and one per education entry. *)
Theorem built_chunks_count json_data professional_id :
  length (create_content_chunks json_data professional_id)
  = (match personalInfo json_data with
     | Some p => if has_members (json_of_personal_info p) then 1 else 0
     | None => 0
     end)
    + length (get (experience json_data) [])
    + (match skills json_data with
       | Some sk =>
           length (get (sk_technical sk) [])
           + match sk_soft_skills sk with Some _ => 1 | None => 0 end
       | None => 0
       end)
    + length (get (projects json_data) [])
    + length (get (education json_data) [])
  /\ chunk_type <$> create_content_chunks json_data professional_id
     = (match personalInfo json_data with
        | Some p =>
            if has_members (json_of_personal_info p)
            then [py "personal_info"] else []
        | None => []
        end)
       ++ replicate (length (get (experience json_data) [])) (py "experience")
       ++ replicate (match skills json_data with
                     | Some sk =>
                         length (get (sk_technical sk) [])
                         + match sk_soft_skills sk with
                           | Some _ => 1
                           | None => 0
                           end
                     | None => 0
                     end) (py "skills")
       ++ replicate (length (get (projects json_data) [])) (py "project")
       ++ replicate (length (get (education json_data) [])) (py "education").
Proof.
  assert (Himap : forall {A} (f : nat -> A -> ContentChunk) t (l : list A),
            (forall i x, chunk_type (f i x) = t) ->
            chunk_type <$> imap f l = replicate (length l) t).
  { intros A f t l Hf. revert f Hf.
    induction l as [|x l IH]; intros f Hf; [done|].
    cbn. rewrite Hf. f_equal. apply IH. intros. apply Hf. }
  assert (Htypes :
    chunk_type <$> create_content_chunks json_data professional_id
     = (match personalInfo json_data with
        | Some p =>
            if has_members (json_of_personal_info p)
            then [py "personal_info"] else []
        | None => []
        end)
       ++ replicate (length (get (experience json_data) [])) (py "experience")
       ++ replicate (match skills json_data with
                     | Some sk =>
                         length (get (sk_technical sk) [])
                         + match sk_soft_skills sk with
                           | Some _ => 1
                           | None => 0
                           end
                     | None => 0
                     end) (py "skills")
       ++ replicate (length (get (projects json_data) [])) (py "project")
       ++ replicate (length (get (education json_data) [])) (py "education")).
  { unfold create_content_chunks. rewrite !fmap_app.
    unfold experience_chunks, project_chunks, education_chunks.
    rewrite (Himap _ _ (py "experience")), (Himap _ _ (py "project")),
      (Himap _ _ (py "education")) by done.
    f_equal; [|f_equal].
    - unfold personal_info_chunks.
      destruct (personalInfo json_data) as [p|]; [|done].
      rewrite <- personal_info_truthy_members.
      by destruct (personal_info_truthy p).
    - rewrite app_assoc. f_equal.
      unfold technical_skills_chunks, soft_skills_chunks.
      destruct (skills json_data) as [[[groups|] [soft|]]|];
        cbn [get default from_option id sk_technical sk_soft_skills
             length Nat.add]; rewrite ?replicate_add, ?app_nil_r; try done.
      + f_equal. induction groups as [|g groups IH]; [done|].
        cbn. by rewrite IH.
      + induction groups as [|g groups IH]; [done|].
        cbn. by rewrite IH. }
  split; [|exact Htypes].
  rewrite <- (length_fmap chunk_type), Htypes.
  rewrite !length_app, !length_replicate.
  destruct (personalInfo json_data) as [p|]; [|cbn; lia].
  destruct (has_members (json_of_personal_info p)); cbn; lia.
Qed.

Ltac title_of_type :=
  unfold chunk_title;
  cbn [chunk_type personal_info_chunk experience_chunk technical_skills_chunk
       soft_skills_chunk project_chunk education_chunk];
  repeat (let H := fresh "Htype" in
          case_decide as H;
          [try (exfalso; vm_compute in H; discriminate H)
          |try (exfalso; apply H; reflexivity)]).

(** X10. The title [insert_content_chunks] stores for a built chunk: the
    defaults 'Unknown' and 'General' of the title rules are never used,
    since every built chunk has a known type; a missing company, project
    name or institution is rendered as 'None', the soft skills chunk is
    titled 'Soft Skills Skills', and the stored category is the chunk
    type. *)
Theorem persisted_titles json_data professional_id :
  (forall p,
     chunk_title (personal_info_chunk p professional_id)
     = py "Professional Profile")
  /\ (forall i exp,
        chunk_title (experience_chunk professional_id i exp)
        = py "Experience at " ++ or_None (exp_company exp))
  /\ (forall category_group,
        chunk_title (technical_skills_chunk professional_id category_group)
        = get (cg_category category_group) (py "Technical") ++ py " Skills")
  /\ (forall soft_skills,
        chunk_title (soft_skills_chunk professional_id soft_skills)
        = py "Soft Skills Skills")
  /\ (forall i project,
        chunk_title (project_chunk professional_id i project)
        = py "Project: " ++ or_None (pr_name project))
  /\ (forall i edu,
        chunk_title (education_chunk professional_id i edu)
        = py "Education at " ++ or_None (edu_institution edu))
  /\ Forall (fun chunk =>
               forall row_id chunk_id,
                 ch_category (chunk_row row_id professional_id chunk_id chunk)
                 = VStr (ch_type (chunk_row row_id professional_id chunk_id chunk)))
       (create_content_chunks json_data professional_id).
Proof.
  split_and!.
  - intros p. by title_of_type.
  - intros i exp. title_of_type. unfold metadata_text. lookup_metadata.
    by destruct (exp_company exp).
  - intros g. title_of_type. unfold metadata_text. by lookup_metadata.
  - intros l. title_of_type. unfold metadata_text. by lookup_metadata.
  - intros i p. title_of_type. unfold metadata_text. lookup_metadata.
    by destruct (pr_name p).
  - intros i e. title_of_type. unfold metadata_text. lookup_metadata.
    by destruct (edu_institution e).
  - eapply Forall_impl; [apply built_chunks_metadata_helper|].
    intros chunk (_ & Htype & _) row_id chunk_id. cbn. by rewrite Htype.
Qed.

(** ** [main] on a document without [personalInfo] *)

Section MainFailure.

Variable unicode_decimal : N -> option N.
Variable content_hash_of : Document -> str.

Lemma try_except_exit {A : Type} (m : M A) w e w' :
  m w = (Raise e, w') ->
  try_except m (fun _ => raise (SystemExit 1)) w = (Raise (SystemExit 1), w').
Proof. intros H. unfold try_except. by rewrite H. Qed.

(** X19. On a file that holds a document without [personalInfo], [main]
    exits with status 1 whatever the services do, and the committed
    tables, the sequences and the vector index are as before; when both
    services answer the connection, the loader has logged its lines, one
    error is counted and only the connection has called the database. *)
Theorem main_without_personal_info json_data w :
  files w json_file_path = WellFormed (json_of_document json_data) ->
  personalInfo json_data = None ->
  exists w',
    main unicode_decimal content_hash_of json_data w
    = (Raise (SystemExit 1), w')
    /\ committed w' = committed w
    /\ sequences w' = sequences w
    /\ vector_index w' = vector_index w
    /\ (db_fails w (db_calls w) = false ->
        vector_fails w (vector_calls w) = false ->
        log w' = log w ++ loader_lines json_file_path json_data
        /\ errors_encountered (stats w') = 1
        /\ db_calls w' = S (db_calls w)).
Proof.
  intros Hfile Hpi.
  destruct w as [c p q n f ix vn vf sl s h hn fl lg].
  cbn [files] in Hfile.
  unfold main. cbn [files]. rewrite Hfile.
  destruct (f n) eqn:Hdb.
  { eexists. split.
    - eapply try_except_exit. unfold with_migrator.
      erewrite bind_ok by reflexivity.
      apply bind_raise. unfold connect_databases.
      apply bind_raise. world_simpl. rewrite Hdb. reflexivity.
    - world_simpl. split_and!; try done; intros; congruence. }
  destruct (vf vn) eqn:Hvec.
  { eexists. split.
    - eapply try_except_exit. unfold with_migrator.
      erewrite bind_ok by reflexivity.
      apply bind_raise. unfold connect_databases.
      erewrite bind_ok; cycle 1.
      { world_simpl. rewrite Hdb. reflexivity. }
      apply bind_raise. unfold index_info, vector_call. world_simpl.
      rewrite Hvec. reflexivity.
    - world_simpl. split_and!; try done; intros; congruence. }
  eexists. split.
  - eapply try_except_exit. unfold with_migrator.
    erewrite bind_ok by reflexivity.
    erewrite bind_ok; cycle 1.
    { unfold connect_databases.
      erewrite bind_ok; cycle 1.
      { world_simpl. rewrite Hdb. reflexivity. }
      erewrite bind_ok; cycle 1.
      { unfold index_info, vector_call. world_simpl. rewrite Hvec. reflexivity. }
      reflexivity. }
    unfold try_except at 1.
    erewrite bind_raise; cycle 1.
    { erewrite bind_ok; cycle 1.
      { apply load_and_validate_json_document. world_simpl. exact Hfile. }
      unfold run_stages. rewrite Hpi.
      apply bind_raise. reflexivity. }
    reflexivity.
  - world_simpl. split_and!; try done.
Qed.

End MainFailure.

Lemma main_without_personal_info_witness :
  exists w',
    main ascii_digits_only sample_hash
      sample_document_without_personal_info
      (sample_file_world sample_document_without_personal_info)
    = (Raise (SystemExit 1), w')
    /\ committed w' = empty_tables.
Proof.
  destruct (main_without_personal_info ascii_digits_only sample_hash
              sample_document_without_personal_info
              (sample_file_world sample_document_without_personal_info)
              eq_refl eq_refl) as (w' & Hrun & Hc & _).
  exists w'. split; [exact Hrun|exact Hc].
Defined.

(** ** The mock API *)

(** X20. [get_mock_sources] always starts with the two base sources and
    adds one source (no key word in the query) or two. The list names
    'test_rag_functionality.py' twice exactly when the query mentions
    'test' and none of 'system', 'architecture' and 'performance'. *)
Theorem mock_sources_shape query :
  take 2 (get_mock_sources query) = base_sources
  /\ (length (get_mock_sources query) = 3
      <-> contains (py "system") (lower query) = false
          /\ contains (py "architecture") (lower query) = false
          /\ contains (py "performance") (lower query) = false
          /\ contains (py "test") (lower query) = false)
  /\ (length (get_mock_sources query) = 3
      \/ length (get_mock_sources query) = 4)
  /\ (NoDup (get_mock_sources query)
      <-> get_mock_sources query
          <> base_sources ++ [py "test_rag_functionality.py"; py "debug_rag.py"])
  /\ (get_mock_sources query
      = base_sources ++ [py "test_rag_functionality.py"; py "debug_rag.py"]
      <-> contains (py "test") (lower query) = true
          /\ contains (py "system") (lower query) = false
          /\ contains (py "architecture") (lower query) = false
          /\ contains (py "performance") (lower query) = false).
Proof.
  unfold get_mock_sources.
  destruct (contains (py "system") (lower query)) eqn:Hs;
    destruct (contains (py "architecture") (lower query)) eqn:Ha;
    destruct (contains (py "performance") (lower query)) eqn:Hp;
    destruct (contains (py "test") (lower query)) eqn:Ht;
    cbn [orb base_sources app take length].
  all: split; [reflexivity|].
  all: split; [split; [intros H; try discriminate H; done
                      |intros (? & ? & ? & ?); done]|].
  all: split; [first [left; reflexivity|right; reflexivity]|].
  all: split; [split; [intros Hnd;
                     first [intros H; vm_compute in H; discriminate H
                           |apply NoDup_cons in Hnd as [_ Hnd];
                            apply NoDup_cons in Hnd as [Hnot _];
                            exfalso; apply Hnot; apply elem_of_cons; by left]
                    |intros H;
                     first [by contradict H
                           |refine (bool_decide_unpack _ _); by vm_compute]]|].
  all: split; [intros H; first [vm_compute in H; discriminate H|done]
            |intros (? & ? & ? & ?); done].
Qed.

Lemma fallback_response_head query : fallback_response query !! 0 = Some 66%N.
Proof. reflexivity. Qed.

Lemma fallback_response_not_fixed query text :
  text !! 0 <> Some 66%N -> text <> fallback_response query.
Proof. intros H ->. by rewrite fallback_response_head in H. Qed.

(** X21. [generate_mock_response] and [get_mock_sources] on the same
    query: the architecture sources come with the architecture reply, the
    fallback reply comes with the README source, and a query that
    mentions 'database' but neither 'system' nor 'architecture' gets the
    architecture reply without the architecture sources. *)
Theorem mock_response_and_sources query :
  (get_mock_sources query
   = base_sources
     ++ [py "docs/current_system_overview.md"; py "IMPLEMENTATION_SUMMARY.md"] ->
   generate_mock_response query = architecture_response)
  /\ (generate_mock_response query = fallback_response query ->
      get_mock_sources query = base_sources ++ [py "README.md"])
  /\ (contains (py "database") (lower query) = true ->
      contains (py "system") (lower query) = false ->
      contains (py "architecture") (lower query) = false ->
      generate_mock_response query = architecture_response
      /\ get_mock_sources query
         <> base_sources
            ++ [py "docs/current_system_overview.md";
                py "IMPLEMENTATION_SUMMARY.md"]).
Proof.
  unfold generate_mock_response, get_mock_sources.
  cbn [any_in existsb].
  destruct (contains (py "system") (lower query)) eqn:Hs;
    destruct (contains (py "architecture") (lower query)) eqn:Ha;
    cbn [orb].
  1-3: split_and!; [done| |done];
       intros H; exfalso; revert H; by apply fallback_response_not_fixed.
  split_and!.
  - destruct (contains (py "performance") (lower query));
      [|destruct (contains (py "test") (lower query))];
      intros H; vm_compute in H; discriminate H.
  - destruct (contains (py "database") (lower query)); cbn [orb].
    { intros H; exfalso; revert H; by apply fallback_response_not_fixed. }
    destruct (contains (py "performance") (lower query)); cbn [orb].
    { intros H; exfalso; revert H; by apply fallback_response_not_fixed. }
    destruct (contains (py "speed") (lower query)); cbn [orb].
    { intros H; exfalso; revert H; by apply fallback_response_not_fixed. }
    destruct (contains (py "latency") (lower query)); cbn [orb].
    { intros H; exfalso; revert H; by apply fallback_response_not_fixed. }
    destruct (contains (py "test") (lower query)); cbn [orb].
    { intros H; exfalso; revert H; by apply fallback_response_not_fixed. }
    done.
  - intros -> _ _. cbn [orb]. split; [done|].
    destruct (contains (py "performance") (lower query));
      [|destruct (contains (py "test") (lower query))];
      intros H; vm_compute in H; discriminate H.
Qed.

(** ** The further properties on the sample inputs *)

(** A [personalInfo] with one unread key and an empty list of soft skills
    give one chunk each. *)
Lemma built_chunks_count_witness :
  length (create_content_chunks sparse_document 1) = 2
  /\ chunk_type <$> create_content_chunks sparse_document 1
     = [py "personal_info"; py "skills"].
Proof.
  pose proof (built_chunks_count sparse_document 1) as [Hlength Htypes].
  split; [rewrite Hlength; reflexivity|rewrite Htypes; reflexivity].
Defined.

(** The sample person stored into a database that holds an older row for
    the same e-mail: the row keeps its id and e-mail and takes the values
    of the document. *)
Lemma insert_professional_data_outcome_witness :
  exists w',
    insert_professional_data sample_personal_info stale_world = (Ok 7%Z, w')
    /\ professionals (committed w')
       = [{| p_id := 7; p_name := Some (py "Alex");
             p_title := Some (py "Engineer"); p_location := None;
             p_email := Some (py "alex@example.org");
             p_linkedin := None; p_github := None; p_portfolio := None;
             p_summary := None; p_elevator_pitch := None |}]
    /\ stats w' = stats stale_world.
Proof.
  exists (insert_professional_data sample_personal_info stale_world).2.
  assert (Hrun : insert_professional_data sample_personal_info stale_world
                 = (Ok 7%Z,
                    (insert_professional_data sample_personal_info
                       stale_world).2))
    by (vm_compute; reflexivity).
  split; [exact Hrun|].
  pose proof (insert_professional_data_outcome sample_personal_info
                stale_world) as H.
  rewrite Hrun in H.
  assert (Hsel : select_professional
                   (pi_contact sample_personal_info ≫= c_email)
                   (pending stale_world) = Some 7%Z)
    by (vm_compute; reflexivity).
  rewrite Hsel in H.
  destruct H as (_ & (_ & Hrows & _ & Hstats) & _).
  split; [rewrite Hrows; reflexivity|exact Hstats].
Defined.

(** The sample person stored into an empty database and looked up by
    e-mail. *)
Lemma insert_professional_data_lookup_witness :
  exists w',
    insert_professional_data sample_personal_info
      (sample_world NoSuchFile never) = (Ok 1%Z, w')
    /\ select_professional (Some (py "alex@example.org")) (committed w')
       = Some 1%Z.
Proof.
  exists (insert_professional_data sample_personal_info
            (sample_world NoSuchFile never)).2.
  assert (Hrun : insert_professional_data sample_personal_info
                   (sample_world NoSuchFile never)
                 = (Ok 1%Z,
                    (insert_professional_data sample_personal_info
                       (sample_world NoSuchFile never)).2))
    by (vm_compute; reflexivity).
  split; [exact Hrun|].
  exact (proj1 (insert_professional_data_lookup _ _ _ _ Hrun) _ eq_refl).
Defined.

(** One chunk that holds its vector id, embedded into an empty index. *)
Lemma generate_vector_embeddings_replaces_index_witness :
  exists w',
    generate_vector_embeddings [0] keyed_world = (Ok tt, w')
    /\ vector_index w' = [vector_of keyed_chunk]
    /\ vector_calls w' = 2
    /\ vectors_embedded (stats w') = 1.
Proof.
  destruct (generate_vector_embeddings_replaces_index [0] keyed_world)
    as (w' & Hrun & _ & Hindex & Hcalls & Hcount & _).
  - intros n. reflexivity.
  - intros ref _. eexists. apply lookup_insert_eq.
  - exists w'. split; [exact Hrun|].
    split; [apply Hindex; apply NoDup_singleton|].
    split; [exact Hcalls|exact Hcount].
Defined.

(** One chunk without a vector id. *)
Lemma missing_vector_id_aborts_witness :
  exists w',
    generate_vector_embeddings [0] (sample_world NoSuchFile never)
    = (Raise KeyError, w')
    /\ vectors_embedded (stats w') = 0
    /\ errors_encountered (stats w') = 1
    /\ vector_index w' = [].
Proof.
  destruct (missing_vector_id_aborts [] 0 [] (sample_world NoSuchFile never))
    as (w' & Hrun & Hcount & Herrors & Hindex).
  - unfold batch_size. simpl. lia.
  - intros r Hr. by apply elem_of_nil in Hr.
  - reflexivity.
  - exists w'. split; [exact Hrun|]. split; [exact Hcount|].
    split; [exact Herrors|exact Hindex].
Defined.

(** [parse_date('March 2021')]. *)
Lemma parse_date_first_of_month_witness :
  exists d,
    parse_date ascii_digits_only (py "March 2021") = Ok (Some d)
    /\ (1 <= year d)%N /\ (1 <= month d <= 12)%N /\ day d = 1%N.
Proof.
  exists (mk_datetime 2021 3 1).
  assert (H : parse_date ascii_digits_only (py "March 2021")
              = Ok (Some (mk_datetime 2021 3 1))) by (vm_compute; reflexivity).
  split; [exact H|].
  exact (parse_date_first_of_month ascii_digits_only _ _ H).
Defined.

(** [parse_duration('2019 - Present')]. *)
Lemma parse_duration_invariants_witness :
  exists start_date,
    parse_duration ascii_digits_only (py "2019 - Present")
    = Ok (start_date, None, true)
    /\ valid_date start_date.
Proof.
  exists (Some (mk_datetime 2019 1 1)).
  assert (H : parse_duration ascii_digits_only (py "2019 - Present")
              = Ok (Some (mk_datetime 2019 1 1), None, true))
    by (vm_compute; reflexivity).
  split; [exact H|].
  exact (proj1 (proj2 (parse_duration_invariants ascii_digits_only _ _ _ _ H))).
Defined.

(** July 2021 in the four numeric formats. *)
Lemma parse_date_numeric_witness :
  parse_date ascii_digits_only (py "2021-07") = Ok (Some (mk_datetime 2021 7 1))
  /\ parse_date ascii_digits_only (py "2021/07")
     = Ok (Some (mk_datetime 2021 7 1))
  /\ parse_date ascii_digits_only (py "07/2021")
     = Ok (Some (mk_datetime 2021 7 1))
  /\ parse_date ascii_digits_only (py "2021") = Ok (Some (mk_datetime 2021 1 1)).
Proof.
  apply (parse_date_numeric ascii_digits_only 2 0 2 1 7); vm_compute;
    try discriminate; split; discriminate.
Defined.

(** [parse_date('MARCH 2021')] and [parse_date('Sep 2021')]. *)
Lemma parse_date_month_names_witness :
  parse_date ascii_digits_only (py "MARCH 2021")
  = Ok (Some (mk_datetime 2021 3 1))
  /\ parse_date ascii_digits_only (py "Sep 2021")
     = Ok (Some (mk_datetime 2021 9 1)).
Proof.
  split.
  - apply (parse_date_month_names ascii_digits_only (py "MARCH") (py "march")
             3 2 0 2 1);
      [refine (bool_decide_unpack _ _); vm_compute; exact I
      |reflexivity
      |vm_compute; discriminate..].
  - apply (parse_date_month_names ascii_digits_only (py "Sep") (py "sep")
             9 2 0 2 1);
      [refine (bool_decide_unpack _ _); vm_compute; exact I
      |reflexivity
      |vm_compute; discriminate..].
Defined.

(** ** What the loader logs for a profile document *)

(** X22. On a file that holds a profile document (the sections and keys
    the migrator reads), [load_and_validate_json] returns it and logs no
    error line; it warns about exactly the missing sections, when there
    are any; and next to the numbers of experiences, projects and
    education entries it logs as 'Skills' how many of the keys 'technical'
    and 'soft_skills' the skills object has, hence at most 2, not the
    number of skills. *)
Theorem loader_counts file_path d w :
  files w file_path = WellFormed (json_of_document d) ->
  exists lines,
    load_and_validate_json file_path w
    = (Ok (json_of_document d), set_log (log w ++ lines) w)
    /\ existsb is_error_line lines = false
    /\ (forall missing,
          WarningMissingSections missing ∈ lines
          <-> missing = missing_of d /\ missing <> [])
    /\ InfoCount (py "Experiences") (length (get (experience d) [])) ∈ lines
    /\ InfoCount (py "Skills") (from_option skills_keys 0 (skills d)) ∈ lines
    /\ from_option skills_keys 0 (skills d) <= 2
    /\ InfoCount (py "Projects") (length (get (projects d) [])) ∈ lines
    /\ InfoCount (py "Education") (length (get (education d) [])) ∈ lines.
Proof.
  intros Hfile. exists (loader_lines file_path d).
  split; [by apply load_and_validate_json_document|].
  unfold loader_lines.
  split; [by destruct (missing_of d)|].
  split.
  { intros missing. rewrite !elem_of_app, list_elem_of_singleton.
    split.
    - intros [H|[H|H]]; [discriminate H| |].
      + destruct (missing_of d) as [|s l] eqn:E.
        * by apply elem_of_nil in H.
        * apply list_elem_of_singleton in H. injection H as ->. done.
      + rewrite !elem_of_cons, elem_of_nil in H.
        destruct H as [H|[H|[H|[H|[H|[]]]]]]; discriminate H.
    - intros [-> Hne]. right. left.
      destruct (missing_of d); [done|]. by apply list_elem_of_singleton. }
  split_and!.
  - rewrite !elem_of_app, !elem_of_cons. right. right. right. by left.
  - rewrite !elem_of_app, !elem_of_cons. right. right. right. right. by left.
  - destruct (skills d) as [[[?|] [?|]]|]; cbn; lia.
  - rewrite !elem_of_app, !elem_of_cons. do 5 right. by left.
  - rewrite !elem_of_app, !elem_of_cons. do 6 right. by left.
Qed.

(** The sample document: two keys under [skills]. *)
Lemma loader_counts_witness :
  exists lines,
    load_and_validate_json json_file_path (sample_file_world sample_document)
    = (Ok (json_of_document sample_document),
       set_log lines (sample_file_world sample_document))
    /\ InfoCount (py "Skills") 2 ∈ lines
    /\ existsb is_error_line lines = false.
Proof.
  destruct (loader_counts json_file_path sample_document
              (sample_file_world sample_document) eq_refl)
    as (lines & Hrun & Herr & _ & _ & Hskills & _).
  exists lines. split; [exact Hrun|]. split; [exact Hskills|exact Herr].
Defined.
